(** * bilibili_api.article: the rich-text document converter

    A shallow embedding of [src/bilibili_api/article.py]: the node classes
    with their two renderers, the recursive HTML walker nested in
    [Article.fetch_content], and the [Article] facade with its cached
    payload and parsed flag.

    Conventions.
    - A Python [str] is a Rocq [string]; one [ascii] stands for one code
      point, so [chr(160)] is the single character of code 160.
    - A Python exception is a value of [exn]; a call that may raise returns
      a [result].
    - Objects mutated in place (the nodes, the article, the module level
      caches) are passed in and handed back explicitly. *)

From Stdlib Require Import String Ascii List ZArith Bool Lia DecimalString.
Import ListNotations.
Set Warnings "-register-all".
Open Scope list_scope.
Open Scope string_scope.

(** ** Python strings *)

Module PyStr.

Definition chr (n : nat) : ascii := ascii_of_nat n.

Definition str1 (c : ascii) : string := String c "".

Fixpoint drop (n : nat) (s : string) : string :=
  match n, s with
  | O, _ => s
  | S _, "" => ""
  | S k, String _ s' => drop k s'
  end.

(** [sub in s] on strings. *)
Fixpoint contains (sub s : string) : bool :=
  prefix sub s ||
  match s with
  | "" => false
  | String _ s' => contains sub s'
  end.

(** [s.replace(old, new)]: leftmost, non-overlapping occurrences.  After a
    match the remaining [length old - 1] characters of the occurrence are
    skipped.  With an empty [old] Python inserts [new] around every
    character. *)
Fixpoint replace_from (old new : string) (skip : nat) (s : string) : string :=
  match s with
  | "" => ""
  | String c s' =>
      match skip with
      | S k => replace_from old new k s'
      | O =>
          if prefix old s
          then new ++ replace_from old new (String.length old - 1) s'
          else String c (replace_from old new 0 s')
      end
  end.

Fixpoint intersperse (new s : string) : string :=
  match s with
  | "" => new
  | String c s' => new ++ String c (intersperse new s')
  end.

Definition replace (old new s : string) : string :=
  match old with
  | "" => intersperse new s
  | _ => replace_from old new 0 s
  end.

(** [s.split(sep)] for a non-empty separator; [cur] is the piece being
    read, most recent character first. *)
Fixpoint rev_string (acc s : string) : string :=
  match s with
  | "" => acc
  | String c s' => rev_string (String c acc) s'
  end.

Fixpoint split_from (sep : string) (skip : nat) (cur s : string)
  : list string :=
  match s with
  | "" => [rev_string "" cur]
  | String c s' =>
      match skip with
      | S k => split_from sep k cur s'
      | O =>
          if prefix sep s
          then rev_string "" cur :: split_from sep (String.length sep - 1) "" s'
          else split_from sep 0 (String c cur) s'
      end
  end.

Definition split (sep s : string) : list string := split_from sep 0 "" s.

(** [sep.join(parts)] *)
Definition join (sep : string) (parts : list string) : string :=
  String.concat sep parts.

(** [str.isspace] on the code points below 256. *)
Definition is_space (c : ascii) : bool :=
  let n := nat_of_ascii c in
  ((9 <=? n) && (n <=? 13) || (28 <=? n) && (n <=? 32)
   || (n =? 133) || (n =? 160))%nat.

Fixpoint lstrip (s : string) : string :=
  match s with
  | "" => ""
  | String c s' => if is_space c then lstrip s' else s
  end.

Fixpoint rstrip (s : string) : string :=
  match s with
  | "" => ""
  | String c s' =>
      match rstrip s' with
      | "" => if is_space c then "" else str1 c
      | r => String c r
      end
  end.

(** [str.lower] on the code points below 256. *)
Definition lower_char (c : ascii) : ascii :=
  let n := nat_of_ascii c in
  if ((65 <=? n) && (n <=? 90)
      || (192 <=? n) && (n <=? 222) && negb (n =? 215))%nat
  then ascii_of_nat (n + 32) else c.

Fixpoint lower (s : string) : string :=
  match s with
  | "" => ""
  | String c s' => String (lower_char c) (lower s')
  end.

Definition is_digit (c : ascii) : bool :=
  let n := nat_of_ascii c in ((48 <=? n) && (n <=? 57))%nat.

Definition digit_value (c : ascii) : Z := Z.of_nat (nat_of_ascii c - 48).

(** Every character of [s] passes [p]. *)
Fixpoint all_chars (p : ascii -> bool) (s : string) : bool :=
  match s with
  | "" => true
  | String c s' => p c && all_chars p s'
  end.

(** [f"{n}"] for an [int]. *)
Definition format_int (z : Z) : string := NilZero.string_of_int (Z.to_int z).

(** Substitution of one character, the shape every [replace] of the
    renderers has. *)
Fixpoint subst_char (f : ascii -> string) (s : string) : string :=
  match s with
  | "" => ""
  | String c s' => f c ++ subst_char f s'
  end.

End PyStr.

(** ** Exceptions and results *)

Inductive exn :=
| ApiException (msg : string)
| KeyError (key : string)
| IndexError
| TypeError
| ValueError
| AttributeError
| NetworkException.

Inductive result (A : Type) :=
| Ok (a : A)
| Raise (e : exn).
Arguments Ok {A} a.
Arguments Raise {A} e.

Definition is_ok {A} (r : result A) : bool :=
  match r with Ok _ => true | Raise _ => false end.

Definition rbind {A B} (r : result A) (k : A -> result B) : result B :=
  match r with
  | Ok a => k a
  | Raise e => Raise e
  end.

Definition rmap {A B} (f : A -> B) (r : result A) : result B :=
  rbind r (fun a => Ok (f a)).

Definition lookup {V} (k : string) (d : list (string * V)) : option V :=
  match find (fun kv => String.eqb (fst kv) k) d with
  | Some kv => Some (snd kv)
  | None => None
  end.

(** [d[k]] on a dict with string keys. *)
Definition getitem {V} (d : list (string * V)) (k : string) : result V :=
  match lookup k d with
  | Some v => Ok v
  | None => Raise (KeyError k)
  end.

(** [int(s)]: optional surrounding whitespace, optional sign, decimal digits
    with single underscores allowed between digits.  The whitespace [int]
    skips is narrower than that of [str.strip]: the separators [chr(28)] to
    [chr(31)] are not part of it.  The interpreter's bound on the number of
    digits it converts, a setting of the process, is not part of the
    model. *)
Module PyInt.
Import PyStr.

Definition is_int_space (c : ascii) : bool :=
  let n := nat_of_ascii c in
  ((9 <=? n) && (n <=? 13) || (n =? 32) || (n =? 133) || (n =? 160))%nat.

Fixpoint skip_left (s : string) : string :=
  match s with
  | "" => ""
  | String c s' => if is_int_space c then skip_left s' else s
  end.

Fixpoint skip_right (s : string) : string :=
  match s with
  | "" => ""
  | String c s' =>
      match skip_right s' with
      | "" => if is_int_space c then "" else str1 c
      | r => String c r
      end
  end.

Fixpoint digits (acc : Z) (after_digit : bool) (s : string) : result Z :=
  match s with
  | "" => if after_digit then Ok acc else Raise ValueError
  | String c s' =>
      if is_digit c then digits (10 * acc + digit_value c) true s'
      else if Ascii.eqb c "_" && after_digit
           then match s' with
                | String d _ => if is_digit d then digits acc false s'
                                else Raise ValueError
                | "" => Raise ValueError
                end
           else Raise ValueError
  end.

Definition int (s : string) : result Z :=
  match skip_right (skip_left s) with
  | String c s' as t =>
      if Ascii.eqb c "-" then rmap Z.opp (digits 0 false s')
      else if Ascii.eqb c "+" then digits 0 false s'
      else digits 0 false t
  | "" => Raise ValueError
  end.
End PyInt.

(** ** The markup tree handed over by BeautifulSoup

    [contents] holds strings and tags in document order.  [class] is the one
    attribute the builder splits into a list of tokens; every other
    attribute is a plain string and lives in [attrs]. *)

Inductive Soup :=
| NavigableString (s : string)
| Tag (name : string) (class : option (list string))
      (attrs : list (string * string)) (contents : list Soup).

Module Bs4.

Definition contents (e : Soup) : list Soup :=
  match e with
  | NavigableString _ => []
  | Tag _ _ _ cs => cs
  end.

(** [e.text]: every string below [e], concatenated. *)
Fixpoint text (e : Soup) : string :=
  match e with
  | NavigableString s => s
  | Tag _ _ _ cs =>
      (fix go (l : list Soup) : string :=
         match l with
         | [] => ""
         | x :: r => text x ++ go r
         end) cs
  end.

(** The first tag called [name] at or below [e], in document order. *)
Fixpoint find_at (name : string) (e : Soup) : option Soup :=
  match e with
  | NavigableString _ => None
  | Tag n _ _ cs =>
      if String.eqb n name then Some e
      else (fix go (l : list Soup) : option Soup :=
              match l with
              | [] => None
              | x :: r => match find_at name x with
                          | Some t => Some t
                          | None => go r
                          end
              end) cs
  end.

Fixpoint find_first (name : string) (l : list Soup) : option Soup :=
  match l with
  | [] => None
  | x :: r => match find_at name x with
              | Some t => Some t
              | None => find_first name r
              end
  end.

(** [e.find(name)]: the first descendant tag called [name]. *)
Definition find (e : Soup) (name : string) : option Soup :=
  find_first name (contents e).

(** Everything below [e], in document order. *)
Fixpoint descendants (e : Soup) : list Soup :=
  match e with
  | NavigableString _ => []
  | Tag _ _ _ cs =>
      (fix go (l : list Soup) : list Soup :=
         match l with
         | [] => []
         | x :: r => (x :: descendants x) ++ go r
         end)%list cs
  end.

(** [e.find_all(name, cls)], which is also what calling a tag does: the
    tags below [e] called [name] whose class has the token [cls]. *)
Definition find_all (e : Soup) (name cls : string) : list Soup :=
  filter (fun d => match d with
                   | Tag n (Some tokens) _ _ =>
                       String.eqb n name && existsb (String.eqb cls) tokens
                   | _ => false
                   end) (descendants e).

Definition has_attr (k : string) (attrs : list (string * string)) : bool :=
  match lookup k attrs with Some _ => true | None => false end.

(** [x in tokens] on the token list of a [class] attribute. *)
Definition has_token (x : string) (tokens : list string) : bool :=
  existsb (String.eqb x) tokens.

End Bs4.

(** Induction on a tree with the property known of all its contents. *)
Section SoupInduction.
Variable P : Soup -> Prop.
Hypothesis step : forall e, Forall P (Bs4.contents e) -> P e.

Definition all_contents (rec : forall e, P e) : forall l, Forall P l :=
  fix go (l : list Soup) : Forall P l :=
    match l with
    | [] => Forall_nil P
    | x :: r => Forall_cons x (rec x) (go r)
    end.

Fixpoint Soup_contents_ind (e : Soup) : P e :=
  step e
    match e return Forall P (Bs4.contents e) with
    | NavigableString _ => Forall_nil P
    | Tag _ _ _ cs => all_contents Soup_contents_ind cs
    end.
End SoupInduction.

(** ** Values of the JSON rendering *)

Inductive pyval :=
| PNone
| PBool (b : bool)
| PInt (z : Z)
| PStr (s : string)
| PElem (e : Soup)
| PList (l : list pyval)
| PDict (d : list (string * pyval)).

(** A string of the tree is a [str]; a tag stays the bs4 object it is. *)
Definition pyval_of_soup (e : Soup) : pyval :=
  match e with
  | NavigableString s => PStr s
  | Tag _ _ _ _ => PElem e
  end.

(** ** The node classes

    One constructor per class, carrying the instance attributes.  The
    caption of an image and the text of an anchor are whatever
    [contents[0]] was, a string or a tag; the class default [''] is
    [NavigableString ""]. *)

Inductive Node :=
| ParagraphNode (align : string) (children : list Node)
| HeadingNode (children : list Node)
| BlockquoteNode (children : list Node)
| ItalicNode (children : list Node)
| BoldNode (children : list Node)
| DelNode (children : list Node)
| UnderlineNode (children : list Node)
| UlNode (children : list Node)
| OlNode (children : list Node)
| LiNode (children : list Node)
| ColorNode (color : string) (children : list Node)
| FontSizeNode (size : Z) (children : list Node)
| TextNode (text : string)
| ImageNode (url : option string) (alt : Soup)
| LatexNode (code : string)
| CodeNode (code lang : string)
| VideoCardNode (aid : Z)
| ArticleCardNode (cvid : Z)
| BangumiCardNode (epid : Z)
| MusicCardNode (auid : Z)
| ShopCardNode (pwid : Z)
| ComicCardNode (mcid : Z)
| LiveCardNode (room_id : Z)
| AnchorNode (url : string) (text : Soup)
| SeparatorNode.

(** ** URL scheme

    The scheme of a url by the grammar of RFC 3986: the text before the
    first colon when it is a letter followed by letters, digits, [+], [-]
    or [.], lowercased; the empty string otherwise.  This is the reader of
    the sample collaborators below.  yarl itself does more (it cleans the
    url and rejects some); what the renderers use of it is a field of
    [Collaborators]. *)

Module Yarl.
Import PyStr.

Definition is_alpha (c : ascii) : bool :=
  let n := nat_of_ascii c in
  ((65 <=? n) && (n <=? 90) || (97 <=? n) && (n <=? 122))%nat.

Definition scheme_char (c : ascii) : bool :=
  is_alpha c || is_digit c
  || Ascii.eqb c "+" || Ascii.eqb c "-" || Ascii.eqb c ".".

Fixpoint before_colon (s : string) : option string :=
  match s with
  | "" => None
  | String c s' =>
      if Ascii.eqb c ":" then Some ""
      else option_map (String c) (before_colon s')
  end.

Definition scheme (u : string) : string :=
  match before_colon u with
  | Some (String c _ as p) =>
      if is_alpha c && all_chars scheme_char p then lower p else ""
  | _ => ""
  end.

End Yarl.

(** ** What the module imports and calls

    The network and the libraries the module calls into.  A network call
    sees the requests made so far, so that two calls with the same argument
    need not answer alike. *)

Inductive Request :=
| InitialState (url : string)
| ParseLink (href : string).

(** [parse_link] answers with a resource and its [ResourceType]; only four
    kinds are looked at. *)
Inductive Resource :=
| VIDEO (aid : Z)
| AUDIO (auid : Z)
| LIVE (room_display_id : Z)
| ARTICLE (cvid : Z)
| OtherResource.

Record Collaborators := {
  html_unescape : string -> string;
  unquote : string -> string;
  yaml_safe_dump : pyval -> string;
  (** [BeautifulSoup(markup, "lxml").find("div")] *)
  lxml_first_div : string -> Soup;
  (** how an f-string shows a value that is not a [str] *)
  format_value : pyval -> string;
  get_initial_state : list Request -> string -> result pyval;
  parse_link : list Request -> string -> result Resource;
  (** [URL(url).scheme] of yarl, or what [URL(url)] raises on a url it
      cannot read *)
  yarl_scheme : string -> result string
}.

Definition NL : string := PyStr.str1 (PyStr.chr 10).
Definition TAB : string := PyStr.str1 (PyStr.chr 9).
Definition NBSP : string := PyStr.str1 (PyStr.chr 160).

(** ** Rendering

    A renderer hands back the node as the call leaves it together with what
    the call returns or raises.  A list comprehension over the children
    stops at the first child that raises; the children visited so far keep
    what their own call did to them. *)

Section RenderAll.
Context {A : Type} (render : Node -> Node * result A).

Fixpoint render_all (l : list Node) : list Node * result (list A) :=
  match l with
  | [] => ([], Ok [])
  | x :: r =>
      let (x', rx) := render x in
      match rx with
      | Raise e => (x' :: r, Raise e)
      | Ok a =>
          let (r', rr) := render_all r in
          (x' :: r', rmap (cons a) rr)
      end
  end.
End RenderAll.

Definition special_chars : list string :=
  ["\"; "*"; "$"; "<"; ">"; "|"; "~"; "_"].

(** [enumerate]: the items of [l] numbered from [i]. *)
Fixpoint enumerate {A} (i : Z) (l : list A) : list (Z * A) :=
  match l with
  | [] => []
  | x :: r => (i, x) :: enumerate (i + 1) r
  end.

Section Rendering.
Variable lib : Collaborators.
Import PyStr.

(** [ImageNode.markdown] and [ImageNode.json] start alike: the url is read
    and, when it has no scheme, rewritten in place.  [rewritten] is the url
    the node holds after a read that found [scheme]. *)
Definition rewritten (scheme u : string) : string :=
  if String.eqb scheme "" then "https:" ++ u else u.

Definition normalize_url (u : string) : string :=
  match yarl_scheme lib u with
  | Ok scheme => rewritten scheme u
  | Raise _ => u
  end.

(** [x.replace("[", "\\[")] as the f-string shows it, for the caption of an
    image and the text of an anchor.  On a string it is the string
    method.  On a tag, [x.replace] is [x.find("replace")]: without such a
    tag below [x] the call of [None] raises; with one, the call is that
    tag's [find_all] and the f-string shows the list it returns. *)
Definition escaped_bracket (x : Soup) : result string :=
  match x with
  | NavigableString a => Ok (replace "[" "\[" a)
  | Tag _ _ _ _ =>
      match Bs4.find x "replace" with
      | None => Raise TypeError
      | Some found =>
          Ok (format_value lib
                (PList (map PElem (Bs4.find_all found "[" "\["))))
      end
  end.

Definition TextNode_markdown (text : string) : string :=
  let txt := replace TAB " " text in
  let txt := replace " " "&emsp;" txt in
  let txt := replace NBSP "&emsp;" txt in
  fold_left (fun txt c => replace c ("\" ++ c) txt) special_chars txt.

Fixpoint markdown (n : Node) : Node * result string :=
  match n with
  | ParagraphNode al ch =>
      let (ch', r) := render_all markdown ch in
      (ParagraphNode al ch', rmap (fun ss => join "" ss ++ NL ++ NL) r)
  | HeadingNode ch =>
      let (ch', r) := render_all markdown ch in
      (HeadingNode ch',
       rmap (fun ss => let text := join "" ss in
                       if (String.length text =? 0)%nat then ""
                       else "## " ++ text ++ NL ++ NL) r)
  | BlockquoteNode ch =>
      let (ch', r) := render_all markdown ch in
      (BlockquoteNode ch',
       rmap (fun ss => let t := join "" ss in
                       join NL (map (fun line => "> " ++ line) (split NL t))
                       ++ NL ++ NL) r)
  | ItalicNode ch =>
      let (ch', r) := render_all markdown ch in
      (ItalicNode ch',
       rmap (fun ss => let text := join "" ss in
                       if (String.length text =? 0)%nat then ""
                       else " *" ++ text ++ "* ") r)
  | BoldNode ch =>
      let (ch', r) := render_all markdown ch in
      (BoldNode ch',
       rmap (fun ss => let t := join "" ss in
                       if (String.length t =? 0)%nat then ""
                       else " **" ++ rstrip (lstrip t) ++ "** ") r)
  | DelNode ch =>
      let (ch', r) := render_all markdown ch in
      (DelNode ch',
       rmap (fun ss => let text := join "" ss in
                       if (String.length text =? 0)%nat then ""
                       else " ~~" ++ text ++ "~~ ") r)
  | UnderlineNode ch =>
      let (ch', r) := render_all markdown ch in
      (UnderlineNode ch',
       rmap (fun ss => let text := join "" ss in
                       if (String.length text =? 0)%nat then ""
                       else " $\underline{" ++ text ++ "}$ ") r)
  | UlNode ch =>
      let (ch', r) := render_all markdown ch in
      (UlNode ch', rmap (fun ss => join NL (map (fun s => "- " ++ s) ss)) r)
  | OlNode ch =>
      let (ch', r) := render_all markdown ch in
      (OlNode ch',
       rmap (fun ss =>
               join NL (map (fun '(i, s) => format_int (i + 1) ++ ". " ++ s)
                            (enumerate 0 ss))) r)
  | LiNode ch =>
      let (ch', r) := render_all markdown ch in
      (LiNode ch', rmap (join "") r)
  | ColorNode c ch =>
      let (ch', r) := render_all markdown ch in
      (ColorNode c ch', rmap (join "") r)
  | FontSizeNode sz ch =>
      let (ch', r) := render_all markdown ch in
      (FontSizeNode sz ch', rmap (join "") r)
  | TextNode text => (n, Ok (TextNode_markdown text))
  | ImageNode None _ => (n, Raise TypeError)
  | ImageNode (Some u) alt =>
      match yarl_scheme lib u with
      | Raise e => (n, Raise e)
      | Ok scheme =>
          let u' := rewritten scheme u in
          (ImageNode (Some u') alt,
           rmap (fun a => "![" ++ a ++ "](" ++ u' ++ ")" ++ NL ++ NL)
                (escaped_bracket alt))
      end
  | LatexNode code =>
      (n, Ok (if contains NL code
              then "$$" ++ NL ++ code ++ NL ++ "$$"
              else "$" ++ code ++ "$"))
  | CodeNode code lang =>
      let code' := html_unescape lib code in
      (CodeNode code' lang,
       Ok ("```" ++ lang ++ NL ++ code' ++ NL ++ "```" ++ NL ++ NL))
  | VideoCardNode aid =>
      (n, Ok ("[视频 av" ++ format_int aid ++ "](https://www.bilibili.com/av"
              ++ format_int aid ++ ")" ++ NL ++ NL))
  | ArticleCardNode cvid =>
      (n, Ok ("[文章 cv" ++ format_int cvid
              ++ "](https://www.bilibili.com/read/cv"
              ++ format_int cvid ++ ")" ++ NL ++ NL))
  | BangumiCardNode epid =>
      (n, Ok ("[番剧 ep" ++ format_int epid
              ++ "](https://www.bilibili.com/bangumi/play/ep"
              ++ format_int epid ++ ")" ++ NL ++ NL))
  | MusicCardNode auid =>
      (n, Ok ("[音乐 au" ++ format_int auid
              ++ "](https://www.bilibili.com/audio/au"
              ++ format_int auid ++ ")" ++ NL ++ NL))
  | ShopCardNode pwid =>
      (n, Ok ("[会员购 " ++ format_int pwid
              ++ "](https://show.bilibili.com/platform/detail.html?id="
              ++ format_int pwid ++ ")" ++ NL ++ NL))
  | ComicCardNode mcid =>
      (n, Ok ("[漫画 mc" ++ format_int mcid
              ++ "](https://manga.bilibili.com/m/detail/mc"
              ++ format_int mcid ++ ")" ++ NL ++ NL))
  | LiveCardNode room_id =>
      (n, Ok ("[直播 " ++ format_int room_id
              ++ "](https://live.bilibili.com/"
              ++ format_int room_id ++ ")" ++ NL ++ NL))
  | AnchorNode url text =>
      (n, rmap (fun t => "[" ++ t ++ "](" ++ url ++ ")")
               (escaped_bracket text))
  | SeparatorNode => (n, Ok (NL ++ "------" ++ NL))
  end.

Definition container_json (type : string) (extra : list (string * pyval))
           (r : result (list pyval)) : result pyval :=
  rmap (fun js => PDict (("type", PStr type) :: extra
                         ++ [("children", PList js)])%list) r.

Fixpoint json (n : Node) : Node * result pyval :=
  match n with
  | ParagraphNode al ch =>
      let (ch', r) := render_all json ch in
      (ParagraphNode al ch', container_json "ParagraphNode" [] r)
  | HeadingNode ch =>
      let (ch', r) := render_all json ch in
      (HeadingNode ch', container_json "HeadingNode" [] r)
  | BlockquoteNode ch =>
      let (ch', r) := render_all json ch in
      (BlockquoteNode ch', container_json "BlockquoteNode" [] r)
  | ItalicNode ch =>
      let (ch', r) := render_all json ch in
      (ItalicNode ch', container_json "ItalicNode" [] r)
  | BoldNode ch =>
      let (ch', r) := render_all json ch in
      (BoldNode ch', container_json "BoldNode" [] r)
  | DelNode ch =>
      let (ch', r) := render_all json ch in
      (DelNode ch', container_json "DelNode" [] r)
  | UnderlineNode ch =>
      let (ch', r) := render_all json ch in
      (UnderlineNode ch', container_json "UnderlineNode" [] r)
  | UlNode ch =>
      let (ch', r) := render_all json ch in
      (UlNode ch', container_json "UlNode" [] r)
  | OlNode ch =>
      let (ch', r) := render_all json ch in
      (OlNode ch', container_json "OlNode" [] r)
  | LiNode ch =>
      let (ch', r) := render_all json ch in
      (LiNode ch', container_json "LiNode" [] r)
  | ColorNode c ch =>
      let (ch', r) := render_all json ch in
      (ColorNode c ch', container_json "ColorNode" [("color", PStr c)] r)
  | FontSizeNode sz ch =>
      let (ch', r) := render_all json ch in
      (FontSizeNode sz ch',
       container_json "FontSizeNode" [("size", PInt sz)] r)
  | TextNode text =>
      (n, Ok (PDict [("type", PStr "TextNode"); ("text", PStr text)]))
  | ImageNode None _ => (n, Raise TypeError)
  | ImageNode (Some u) alt =>
      match yarl_scheme lib u with
      | Raise e => (n, Raise e)
      | Ok scheme =>
          let u' := rewritten scheme u in
          (ImageNode (Some u') alt,
           Ok (PDict [("type", PStr "ImageNode"); ("url", PStr u');
                      ("alt", pyval_of_soup alt)]))
      end
  | LatexNode code =>
      (n, Ok (PDict [("type", PStr "LatexNode"); ("code", PStr code)]))
  | CodeNode code lang =>
      let code' := html_unescape lib code in
      (CodeNode code' lang,
       Ok (PDict [("type", PStr "CodeNode"); ("code", PStr code');
                  ("lang", PStr lang)]))
  | VideoCardNode aid =>
      (n, Ok (PDict [("type", PStr "VideoCardNode"); ("aid", PInt aid)]))
  | ArticleCardNode cvid =>
      (n, Ok (PDict [("type", PStr "ArticleCardNode"); ("cvid", PInt cvid)]))
  | BangumiCardNode epid =>
      (n, Ok (PDict [("type", PStr "BangumiCardNode"); ("epid", PInt epid)]))
  | MusicCardNode auid =>
      (n, Ok (PDict [("type", PStr "MusicCardNode"); ("auid", PInt auid)]))
  | ShopCardNode pwid =>
      (n, Ok (PDict [("type", PStr "ShopCardNode"); ("pwid", PInt pwid)]))
  | ComicCardNode mcid =>
      (n, Ok (PDict [("type", PStr "ComicCardNode"); ("mcid", PInt mcid)]))
  | LiveCardNode room_id =>
      (n, Ok (PDict [("type", PStr "LiveCardNode");
                     ("room_id", PInt room_id)]))
  | AnchorNode url text =>
      (n, Ok (PDict [("type", PStr "AnchorNode"); ("url", PStr url);
                     ("text", pyval_of_soup text)]))
  | SeparatorNode => (n, Ok (PDict [("type", PStr "SeparatorNode")]))
  end.

End Rendering.

(** ** The colour table *)

Definition ARTICLE_COLOR_MAP : list (string * string) :=
  [ ("default", "222222");
    ("blue-01", "56c1fe"); ("lblue-01", "73fdea"); ("green-01", "89fa4e");
    ("yellow-01", "fff359"); ("pink-01", "ff968d"); ("purple-01", "ff8cc6");
    ("blue-02", "02a2ff"); ("lblue-02", "18e7cf"); ("green-02", "60d837");
    ("yellow-02", "fbe231"); ("pink-02", "ff654e"); ("purple-02", "ef5fa8");
    ("blue-03", "0176ba"); ("lblue-03", "068f86"); ("green-03", "1db100");
    ("yellow-03", "f8ba00"); ("pink-03", "ee230d"); ("purple-03", "cb297a");
    ("blue-04", "004e80"); ("lblue-04", "017c76"); ("green-04", "017001");
    ("yellow-04", "ff9201"); ("pink-04", "b41700"); ("purple-04", "99195e");
    ("gray-01", "d6d5d5"); ("gray-02", "929292"); ("gray-03", "5f5f5f") ].

(** ** The two regular expressions of the walker *)

Module Re.
Import PyStr.

(** Group 1 of [re.search(r"font-size-(\d\d)", s)]. *)
Definition font_size_here (s : string) : option string :=
  if prefix "font-size-" s
  then match drop 10 s with
       | String a (String b _) =>
           if is_digit a && is_digit b
           then Some (String a (String b ""))
           else None
       | _ => None
       end
  else None.

Fixpoint search_font_size (s : string) : option string :=
  match font_size_here s with
  | Some g => Some g
  | None => match s with
            | "" => None
            | String _ s' => search_font_size s'
            end
  end.

(** The any-character group stops at a line feed. *)
Fixpoint dot_star (s : string) : string :=
  match s with
  | "" => ""
  | String c s' =>
      if Ascii.eqb c (chr 10) then "" else String c (dot_star s')
  end.

(** Group 1 of the search for [color-] followed by a greedy any-character
    group and an optional semicolon: the group takes the rest of the
    line, a final semicolon included. *)
Fixpoint search_color (s : string) : option string :=
  if prefix "color-" s then Some (dot_star (drop 6 s))
  else match s with
       | "" => None
       | String _ s' => search_color s'
       end.
End Re.

(** ** The walker: [parse], nested in [Article.fetch_content]

    [parse] awaits [parse_link]; the walk therefore runs against the log of
    requests made so far and extends it. *)

Definition Walk (A : Type) : Type := list Request -> list Request * result A.

Definition ret {A} (a : A) : Walk A := fun log => (log, Ok a).

Definition raise {A} (e : exn) : Walk A := fun log => (log, Raise e).

Definition bind {A B} (c : Walk A) (k : A -> Walk B) : Walk B :=
  fun log =>
    match c log with
    | (log', Ok a) => k a log'
    | (log', Raise e) => (log', Raise e)
    end.

Definition lift {A} (r : result A) : Walk A := fun log => (log, r).

Declare Scope walk_scope.
Delimit Scope walk_scope with walk.
Notation "x <- c ;; k" := (bind c (fun x => k))
  (at level 61, c at next level, right associativity) : walk_scope.
Notation "c ;;; k" := (bind c (fun _ => k))
  (at level 61, right associativity) : walk_scope.

Section Loop.
Variable body : Soup -> Walk (list Node).

(** [for e in el.contents: ...], every turn adding to [node_list]. *)
Fixpoint parse_loop (l : list Soup) : Walk (list Node) :=
  match l with
  | [] => ret []
  | e :: r =>
      (nodes <- body e ;;
       rest <- parse_loop r ;;
       ret (nodes ++ rest)%list)%walk
  end.
End Loop.

(** [for a in aid.split(","): node.aid = int(a)] *)
Fixpoint card_loop (card : Z -> Node) (ids : list string)
  : result (list Node) :=
  match ids with
  | [] => Ok []
  | a :: r =>
      rbind (PyInt.int a) (fun z =>
      rbind (card_loop card r) (fun rest => Ok (card z :: rest)))
  end.

Section Parser.
Variable lib : Collaborators.
Import PyStr Bs4.
Local Open Scope walk_scope.

Definition await_parse_link (href : string) : Walk Resource :=
  fun log => ((log ++ [ParseLink href])%list, parse_link lib log href).

(** The image node of a figure: url of the first [img], caption from the
    first [figcaption] when it has contents. *)
Definition figure_image (e : Soup) : result (list Node) :=
  match find e "img" with
  | Some (Tag _ _ img_attrs _) =>
      rbind (getitem img_attrs "data-src") (fun url =>
      let alt :=
        match find e "figcaption" with
        | Some (Tag _ _ _ (c :: _)) => c
        | _ => NavigableString ""
        end in
      Ok [ImageNode (Some url) alt])
  | _ => Raise AttributeError
  end.

(** The card nodes of an [img] carrying [aid]. *)
Definition figure_cards (className : list string) (aid : string)
  : result (list Node) :=
  if has_token "video-card" className
  then card_loop VideoCardNode (split "," aid)
  else if has_token "article-card" className
  then rmap (fun z => [ArticleCardNode z]) (PyInt.int aid)
  else if has_token "fanju-card" className
  then rmap (fun z => [BangumiCardNode z]) (PyInt.int (drop 2 aid))
  else if has_token "music-card" className
  then rmap (fun z => [MusicCardNode z]) (PyInt.int (drop 2 aid))
  else if has_token "shop-card" className
  then rmap (fun z => [ShopCardNode z]) (PyInt.int (drop 2 aid))
  else if has_token "caricature-card" className
  then card_loop ComicCardNode (split "," aid)
  else if has_token "live-card" className
  then rmap (fun z => [LiveCardNode z]) (PyInt.int aid)
  else Ok [].

Definition parse_figure (e : Soup) (class : option (list string))
  : result (list Node) :=
  match class with
  | None => Ok []
  | Some className =>
      if has_token "img-box" className then
        match find e "img" with
        | None => Ok []
        | Some (NavigableString _) => Ok []
        | Some (Tag _ None _ _) => figure_image e
        | Some (Tag _ (Some className) img_attrs _) =>
            let separator :=
              if has_token "cut-off" className then [SeparatorNode] else [] in
            rbind (match lookup "aid" img_attrs with
                   | Some aid => figure_cards className aid
                   | None => Ok []
                   end) (fun cards =>
            rbind (if has_token "seamless" className
                   then figure_image e else Ok []) (fun image =>
            Ok (separator ++ cards ++ image)%list))
        end
      else if has_token "code-box" className then
        match find e "pre" with
        | Some (Tag _ _ pre_attrs _) =>
            rbind (getitem pre_attrs "data-lang") (fun data_lang =>
            let lang := lower (hd "" (split "@" data_lang)) in
            rbind (getitem pre_attrs "codecontent") (fun codecontent =>
            Ok [CodeNode (unquote lib codecontent) lang]))
        | _ => Raise AttributeError
        end
      else Ok []
  end.

Definition parse_img (class : option (list string))
           (attrs : list (string * string)) : result (list Node) :=
  match class with
  | None => Raise TypeError
  | Some className =>
      if has_token "latex" className
      then rbind (getitem attrs "alt") (fun alt =>
           Ok [LatexNode (unquote lib alt)])
      else Ok [ImageNode (lookup "data-src" attrs) (NavigableString "")]
  end.

Definition parse_empty_anchor (attrs : list (string * string))
  : Walk (list Node) :=
  href <- lift (getitem attrs "href") ;;
  parse_link_res <- await_parse_link href ;;
  ret match parse_link_res with
      | VIDEO aid => [VideoCardNode aid]
      | AUDIO auid => [MusicCardNode auid]
      | LIVE room_display_id => [LiveCardNode room_display_id]
      | ARTICLE cvid => [ArticleCardNode cvid]
      | OtherResource => []
      end.

Definition paragraph_align (attrs : list (string * string)) : string :=
  match lookup "style" attrs with
  | Some style =>
      if contains "text-align: center" style then "center"
      else if contains "text-align: right" style then "right"
      else "left"
  | None => "left"
  end.

(** One turn of the loop of [parse]: the nodes the item [e] adds to
    [node_list]. *)
Fixpoint parse_item (e : Soup) : Walk (list Node) :=
  match e with
  | NavigableString s => ret [TextNode s]
  | Tag name class attrs cs =>
      let parse_e := parse_loop parse_item cs in
      if String.eqb name "p" then
        children <- parse_e ;;
        ret [ParagraphNode (paragraph_align attrs) children]
      else if String.eqb name "h1" then
        children <- parse_e ;; ret [HeadingNode children]
      else if String.eqb name "strong" then
        children <- parse_e ;; ret [BoldNode children]
      else if String.eqb name "span" then
        match lookup "style" attrs with
        | Some style =>
            del <- (if contains "text-decoration: line-through" style
                    then children <- parse_e ;; ret [DelNode children]
                    else ret []) ;;
            flat <- (if negb (String.eqb (text e) "")
                     then parse_e else ret []) ;;
            ret (del ++ flat)%list
        | None =>
            match class with
            | Some [] => raise IndexError
            | Some (className :: _) =>
                if contains "font-size" className then
                  match Re.search_font_size className with
                  | None => raise TypeError
                  | Some digits =>
                      size <- lift (PyInt.int digits) ;;
                      children <- parse_e ;;
                      ret [FontSizeNode size children]
                  end
                else if contains "color" className then
                  match Re.search_color className with
                  | None => raise TypeError
                  | Some color_text =>
                      color <- lift (getitem ARTICLE_COLOR_MAP color_text) ;;
                      children <- parse_e ;;
                      ret [ColorNode color children]
                  end
                else if negb (String.eqb (text e) "")
                     then parse_e else ret []
            | None => ret []
            end
        end
      else if String.eqb name "blockquote" then
        children <- parse_e ;; ret [BlockquoteNode children]
      else if String.eqb name "figure" then lift (parse_figure e class)
      else if String.eqb name "ol" then
        children <- parse_e ;; ret [OlNode children]
      else if String.eqb name "li" then
        children <- parse_e ;; ret [LiNode children]
      else if String.eqb name "ul" then
        children <- parse_e ;; ret [UlNode children]
      else if String.eqb name "a" then
        match cs with
        | [] => parse_empty_anchor attrs
        | c :: _ =>
            href <- lift (getitem attrs "href") ;;
            ret [AnchorNode href c]
        end
      else if String.eqb name "img" then lift (parse_img class attrs)
      else if String.eqb name "div" then parse_e
      else ret []
  end.

(** [parse(el)] *)
Definition parse (el : Soup) : Walk (list Node) :=
  parse_loop parse_item (contents el).

End Parser.

(** ** Python values as the facade uses them *)

Module PyVal.

(** [bool(v)] *)
Definition truthy (v : pyval) : bool :=
  match v with
  | PNone => false
  | PBool b => b
  | PInt z => negb (z =? 0)%Z
  | PStr s => negb (String.eqb s "")
  | PElem _ => true
  | PList l => negb (Nat.eqb (List.length l) 0)
  | PDict d => negb (Nat.eqb (List.length d) 0)
  end.

(** [v[k]] with a string key. *)
Definition subscript (v : pyval) (k : string) : result pyval :=
  match v with
  | PDict d => getitem d k
  | _ => Raise TypeError
  end.

(** [del d[k]] *)
Fixpoint delitem (d : list (string * pyval)) (k : string)
  : result (list (string * pyval)) :=
  match d with
  | [] => Raise (KeyError k)
  | (k', v) :: r =>
      if String.eqb k' k then Ok r
      else rmap (cons (k', v)) (delitem r k)
  end.

(** Lists and dicts cannot be dict keys. *)
Definition hashable (v : pyval) : bool :=
  match v with
  | PList _ | PDict _ => false
  | _ => true
  end.

(** [v in [41, 42]] *)
Definition in_41_42 (v : pyval) : bool :=
  match v with
  | PInt z => (z =? 41)%Z || (z =? 42)%Z
  | _ => false
  end.

End PyVal.

(** ** The module level caches of [utils.cache_pool]

    A dict is kept as the list of its assignments, newest first: a later
    assignment to a key shadows the earlier one. *)

Record CachePool := {
  article2dynamic : list (Z * pyval);
  dynamic2article : list (pyval * Z);
  dynamic_is_article : list (pyval * bool);
  dynamic_is_opus : list (pyval * bool);
  article_is_note : list (Z * bool)
}.

Record World := {
  requests : list Request;
  cache_pool : CachePool
}.

(** ** The facade *)

Record Article := {
  _children : list Node;
  _meta : pyval;
  _cvid : Z;
  _has_parsed : bool;
  _get_all_data : pyval
}.

(** [Article.__init__] *)
Definition Article_init (cvid : Z) : Article :=
  {| _children := []; _meta := PNone; _cvid := cvid;
     _has_parsed := false; _get_all_data := PNone |}.

Definition set_children (a : Article) (ch : list Node) : Article :=
  {| _children := ch; _meta := _meta a; _cvid := _cvid a;
     _has_parsed := _has_parsed a; _get_all_data := _get_all_data a |}.

Definition set_meta (a : Article) (m : pyval) : Article :=
  {| _children := _children a; _meta := m; _cvid := _cvid a;
     _has_parsed := _has_parsed a; _get_all_data := _get_all_data a |}.

Definition set_has_parsed (a : Article) (b : bool) : Article :=
  {| _children := _children a; _meta := _meta a; _cvid := _cvid a;
     _has_parsed := b; _get_all_data := _get_all_data a |}.

Definition set_get_all_data (a : Article) (d : pyval) : Article :=
  {| _children := _children a; _meta := _meta a; _cvid := _cvid a;
     _has_parsed := _has_parsed a; _get_all_data := d |}.

Definition not_fetched : exn := ApiException "请先调用 fetch_content()".

Section Facade.
Variable lib : Collaborators.
Import PyStr PyVal.

(** The loop of [Article.markdown]: a child whose [markdown] raises is
    passed over, the others add their text to [content]. *)
Fixpoint markdown_loop (content : string) (l : list Node)
  : list Node * string :=
  match l with
  | [] => ([], content)
  | node :: r =>
      let (node', res) := markdown lib node in
      let (r', out) :=
        markdown_loop (match res with
                       | Raise _ => content
                       | Ok markdown_text => content ++ markdown_text
                       end) r in
      (node' :: r', out)
  end.

Definition Article_markdown (a : Article) : Article * result string :=
  if negb (_has_parsed a) then (a, Raise not_fetched)
  else
    let (ch', content) := markdown_loop "" (_children a) in
    let meta_yaml := yaml_safe_dump lib (_meta a) in
    (set_children a ch',
     Ok ("---" ++ NL ++ meta_yaml ++ NL ++ "---" ++ NL ++ NL ++ content)).

Definition Article_json (a : Article) : Article * result pyval :=
  if negb (_has_parsed a) then (a, Raise not_fetched)
  else
    let (ch', r) := render_all (json lib) (_children a) in
    (set_children a ch',
     rmap (fun js => PDict [("type", PStr "Article"); ("meta", _meta a);
                            ("children", PList js)]) r).

Definition page_url (cvid : Z) : string :=
  "https://www.bilibili.com/read/cv" ++ format_int cvid ++ "/?jump_opus=1".

(** The five assignments [get_all] makes after a fetch. *)
Definition publish (cvid : Z) (data : pyval) (c : CachePool)
  : CachePool * result unit :=
  match rbind (subscript data "readInfo")
              (fun ri => subscript ri "dyn_id_str") with
  | Raise e => (c, Raise e)
  | Ok dyn =>
      let c1 :=
        {| article2dynamic := (cvid, dyn) :: article2dynamic c;
           dynamic2article := dynamic2article c;
           dynamic_is_article := dynamic_is_article c;
           dynamic_is_opus := dynamic_is_opus c;
           article_is_note := article_is_note c |} in
      if negb (hashable dyn) then (c1, Raise TypeError)
      else
        let c2 :=
          {| article2dynamic := article2dynamic c1;
             dynamic2article := (dyn, cvid) :: dynamic2article c1;
             dynamic_is_article := (dyn, true) :: dynamic_is_article c1;
             dynamic_is_opus := (dyn, true) :: dynamic_is_opus c1;
             article_is_note := article_is_note c1 |} in
        match rbind (subscript data "readInfo") (fun ri =>
              rbind (subscript ri "category") (fun cat =>
              subscript cat "id")) with
        | Raise e => (c2, Raise e)
        | Ok id =>
            ({| article2dynamic := article2dynamic c2;
                dynamic2article := dynamic2article c2;
                dynamic_is_article := dynamic_is_article c2;
                dynamic_is_opus := dynamic_is_opus c2;
                article_is_note := (cvid, in_41_42 id) :: article_is_note c2 |},
             Ok tt)
        end
  end.

(** [Article.get_all]: the page is asked for only while no payload is
    kept. *)
Definition Article_get_all (w : World) (a : Article)
  : World * Article * result pyval :=
  if negb (truthy (_get_all_data a)) then
    let url := page_url (_cvid a) in
    let log := (requests w ++ [InitialState url])%list in
    match get_initial_state lib (requests w) url with
    | Raise e => ({| requests := log; cache_pool := cache_pool w |}, a, Raise e)
    | Ok data =>
        let a' := set_get_all_data a data in
        let (c', r) := publish (_cvid a) data (cache_pool w) in
        ({| requests := log; cache_pool := c' |}, a',
         rmap (fun _ => data) r)
    end
  else (w, a, Ok (_get_all_data a)).

(** The markup and the metadata taken from the payload. *)
Definition content_markup (resp : pyval) : result string :=
  rbind (subscript resp "readInfo") (fun ri =>
  rbind (subscript ri "content") (fun content =>
  Ok ("<div>" ++ match content with
                 | PStr s => s
                 | v => format_value lib v
                 end ++ "</div>"))).

Definition content_meta (resp : pyval) : result pyval :=
  rbind (subscript resp "readInfo") (fun ri =>
  match ri with
  | PDict d => rmap PDict (delitem d "content")
  | _ => Raise TypeError
  end).

(** [Article.fetch_content] *)
Definition Article_fetch_content (w : World) (a : Article)
  : World * Article * result unit :=
  match Article_get_all w a with
  | (w1, a1, Raise e) => (w1, a1, Raise e)
  | (w1, a1, Ok resp) =>
      match content_markup resp with
      | Raise e => (w1, a1, Raise e)
      | Ok markup =>
          let document_div := lxml_first_div lib markup in
          match content_meta resp with
          | Raise e => (w1, a1, Raise e)
          | Ok meta =>
              let a2 := set_meta a1 meta in
              match parse lib document_div (requests w1) with
              | (log, Raise e) =>
                  ({| requests := log; cache_pool := cache_pool w1 |},
                   a2, Raise e)
              | (log, Ok node_list) =>
                  ({| requests := log; cache_pool := cache_pool w1 |},
                   set_has_parsed (set_children a2 node_list) true, Ok tt)
              end
          end
      end
  end.

End Facade.

(** ** A concrete set of collaborators

    Enough of each library to run the model on concrete articles:
    [html.unescape] on the five references every HTML escaper produces,
    [unquote] on two-digit percent escapes, a line-per-key YAML dump, a
    markup reader that knows the sample articles below, and a network that
    serves them. *)

Module Sample.
Import PyStr.

Definition QUOTE : string := str1 (chr 34).

Definition entities : list (string * string) :=
  [("&amp;", "&"); ("&lt;", "<"); ("&gt;", ">"); ("&quot;", QUOTE);
   ("&#39;", "'")].

Fixpoint unescape_from (skip : nat) (s : string) : string :=
  match s with
  | "" => ""
  | String c s' =>
      match skip with
      | S k => unescape_from k s'
      | O =>
          match find (fun e => prefix (fst e) s) entities with
          | Some (ref, char) =>
              char ++ unescape_from (String.length ref - 1) s'
          | None => String c (unescape_from 0 s')
          end
      end
  end.

Definition unescape (s : string) : string := unescape_from 0 s.

Definition hex_value (c : ascii) : option nat :=
  let n := nat_of_ascii c in
  if is_digit c then Some (n - 48)
  else if ((97 <=? n) && (n <=? 102))%nat then Some (n - 87)
  else if ((65 <=? n) && (n <=? 70))%nat then Some (n - 55)
  else None.

Fixpoint unquote_from (skip : nat) (s : string) : string :=
  match s with
  | "" => ""
  | String c s' =>
      match skip with
      | S k => unquote_from k s'
      | O =>
          match s with
          | String "%" (String h (String l _)) =>
              match hex_value h, hex_value l with
              | Some a, Some b =>
                  String (chr (16 * a + b)) (unquote_from 2 s')
              | _, _ => String c (unquote_from 0 s')
              end
          | _ => String c (unquote_from 0 s')
          end
      end
  end.

Definition percent_decode (s : string) : string := unquote_from 0 s.

Definition yaml_scalar (v : pyval) : string :=
  match v with
  | PNone => "null"
  | PBool true => "true"
  | PBool false => "false"
  | PInt z => format_int z
  | PStr s => s
  | _ => "?"
  end.

Definition yaml_dump (v : pyval) : string :=
  match v with
  | PDict d =>
      join "" (map (fun kv => fst kv ++ ": " ++ yaml_scalar (snd kv) ++ NL) d)
  | v => yaml_scalar v ++ NL
  end.

(** Four article bodies and the tree lxml builds for each. *)
Definition struck_markup : string :=
  "<span style=" ++ QUOTE ++ "text-decoration: line-through" ++ QUOTE
  ++ ">abc</span>".

Definition struck_tree : list Soup :=
  [Tag "span" None [("style", "text-decoration: line-through")]
       [NavigableString "abc"]].

Definition link_markup : string :=
  "<a href=" ++ QUOTE ++ "https://www.bilibili.com/video/av170001" ++ QUOTE
  ++ "></a>".

Definition link_tree : list Soup :=
  [Tag "a" None [("href", "https://www.bilibili.com/video/av170001")] []].

Definition mixed_markup : string :=
  "<p>a*b</p><img class=" ++ QUOTE ++ "pic" ++ QUOTE ++ "><p>c</p>".

Definition mixed_tree : list Soup :=
  [Tag "p" None [] [NavigableString "a*b"];
   Tag "img" (Some ["pic"]) [] [];
   Tag "p" None [] [NavigableString "c"]].

Definition code_markup : string :=
  "<figure class=" ++ QUOTE ++ "code-box" ++ QUOTE ++ "><pre data-lang="
  ++ QUOTE ++ "text/html@" ++ QUOTE ++ " codecontent=" ++ QUOTE
  ++ "%26amp%3Blt%3B" ++ QUOTE ++ "></pre></figure>".

Definition code_tree : list Soup :=
  [Tag "figure" (Some ["code-box"]) []
       [Tag "pre" None
            [("data-lang", "text/html@"); ("codecontent", "%26amp%3Blt%3B")]
            []]].

Definition first_div (markup : string) : Soup :=
  Tag "div" None []
      (if String.eqb markup ("<div>" ++ struck_markup ++ "</div>")
       then struck_tree
       else if String.eqb markup ("<div>" ++ link_markup ++ "</div>")
       then link_tree
       else if String.eqb markup ("<div>" ++ mixed_markup ++ "</div>")
       then mixed_tree
       else if String.eqb markup ("<div>" ++ code_markup ++ "</div>")
       then code_tree
       else []).

Definition payload (content : string) : pyval :=
  PDict [("readInfo",
          PDict [("title", PStr "t"); ("content", PStr content);
                 ("dyn_id_str", PStr "900");
                 ("category", PDict [("id", PInt 41)])])].

(** cv1 is the struck-out text, cv2 the bare link, cv3 the mixed body, cv4
    the code block; nothing else is served. *)
Definition initial_state (log : list Request) (url : string) : result pyval :=
  if String.eqb url "https://www.bilibili.com/read/cv1/?jump_opus=1"
  then Ok (payload struck_markup)
  else if String.eqb url "https://www.bilibili.com/read/cv2/?jump_opus=1"
  then Ok (payload link_markup)
  else if String.eqb url "https://www.bilibili.com/read/cv3/?jump_opus=1"
  then Ok (payload mixed_markup)
  else if String.eqb url "https://www.bilibili.com/read/cv4/?jump_opus=1"
  then Ok (payload code_markup)
  else Raise NetworkException.

Definition link (log : list Request) (href : string) : result Resource :=
  if String.eqb href "https://www.bilibili.com/video/av170001"
  then Ok (VIDEO 170001)
  else Ok OtherResource.

(** An f-string shows the empty list as two brackets. *)
Definition format (v : pyval) : string :=
  match v with
  | PList [] => "[]"
  | v => yaml_scalar v
  end.

(** The sample reader of urls: it rejects a url whose port is no number,
    and one with a scheme and no host after the two slashes. *)
Definition read_scheme (u : string) : result string :=
  if String.eqb u "http://example.com:abc/x.png"
     || String.eqb u "https://:80/x.png"
  then Raise ValueError
  else Ok (Yarl.scheme u).

Definition lib : Collaborators :=
  {| html_unescape := unescape;
     unquote := percent_decode;
     yaml_safe_dump := yaml_dump;
     lxml_first_div := first_div;
     format_value := format;
     get_initial_state := initial_state;
     parse_link := link;
     yarl_scheme := read_scheme |}.

Definition world : World :=
  {| requests := [];
     cache_pool := {| article2dynamic := []; dynamic2article := [];
                      dynamic_is_article := []; dynamic_is_opus := [];
                      article_is_note := [] |} |}.

End Sample.

(** * What the properties are stated with *)

(** What the text rule asks of one character: a tab, a space or a
    no-break space becomes the marker, one of the eight reserved characters
    gets one backslash in front, anything else stays. *)
Definition is_blank (c : ascii) : bool :=
  let n := nat_of_ascii c in ((n =? 9) || (n =? 32) || (n =? 160))%nat.

Definition is_reserved (c : ascii) : bool :=
  (Ascii.eqb c "\" || Ascii.eqb c "*" || Ascii.eqb c "$" || Ascii.eqb c "<"
   || Ascii.eqb c ">" || Ascii.eqb c "|" || Ascii.eqb c "~"
   || Ascii.eqb c "_")%char.

Definition escape_char (c : ascii) : string :=
  if is_blank c then "&emsp;"
  else if is_reserved c then String "\" (PyStr.str1 c)
  else PyStr.str1 c.


(** A run of render calls on one node, each call working on the node as
    the call before left it. *)
Inductive Call := CallMarkdown | CallJson.

Inductive Output :=
| Text (r : result string)
| Data (r : result pyval).

Definition call (lib : Collaborators) (c : Call) (n : Node) : Node * Output :=
  match c with
  | CallMarkdown => let (n', r) := markdown lib n in (n', Text r)
  | CallJson => let (n', r) := json lib n in (n', Data r)
  end.

Fixpoint calls (lib : Collaborators) (cs : list Call) (n : Node)
  : Node * list Output :=
  match cs with
  | [] => (n, [])
  | c :: r =>
      let (n1, out) := call lib c n in
      let (n2, outs) := calls lib r n1 in
      (n2, out :: outs)
  end.

(** The text a child adds to the document: its markdown, or nothing when
    its [markdown] raises. *)
Definition rendered (lib : Collaborators) (n : Node) : list string :=
  match snd (markdown lib n) with
  | Ok s => [s]
  | Raise _ => []
  end.

(** A second [fetch_content] that neither asks the network nor touches the
    article. *)
Definition fetch_content_memoized (lib : Collaborators) : Prop :=
  forall w a w1 a1,
    Article_fetch_content lib w a = (w1, a1, Ok tt) ->
    Article_fetch_content lib w1 a1 = (w1, a1, Ok tt).

(** A numeric id: decimal digits, at least one; and the number it writes. *)
Definition numeric (s : string) : Prop :=
  s <> "" /\ PyStr.all_chars PyStr.is_digit s = true.

Fixpoint decimal_from (acc : Z) (s : string) : Z :=
  match s with
  | "" => acc
  | String c s' => decimal_from (10 * acc + PyStr.digit_value c) s'
  end.

Definition decimal (s : string) : Z := decimal_from 0 s.




(** A walk that asks the network for nothing but links. *)
Definition only_links {A} (c : Walk A) : Prop :=
  forall log, exists hrefs, fst (c log) = (log ++ map ParseLink hrefs)%list.

Definition is_initial_state (r : Request) : bool :=
  match r with
  | InitialState _ => true
  | ParseLink _ => false
  end.

(** What a call returns on an image whose url is already [u]. *)
Definition image_output (u alt : string) (c : Call) : Output :=
  match c with
  | CallMarkdown =>
      Text (Ok ("![" ++ PyStr.replace "[" "\[" alt ++ "](" ++ u ++ ")"
                ++ NL ++ NL))
  | CallJson =>
      Data (Ok (PDict [("type", PStr "ImageNode"); ("url", PStr u);
                       ("alt", PStr alt)]))
  end.



(** A url that a second reading leaves alone: where yarl reads it without
    scheme, yarl reads it with one once [https:] is put in front. *)
Definition url_settles (lib : Collaborators) (u : string) : bool :=
  match yarl_scheme lib u with
  | Ok "" =>
      match yarl_scheme lib ("https:" ++ u) with
      | Ok scheme => negb (String.eqb scheme "")
      | Raise _ => false
      end
  | _ => true
  end.

(** The front matter of the markdown of a document. *)
Definition front_matter (lib : Collaborators) (meta : pyval) : string :=
  "---" ++ NL ++ yaml_safe_dump lib meta ++ NL ++ "---" ++ NL ++ NL.

(** The children a node holds; a leaf holds none. *)
Definition children_of (n : Node) : list Node :=
  match n with
  | ParagraphNode _ ch | HeadingNode ch | BlockquoteNode ch | ItalicNode ch
  | BoldNode ch | DelNode ch | UnderlineNode ch | UlNode ch | OlNode ch
  | LiNode ch | ColorNode _ ch | FontSizeNode _ ch => ch
  | _ => []
  end.

(** Induction on a node with the property known of all its children. *)
Section NodeInduction.
Variable P : Node -> Prop.
Hypothesis step : forall n, Forall P (children_of n) -> P n.

Definition all_children (rec : forall n, P n) : forall l, Forall P l :=
  fix go (l : list Node) : Forall P l :=
    match l with
    | [] => Forall_nil P
    | x :: r => Forall_cons x (rec x) (go r)
    end.

Fixpoint Node_children_ind (n : Node) : P n :=
  step n
    match n return Forall P (children_of n) with
    | ParagraphNode _ ch | HeadingNode ch | BlockquoteNode ch
    | ItalicNode ch | BoldNode ch | DelNode ch | UnderlineNode ch
    | UlNode ch | OlNode ch | LiNode ch | ColorNode _ ch
    | FontSizeNode _ ch => all_children Node_children_ind ch
    | _ => Forall_nil P
    end.
End NodeInduction.

(** Every code block below [n] holds text that one [html.unescape] settles:
    unescaping it a second time changes nothing more. *)
Fixpoint code_settles (lib : Collaborators) (n : Node) : bool :=
  match n with
  | CodeNode code _ =>
      String.eqb (html_unescape lib (html_unescape lib code))
                 (html_unescape lib code)
  | ParagraphNode _ ch | HeadingNode ch | BlockquoteNode ch | ItalicNode ch
  | BoldNode ch | DelNode ch | UnderlineNode ch | UlNode ch | OlNode ch
  | LiNode ch | ColorNode _ ch | FontSizeNode _ ch =>
      forallb (code_settles lib) ch
  | _ => true
  end.

(** Every image url below [n] is one a second reading leaves alone. *)
Fixpoint urls_settle (lib : Collaborators) (n : Node) : bool :=
  match n with
  | ImageNode (Some u) _ => url_settles lib u
  | ParagraphNode _ ch | HeadingNode ch | BlockquoteNode ch | ItalicNode ch
  | BoldNode ch | DelNode ch | UnderlineNode ch | UlNode ch | OlNode ch
  | LiNode ch | ColorNode _ ch | FontSizeNode _ ch =>
      forallb (urls_settle lib) ch
  | _ => true
  end.

(** The parsed article of the mixed sample body: two paragraphs around an
    image that has no url. *)
Definition mixed_article : Article :=
  {| _children := [ParagraphNode "left" [TextNode "a*b"];
                   ImageNode None (NavigableString "");
                   ParagraphNode "left" [TextNode "c"]];
     _meta := PDict [("title", PStr "t"); ("dyn_id_str", PStr "900");
                     ("category", PDict [("id", PInt 41)])];
     _cvid := 3;
     _has_parsed := true;
     _get_all_data := Sample.payload Sample.mixed_markup |}.

(** The world and the article after [fetch_content] on the sample article
    whose body is one bare link. *)
Definition link_world : World :=
  {| requests := [InitialState "https://www.bilibili.com/read/cv2/?jump_opus=1";
                  ParseLink "https://www.bilibili.com/video/av170001"];
     cache_pool :=
       {| article2dynamic := [(2%Z, PStr "900")];
          dynamic2article := [(PStr "900", 2%Z)];
          dynamic_is_article := [(PStr "900", true)];
          dynamic_is_opus := [(PStr "900", true)];
          article_is_note := [(2%Z, true)] |} |}.

Definition link_article : Article :=
  {| _children := [VideoCardNode 170001];
     _meta := PDict [("title", PStr "t"); ("dyn_id_str", PStr "900");
                     ("category", PDict [("id", PInt 41)])];
     _cvid := 2;
     _has_parsed := true;
     _get_all_data := Sample.payload Sample.link_markup |}.

(** The parsed article of the sample code block, whose source shows the
    five characters [&lt;]. *)
Definition code_article : Article :=
  {| _children := [CodeNode "&amp;lt;" "text/html"];
     _meta := PDict [("title", PStr "t"); ("dyn_id_str", PStr "900");
                     ("category", PDict [("id", PInt 41)])];
     _cvid := 4;
     _has_parsed := true;
     _get_all_data := Sample.payload Sample.code_markup |}.

(** The parsed article of the sample struck-out text. *)
Definition struck_article : Article :=
  {| _children := [DelNode [TextNode "abc"]; TextNode "abc"];
     _meta := PDict [("title", PStr "t"); ("dyn_id_str", PStr "900");
                     ("category", PDict [("id", PInt 41)])];
     _cvid := 1;
     _has_parsed := true;
     _get_all_data := Sample.payload Sample.struck_markup |}.

(** ** What rendering may and may not change *)

(** A node with the two fields a render call rewrites blanked out: the url
    of an image that has one, and the code of a code block. *)
Fixpoint skeleton (n : Node) : Node :=
  match n with
  | ParagraphNode al ch => ParagraphNode al (map skeleton ch)
  | HeadingNode ch => HeadingNode (map skeleton ch)
  | BlockquoteNode ch => BlockquoteNode (map skeleton ch)
  | ItalicNode ch => ItalicNode (map skeleton ch)
  | BoldNode ch => BoldNode (map skeleton ch)
  | DelNode ch => DelNode (map skeleton ch)
  | UnderlineNode ch => UnderlineNode (map skeleton ch)
  | UlNode ch => UlNode (map skeleton ch)
  | OlNode ch => OlNode (map skeleton ch)
  | LiNode ch => LiNode (map skeleton ch)
  | ColorNode c ch => ColorNode c (map skeleton ch)
  | FontSizeNode sz ch => FontSizeNode sz (map skeleton ch)
  | ImageNode (Some _) alt => ImageNode (Some "") alt
  | CodeNode _ lang => CodeNode "" lang
  | _ => n
  end.

(** The node once every image below it has its url normalised and every
    code block its code unescaped. *)
Fixpoint settle (lib : Collaborators) (n : Node) : Node :=
  match n with
  | ParagraphNode al ch => ParagraphNode al (map (settle lib) ch)
  | HeadingNode ch => HeadingNode (map (settle lib) ch)
  | BlockquoteNode ch => BlockquoteNode (map (settle lib) ch)
  | ItalicNode ch => ItalicNode (map (settle lib) ch)
  | BoldNode ch => BoldNode (map (settle lib) ch)
  | DelNode ch => DelNode (map (settle lib) ch)
  | UnderlineNode ch => UnderlineNode (map (settle lib) ch)
  | UlNode ch => UlNode (map (settle lib) ch)
  | OlNode ch => OlNode (map (settle lib) ch)
  | LiNode ch => LiNode (map (settle lib) ch)
  | ColorNode c ch => ColorNode c (map (settle lib) ch)
  | FontSizeNode sz ch => FontSizeNode sz (map (settle lib) ch)
  | ImageNode (Some u) alt => ImageNode (Some (normalize_url lib u)) alt
  | CodeNode code lang => CodeNode (html_unescape lib code) lang
  | _ => n
  end.

(** An image that cannot be read somewhere at or below the node: it has
    no url, or a url that yarl rejects. *)
Fixpoint unreadable (lib : Collaborators) (n : Node) : bool :=
  match n with
  | ImageNode None _ => true
  | ImageNode (Some u) _ => negb (is_ok (yarl_scheme lib u))
  | ParagraphNode _ ch | HeadingNode ch | BlockquoteNode ch | ItalicNode ch
  | BoldNode ch | DelNode ch | UnderlineNode ch | UlNode ch | OlNode ch
  | LiNode ch | ColorNode _ ch | FontSizeNode _ ch =>
      existsb (unreadable lib) ch
  | _ => false
  end.

(** A caption or link text on which [replace] cannot be called: a tag with
    no tag called [replace] below it. *)
Definition no_replace (x : Soup) : bool :=
  match x with
  | NavigableString _ => false
  | Tag _ _ _ _ =>
      match Bs4.find x "replace" with
      | None => true
      | Some _ => false
      end
  end.

(** Somewhere at or below the node: an image that cannot be read, an image
    whose caption has no [replace], or an anchor whose text has none. *)
Fixpoint unrenderable (lib : Collaborators) (n : Node) : bool :=
  match n with
  | ImageNode None _ => true
  | ImageNode (Some u) alt => negb (is_ok (yarl_scheme lib u)) || no_replace alt
  | AnchorNode _ text => no_replace text
  | ParagraphNode _ ch | HeadingNode ch | BlockquoteNode ch | ItalicNode ch
  | BoldNode ch | DelNode ch | UnderlineNode ch | UlNode ch | OlNode ch
  | LiNode ch | ColorNode _ ch | FontSizeNode _ ch =>
      existsb (unrenderable lib) ch
  | _ => false
  end.

(** The urls of the images at or below the node, in document order. *)
Fixpoint image_urls (n : Node) : list string :=
  match n with
  | ImageNode (Some u) _ => [u]
  | ParagraphNode _ ch | HeadingNode ch | BlockquoteNode ch | ItalicNode ch
  | BoldNode ch | DelNode ch | UnderlineNode ch | UlNode ch | OlNode ch
  | LiNode ch | ColorNode _ ch | FontSizeNode _ ch =>
      flat_map image_urls ch
  | _ => []
  end.

(** What a render call on the node may raise: [TypeError], or what yarl
    raises on the url of an image at or below the node. *)
Definition raised_below (lib : Collaborators) (n : Node) (e : exn) : Prop :=
  e = TypeError
  \/ exists u, In u (image_urls n) /\ yarl_scheme lib u = Raise e.

(** A parsed article with a protocol-relative image and a code block whose
    source shows [a<b]. *)
Definition settled_article : Article :=
  {| _children := [ParagraphNode "left"
                     [ImageNode (Some "//example.com/x.png")
                                (NavigableString "fig")];
                   CodeNode "a&lt;b" "c"];
     _meta := PDict [("title", PStr "t")];
     _cvid := 5;
     _has_parsed := true;
     _get_all_data := PNone |}.

(** The characters of [s] before its first [c]; all of [s] when it holds
    no [c]. *)
Fixpoint before_first (c : ascii) (s : string) : string :=
  match s with
  | "" => ""
  | String a r => if Ascii.eqb a c then "" else String a (before_first c r)
  end.

(** A character the text rule leaves alone. *)
Definition is_plain (c : ascii) : bool :=
  negb (is_blank c) && negb (is_reserved c).

(** The tag names the loop of [parse] has a branch for. *)
Definition handled_tags : list string :=
  ["p"; "h1"; "strong"; "span"; "blockquote"; "figure"; "ol"; "li"; "ul";
   "a"; "img"; "div"].

(** What every node built by the walker satisfies, at every depth: it is
    no [ItalicNode] and no [UnderlineNode]; a paragraph is aligned left,
    center or right; a colour is a value of the colour table; a font size
    lies between 0 and 99; the language of a code block holds no [@]. *)
Definition known_color (c : string) : bool :=
  existsb (fun kv => String.eqb (snd kv) c) ARTICLE_COLOR_MAP.

Fixpoint from_walker (n : Node) : bool :=
  match n with
  | ParagraphNode al ch =>
      existsb (String.eqb al) ["left"; "center"; "right"]
      && forallb from_walker ch
  | ItalicNode _ | UnderlineNode _ => false
  | ColorNode c ch => known_color c && forallb from_walker ch
  | FontSizeNode sz ch =>
      (0 <=? sz)%Z && (sz <=? 99)%Z && forallb from_walker ch
  | HeadingNode ch | BlockquoteNode ch | BoldNode ch | DelNode ch
  | UlNode ch | OlNode ch | LiNode ch => forallb from_walker ch
  | CodeNode _ lang => negb (PyStr.contains "@" lang)
  | _ => true
  end.

(** A walk whose result, when it returns, is made of such nodes. *)
Definition yields (c : Walk (list Node)) : Prop :=
  forall log log' nodes,
    c log = (log', Ok nodes) -> forallb from_walker nodes = true.

(** ** More of the facade: [Article.is_note] *)

(** [d.get(k)] on a cache keyed by cv number; the newest assignment to a
    key is the one found. *)
Fixpoint cache_get {V} (k : Z) (d : list (Z * V)) : option V :=
  match d with
  | [] => None
  | (k', v) :: r => if (k' =? k)%Z then Some v else cache_get k r
  end.

(** [Article.is_note]: [get_all] is awaited only when the cache has no
    answer for the cv number; the answer is then read from the cache. *)
Definition Article_is_note (lib : Collaborators) (w : World) (a : Article)
  : World * Article * result bool :=
  match cache_get (_cvid a) (article_is_note (cache_pool w)) with
  | Some b => (w, a, Ok b)
  | None =>
      match Article_get_all lib w a with
      | (w1, a1, Raise e) => (w1, a1, Raise e)
      | (w1, a1, Ok _) =>
          (w1, a1,
           match cache_get (_cvid a) (article_is_note (cache_pool w1)) with
           | Some b => Ok b
           | None => Raise (KeyError (PyStr.format_int (_cvid a)))
           end)
      end
  end.

(** ** [bilibili_api.music]: the enumerations and the query of
    [get_music_index_info] *)

Inductive MusicOrder := NEW | HOT.

Definition MusicOrder_value (o : MusicOrder) : pyval :=
  match o with
  | NEW => PInt 1
  | HOT => PInt 2
  end.

Module MusicIndexTags.

Module Lang.
Inductive t := ALL | CHINESE | EUROPE_AMERICA | JAPAN | KOREA | OTHER.

Definition value (l : t) : pyval :=
  match l with
  | ALL => PStr ""
  | CHINESE => PInt 3
  | EUROPE_AMERICA => PInt 6
  | JAPAN => PInt 7
  | KOREA => PInt 61
  | OTHER => PInt 1
  end.
End Lang.

Module Genre.
Inductive t :=
| ALL | POPULAR | ROCK | ELECTRONIC | COUNTRYSIDE | FOLK | LIVE
| CLASSICAL | NEW_CENTURY | REGGAE | BLUES | RHYTHM_BLUES | ORIGINAL
| WORLD | CHILDREN | LATIN | PUNK | MEDAL | JAZZ | HIP_HOP
| SINGER_SONGWRITER | AMUSEMENT | OTHER.

Definition value (g : t) : pyval :=
  match g with
  | ALL => PStr ""
  | POPULAR => PInt 1
  | ROCK => PInt 2
  | ELECTRONIC => PInt 3
  | COUNTRYSIDE => PInt 4
  | FOLK => PInt 5
  | LIVE => PInt 6
  | CLASSICAL => PInt 7
  | NEW_CENTURY => PInt 8
  | REGGAE => PInt 9
  | BLUES => PInt 10
  | RHYTHM_BLUES => PInt 12
  | ORIGINAL => PInt 13
  | WORLD => PInt 14
  | CHILDREN => PInt 15
  | LATIN => PInt 16
  | PUNK => PInt 17
  | MEDAL => PInt 18
  | JAZZ => PInt 19
  | HIP_HOP => PInt 20
  | SINGER_SONGWRITER => PInt 21
  | AMUSEMENT => PInt 22
  | OTHER => PInt 23
  end.
End Genre.

End MusicIndexTags.

(** The [params] dict that [get_music_index_info] hands to [request]. *)
Definition music_index_params
           (keyword : string) (lang : MusicIndexTags.Lang.t)
           (genre : MusicIndexTags.Genre.t) (order : MusicOrder)
           (page_num page_size : Z) : list (string * pyval) :=
  [("type", MusicOrder_value order);
   ("lang", MusicIndexTags.Lang.value lang);
   ("genre", MusicIndexTags.Genre.value genre);
   ("keyword", PStr keyword);
   ("pn", PInt page_num);
   ("ps", PInt page_size)].

(** A network whose page payload has no category. *)
Definition uncategorised_payload : pyval :=
  PDict [("readInfo",
          PDict [("content", PStr ""); ("dyn_id_str", PStr "900")])].

Definition uncategorised_lib : Collaborators :=
  {| html_unescape := html_unescape Sample.lib;
     unquote := unquote Sample.lib;
     yaml_safe_dump := yaml_safe_dump Sample.lib;
     lxml_first_div := lxml_first_div Sample.lib;
     format_value := format_value Sample.lib;
     get_initial_state := fun _ _ => Ok uncategorised_payload;
     parse_link := parse_link Sample.lib;
     yarl_scheme := yarl_scheme Sample.lib |}.

(** The article instance and the world after [get_all] failed to publish
    that payload for cv7. *)
Definition unpublished_world : World :=
  {| requests := [InitialState "https://www.bilibili.com/read/cv7/?jump_opus=1"];
     cache_pool :=
       {| article2dynamic := [(7%Z, PStr "900")];
          dynamic2article := [(PStr "900", 7%Z)];
          dynamic_is_article := [(PStr "900", true)];
          dynamic_is_opus := [(PStr "900", true)];
          article_is_note := [] |} |}.

(** A network that resolves a link once and fails on every later
    resolution. *)
Definition flaky_lib : Collaborators :=
  {| html_unescape := html_unescape Sample.lib;
     unquote := unquote Sample.lib;
     yaml_safe_dump := yaml_safe_dump Sample.lib;
     lxml_first_div := lxml_first_div Sample.lib;
     format_value := format_value Sample.lib;
     get_initial_state := get_initial_state Sample.lib;
     parse_link := fun log href =>
                     if forallb is_initial_state log
                     then parse_link Sample.lib log href
                     else Raise NetworkException;
     yarl_scheme := yarl_scheme Sample.lib |}.

(** * Sanity checks *)

Example replace_example : PyStr.replace "ab" "X" "aabab" = "aXX".
Proof. reflexivity. Qed.
Example split_example : PyStr.split "," "100,200" = ["100"; "200"].
Proof. reflexivity. Qed.
Example split_empty : PyStr.split "," "" = [""].
Proof. reflexivity. Qed.
Example int_example : PyInt.int " 1_00 " = Ok 100%Z.
Proof. reflexivity. Qed.
Example int_example_bad : PyInt.int "1__0" = Raise ValueError.
Proof. reflexivity. Qed.
Example int_example_negative : PyInt.int "-7" = Ok (-7)%Z.
Proof. reflexivity. Qed.
Example int_example_empty : PyInt.int "" = Raise ValueError.
Proof. reflexivity. Qed.
Example strip_example : PyStr.rstrip (PyStr.lstrip "  a b  ") = "a b".
Proof. reflexivity. Qed.
Example format_example : PyStr.format_int (-42) = "-42".
Proof. reflexivity. Qed.
Example scheme_relative : Yarl.scheme "//example.com/x.png" = "".
Proof. reflexivity. Qed.
Example scheme_https : Yarl.scheme "HTTPS://example.com:80/x" = "https".
Proof. reflexivity. Qed.
Example scheme_port_like : Yarl.scheme "//example.com:80/x" = "".
Proof. reflexivity. Qed.
Example search_font_size_example :
  Re.search_font_size "font-size-20" = Some "20".
Proof. reflexivity. Qed.
Example search_color_example : Re.search_color "color-blue-02" = Some "blue-02".
Proof. reflexivity. Qed.
Example unescape_once : Sample.unescape "&amp;lt;" = "&lt;".
Proof. reflexivity. Qed.
Example unescape_twice : Sample.unescape "&lt;" = "<".
Proof. reflexivity. Qed.
Example unquote_example : Sample.percent_decode "a%26lt%3Bb" = "a&lt;b".
Proof. reflexivity. Qed.

Example mixed_article_parsed :
  Article_fetch_content Sample.lib Sample.world (Article_init 3)
  = ({| requests :=
          [InitialState "https://www.bilibili.com/read/cv3/?jump_opus=1"];
        cache_pool :=
          {| article2dynamic := [(3%Z, PStr "900")];
             dynamic2article := [(PStr "900", 3%Z)];
             dynamic_is_article := [(PStr "900", true)];
             dynamic_is_opus := [(PStr "900", true)];
             article_is_note := [(3%Z, true)] |} |},
     mixed_article, Ok tt).
Proof. reflexivity. Qed.

Example code_article_parsed :
  snd (fst (Article_fetch_content Sample.lib Sample.world (Article_init 4)))
  = code_article.
Proof. reflexivity. Qed.

Example struck_article_parsed :
  snd (fst (Article_fetch_content Sample.lib Sample.world (Article_init 1)))
  = struck_article.
Proof. reflexivity. Qed.

Example struck_article_markdown :
  snd (Article_markdown Sample.lib struck_article)
  = Ok ("---" ++ NL ++ "title: t" ++ NL ++ "dyn_id_str: 900" ++ NL
        ++ "category: ?" ++ NL ++ NL ++ "---" ++ NL ++ NL
        ++ " ~~abc~~ abc").
Proof. reflexivity. Qed.

(** * Properties *)

(** ** Strings *)

Section StringFacts.
Import PyStr.

Lemma append_empty_r (s : string) : s ++ "" = s.
Proof. induction s as [|c s IH]; simpl; [reflexivity | now rewrite IH]. Qed.

Lemma append_assoc (a b c : string) : (a ++ b) ++ c = a ++ (b ++ c).
Proof. induction a as [|x a IH]; simpl; [reflexivity | now rewrite IH]. Qed.

Lemma join_empty_cons (x : string) (l : list string) :
  join "" (x :: l) = x ++ join "" l.
Proof.
  unfold join. destruct l as [|y l]; simpl.
  - now rewrite append_empty_r.
  - reflexivity.
Qed.

Lemma prefix_char (a c : ascii) (s : string) :
  prefix (str1 a) (String c s) = Ascii.eqb a c.
Proof.
  unfold str1. simpl. destruct (ascii_dec a c) as [->|n].
  - rewrite Ascii.eqb_refl. now destruct s.
  - symmetry. now apply Ascii.eqb_neq.
Qed.

(** Replacing a one-character pattern rewrites character by character. *)
Lemma replace_char (a : ascii) (new s : string) :
  replace (str1 a) new s
  = subst_char (fun c => if Ascii.eqb a c then new else str1 c) s.
Proof.
  unfold replace, str1.
  change (String a "") with (str1 a).
  induction s as [|c s IH]; [reflexivity|].
  cbn [replace_from subst_char]. rewrite prefix_char.
  destruct (Ascii.eqb a c); cbn -[prefix]; now rewrite IH.
Qed.

Lemma subst_char_app (f : ascii -> string) (s t : string) :
  subst_char f (s ++ t) = subst_char f s ++ subst_char f t.
Proof.
  induction s as [|c s IH]; simpl; [reflexivity|].
  now rewrite IH, append_assoc.
Qed.

Lemma subst_char_compose (f g : ascii -> string) (s : string) :
  subst_char g (subst_char f s) = subst_char (fun c => subst_char g (f c)) s.
Proof.
  induction s as [|c s IH]; simpl; [reflexivity|].
  now rewrite subst_char_app, IH.
Qed.

Lemma subst_char_ext (f g : ascii -> string) (s : string) :
  (forall c, f c = g c) -> subst_char f s = subst_char g s.
Proof.
  intros E. induction s as [|c s IH]; simpl; [reflexivity|].
  now rewrite E, IH.
Qed.

End StringFacts.

(** ** Text nodes *)

Lemma replace_one (a : ascii) (new s : string) :
  PyStr.replace (String a "") new s
  = PyStr.subst_char (fun c => if Ascii.eqb a c then new else String c "") s.
Proof. exact (replace_char a new s). Qed.

Lemma TextNode_markdown_by_char (text : string) :
  TextNode_markdown text = PyStr.subst_char escape_char text.
Proof.
  unfold TextNode_markdown, special_chars, TAB, NBSP, PyStr.str1.
  cbn [fold_left].
  rewrite !replace_one.
  rewrite !subst_char_compose.
  apply subst_char_ext. intros c.
  destruct c as [[] [] [] [] [] [] [] []]; vm_compute; reflexivity.
Qed.

(** C7. The markdown of a text node rewrites its text character by
    character: every tab, space and no-break space becomes the marker
    [&emsp;], every one of the eight reserved characters gets exactly one
    backslash in front of it, and every other character is kept.  A
    backslash put in by the escaping is never escaped again, and the node is
    left as it was. *)
Theorem TextNode_markdown_escapes_once (lib : Collaborators) (text : string) :
  markdown lib (TextNode text)
  = (TextNode text, Ok (PyStr.subst_char escape_char text)).
Proof.
  cbn [markdown]. now rewrite TextNode_markdown_by_char.
Qed.

Lemma TextNode_markdown_escapes_once_witness :
  markdown Sample.lib (TextNode ("a b\*$<>|~_" ++ TAB ++ NBSP ++ "c\_"))
  = (TextNode ("a b\*$<>|~_" ++ TAB ++ NBSP ++ "c\_"),
     Ok "a&emsp;b\\\*\$\<\>\|\~\_&emsp;&emsp;c\\\_").
Proof.
  exact (TextNode_markdown_escapes_once
           Sample.lib ("a b\*$<>|~_" ++ TAB ++ NBSP ++ "c\_")).
Defined.

Example TextNode_markdown_reserved :
  snd (markdown Sample.lib (TextNode "\*$<>|~_"))
  = Ok "\\\*\$\<\>\|\~\_".
Proof. reflexivity. Qed.

Example TextNode_markdown_blanks :
  snd (markdown Sample.lib (TextNode ("a b" ++ TAB ++ "c" ++ NBSP ++ "d")))
  = Ok "a&emsp;b&emsp;c&emsp;d".
Proof. reflexivity. Qed.

Example reserved_characters :
  filter is_reserved (map ascii_of_nat (seq 0 256))
  = ["$"; "*"; "<"; ">"; "\"; "_"; "|"; "~"]%char.
Proof. reflexivity. Qed.

(** ** Image nodes *)

Lemma rewritten_without_scheme (u : string) : rewritten "" u = "https:" ++ u.
Proof. reflexivity. Qed.

Lemma rewritten_with_scheme (scheme u : string) :
  scheme <> "" -> rewritten scheme u = u.
Proof. intros H. unfold rewritten. apply String.eqb_neq in H. now rewrite H. Qed.

Lemma url_settles_prefixed (lib : Collaborators) (u : string) :
  yarl_scheme lib u = Ok "" ->
  url_settles lib u = true ->
  exists scheme, yarl_scheme lib ("https:" ++ u) = Ok scheme /\ scheme <> "".
Proof.
  unfold url_settles. intros ->.
  destruct (yarl_scheme lib ("https:" ++ u)) as [scheme|e]; [|discriminate].
  intros H. exists scheme. split; [reflexivity|].
  apply String.eqb_neq. now apply negb_true_iff.
Qed.

(** Once such a url has been read and rewritten, reading it again leaves
    it. *)
Lemma rewritten_settled (lib : Collaborators) (u scheme : string) :
  url_settles lib u = true ->
  yarl_scheme lib u = Ok scheme ->
  exists scheme',
    yarl_scheme lib (rewritten scheme u) = Ok scheme'
    /\ rewritten scheme' (rewritten scheme u) = rewritten scheme u.
Proof.
  intros S H. destruct (String.eqb scheme "") eqn:E.
  - apply String.eqb_eq in E. subst scheme.
    destruct (url_settles_prefixed lib u H S) as (s' & Hs & Hn).
    exists s'. rewrite rewritten_without_scheme.
    split; [exact Hs | now apply rewritten_with_scheme].
  - apply String.eqb_neq in E. rewrite (rewritten_with_scheme _ _ E).
    exists scheme. split; [exact H | now apply rewritten_with_scheme].
Qed.

Lemma call_on_read_image (lib : Collaborators) (u scheme alt : string)
      (c : Call) :
  yarl_scheme lib u = Ok scheme ->
  call lib c (ImageNode (Some u) (NavigableString alt))
  = (ImageNode (Some (rewritten scheme u)) (NavigableString alt),
     image_output (rewritten scheme u) alt c).
Proof.
  intros H. destruct c; cbn [call markdown json]; rewrite H; reflexivity.
Qed.





(** With a string caption too a later call can fail: a reader may take a
    url without scheme and reject it once [https:] stands in front. *)
Example image_rejected_once_prefixed :
  snd (calls Sample.lib [CallMarkdown; CallMarkdown]
             (ImageNode (Some "//:80/x.png") (NavigableString "")))
  = [Text (Ok ("![](https://:80/x.png)" ++ NL ++ NL)); Text (Raise ValueError)].
Proof. reflexivity. Qed.

Example image_with_rejected_url :
  snd (calls Sample.lib [CallMarkdown; CallJson]
             (ImageNode (Some "http://example.com:abc/x.png")
                        (NavigableString "")))
  = [Text (Raise ValueError); Data (Raise ValueError)].
Proof. reflexivity. Qed.

(** ** The facade before and after parsing *)

(** A [fetch_content] that raises leaves the parsed flag as it was. *)
Lemma fetch_content_failure_keeps_flag
      (lib : Collaborators) (w w' : World) (a a' : Article) (e : exn) :
  Article_fetch_content lib w a = (w', a', Raise e) ->
  _has_parsed a' = _has_parsed a.
Proof.
  unfold Article_fetch_content, Article_get_all.
  destruct (negb (PyVal.truthy (_get_all_data a))).
  - destruct (get_initial_state lib (requests w) (page_url (_cvid a)))
      as [data|e0]; [|intros [= <- <- <-]; reflexivity].
    destruct (publish (_cvid a) data (cache_pool w)) as [c' [[]|e1]];
      cbn [rmap rbind]; [|intros [= <- <- <-]; reflexivity].
    destruct (content_markup lib data); [|intros [= <- <- <-]; reflexivity].
    destruct (content_meta data); [|intros [= <- <- <-]; reflexivity].
    destruct (parse lib _ _) as [log [nodes|e2]]; intros [= <- <- <-];
      reflexivity.
  - destruct (content_markup lib (_get_all_data a));
      [|intros [= <- <- <-]; reflexivity].
    destruct (content_meta (_get_all_data a));
      [|intros [= <- <- <-]; reflexivity].
    destruct (parse lib _ _) as [log [nodes|e2]]; intros [= <- <- <-];
      reflexivity.
Qed.

(** C4. While the parsed flag is unset, [Article.markdown] and
    [Article.json] both raise the "call fetch_content first" exception;
    neither returns a value, and the article is left untouched. *)
Theorem render_before_fetch_content_raises (lib : Collaborators) (a : Article) :
  _has_parsed a = false ->
  Article_markdown lib a = (a, Raise not_fetched)
  /\ Article_json lib a = (a, Raise not_fetched).
Proof.
  intros H. unfold Article_markdown, Article_json. rewrite H.
  split; reflexivity.
Qed.

Lemma render_before_fetch_content_raises_witness :
  _has_parsed (Article_init 1) = false
  /\ Article_markdown Sample.lib (Article_init 1)
     = (Article_init 1, Raise not_fetched)
  /\ Article_json Sample.lib (Article_init 1)
     = (Article_init 1, Raise not_fetched).
Proof.
  split; [reflexivity|].
  exact (render_before_fetch_content_raises
           Sample.lib (Article_init 1) eq_refl).
Defined.

(** ** The markdown of a document *)

Lemma markdown_loop_spec
      (lib : Collaborators) (l : list Node) (content : string) :
  markdown_loop lib content l
  = (map (fun n => fst (markdown lib n)) l,
     content ++ PyStr.join "" (flat_map (rendered lib) l)).
Proof.
  revert content. induction l as [|n l IH]; intros content.
  - cbn. now rewrite append_empty_r.
  - cbn [markdown_loop map flat_map]. unfold rendered at 1.
    destruct (markdown lib n) as [n' [s|e]]; cbn [fst snd]; rewrite IH.
    + cbn [app]. now rewrite join_empty_cons, append_assoc.
    + reflexivity.
Qed.

(** C6. The markdown of a parsed article never raises, whatever its
    children do: it returns the front matter followed by the markdown of
    exactly those top-level children whose [markdown] does not raise, in
    document order. *)
Theorem Article_markdown_skips_failing_children
        (lib : Collaborators) (a : Article) :
  _has_parsed a = true ->
  Article_markdown lib a
  = (set_children a (map (fun n => fst (markdown lib n)) (_children a)),
     Ok (front_matter lib (_meta a)
         ++ PyStr.join "" (flat_map (rendered lib) (_children a)))).
Proof.
  intros H. unfold Article_markdown, front_matter. rewrite H. cbn [negb].
  rewrite markdown_loop_spec. cbn [append].
  repeat (rewrite ?append_assoc; cbn [append]). reflexivity.
Qed.

Lemma Article_markdown_skips_failing_children_witness :
  _has_parsed mixed_article = true
  /\ snd (markdown Sample.lib (ImageNode None (NavigableString "")))
     = Raise TypeError
  /\ Article_markdown Sample.lib mixed_article
     = (mixed_article,
        Ok ("---" ++ NL ++ "title: t" ++ NL ++ "dyn_id_str: 900" ++ NL
            ++ "category: ?" ++ NL ++ NL ++ "---" ++ NL ++ NL
            ++ "a\*b" ++ NL ++ NL ++ "c" ++ NL ++ NL)).
Proof.
  split; [reflexivity|]. split; [reflexivity|].
  exact (Article_markdown_skips_failing_children Sample.lib mixed_article
           eq_refl).
Defined.

(** ** JSON rendering twice *)


Lemma render_all_twice {A} (f : Node -> Node * result A) (l : list Node) :
  Forall (fun x => f (fst (f x)) = f x) l ->
  render_all f (fst (render_all f l)) = render_all f l.
Proof.
  induction 1 as [|x r Hx _ IH]; [reflexivity|].
  cbn [render_all].
  destruct (f x) as [x' [a|e]] eqn:E; cbn [fst] in Hx.
  - destruct (render_all f r) as [r' rr] eqn:Er. cbn [fst] in IH |- *.
    cbn [render_all]. now rewrite Hx, IH.
  - cbn [fst render_all]. now rewrite Hx.
Qed.

Lemma settled_children (lib : Collaborators) (ch : list Node) :
  Forall (fun n => code_settles lib n = true ->
                   urls_settle lib n = true ->
                   json lib (fst (json lib n)) = json lib n) ch ->
  forallb (code_settles lib) ch = true ->
  forallb (urls_settle lib) ch = true ->
  render_all (json lib) (fst (render_all (json lib) ch))
  = render_all (json lib) ch.
Proof.
  intros IH H U. apply render_all_twice.
  rewrite forallb_forall in H, U. rewrite Forall_forall in IH |- *.
  intros x Hx. apply IH; auto.
Qed.

Ltac container_twice lib ch IH H U :=
  cbn [json];
  pose proof (settled_children lib ch IH H U) as E;
  destruct (render_all (json lib) ch) as [ch' r];
  cbn [fst json] in E |- *; rewrite E; reflexivity.

(** Where one unescape settles every code block and a second reading
    leaves every image url, a second [json] call on a node finds it as the
    first left it and answers the same. *)
Lemma json_twice (lib : Collaborators) (n : Node) :
  code_settles lib n = true ->
  urls_settle lib n = true ->
  json lib (fst (json lib n)) = json lib n.
Proof.
  induction n as [n IH] using Node_children_ind.
  destruct n; cbn [children_of code_settles urls_settle] in IH |- *;
    intros H U;
    try reflexivity; try (container_twice lib children IH H U).
  - destruct url as [u|]; [|reflexivity]. cbn [json].
    destruct (yarl_scheme lib u) as [scheme|e] eqn:E; cbn [fst json];
      [|now rewrite E].
    destruct (rewritten_settled lib u scheme U E) as (s' & Hs & Hr).
    now rewrite Hs, Hr.
  - cbn [json fst]. apply String.eqb_eq in H. now rewrite H.
Qed.

Lemma Article_json_twice (lib : Collaborators) (a : Article) :
  forallb (code_settles lib) (_children a) = true ->
  forallb (urls_settle lib) (_children a) = true ->
  Article_json lib (fst (Article_json lib a)) = Article_json lib a.
Proof.
  intros H U. unfold Article_json.
  destruct (_has_parsed a) eqn:Hp; cbn [negb]; [|cbn [fst]; now rewrite Hp].
  assert (E : render_all (json lib) (fst (render_all (json lib) (_children a)))
              = render_all (json lib) (_children a)).
  { apply render_all_twice. rewrite forallb_forall in H, U.
    rewrite Forall_forall. intros x Hx. apply json_twice; auto. }
  destruct (render_all (json lib) (_children a)) as [ch' r].
  cbn [fst set_children _has_parsed _children _meta] in E |- *.
  rewrite Hp. cbn [negb]. rewrite E. reflexivity.
Qed.

(** C1, on the code.  [CodeNode.json] unescapes the stored code and keeps
    the result on every call.  On a parsed article holding a code block
    whose text one unescape does not settle, the second [Article.json]
    therefore returns another object than the first. *)
Theorem Article_json_twice_differs_on_code
        (lib : Collaborators) (a : Article) (code lang : string) :
  _has_parsed a = true ->
  _children a = [CodeNode code lang] ->
  html_unescape lib (html_unescape lib code) <> html_unescape lib code ->
  snd (Article_json lib (fst (Article_json lib a)))
  <> snd (Article_json lib a).
Proof.
  intros Hp Hc H E. unfold Article_json in E.
  rewrite Hp, Hc in E. cbn in E. rewrite Hp in E. cbn in E.
  injection E as E. now apply H.
Qed.

Lemma Article_json_twice_differs_on_code_witness :
  Sample.unescape (Sample.unescape "&amp;lt;") <> Sample.unescape "&amp;lt;"
  /\ snd (Article_json Sample.lib code_article)
     = Ok (PDict [("type", PStr "Article"); ("meta", _meta code_article);
                  ("children",
                   PList [PDict [("type", PStr "CodeNode");
                                 ("code", PStr "&lt;");
                                 ("lang", PStr "text/html")]])])
  /\ snd (Article_json Sample.lib (fst (Article_json Sample.lib code_article)))
     = Ok (PDict [("type", PStr "Article"); ("meta", _meta code_article);
                  ("children",
                   PList [PDict [("type", PStr "CodeNode");
                                 ("code", PStr "<");
                                 ("lang", PStr "text/html")]])])
  /\ snd (Article_json Sample.lib (fst (Article_json Sample.lib code_article)))
     <> snd (Article_json Sample.lib code_article).
Proof.
  assert (H : Sample.unescape (Sample.unescape "&amp;lt;")
              <> Sample.unescape "&amp;lt;") by discriminate.
  split; [exact H|]. split; [reflexivity|]. split; [reflexivity|].
  exact (Article_json_twice_differs_on_code
           Sample.lib code_article "&amp;lt;" "text/html" eq_refl eq_refl H).
Defined.

(** ** The walker on spans *)

Section SpanFacts.
Variable lib : Collaborators.
Import PyStr.
Local Open Scope walk_scope.

(** The [span] branch of the loop, as [parse_item] unfolds on a span. *)
Lemma parse_item_span class attrs cs :
  parse_item lib (Tag "span" class attrs cs)
  = let e := Tag "span" class attrs cs in
    match lookup "style" attrs with
    | Some style =>
        del <- (if contains "text-decoration: line-through" style
                then children <- parse lib e ;; ret [DelNode children]
                else ret []) ;;
        flat <- (if negb (String.eqb (Bs4.text e) "")
                 then parse lib e else ret []) ;;
        ret (del ++ flat)%list
    | None =>
        match class with
        | Some [] => raise IndexError
        | Some (className :: _) =>
            if contains "font-size" className then
              match Re.search_font_size className with
              | None => raise TypeError
              | Some digits =>
                  size <- lift (PyInt.int digits) ;;
                  children <- parse lib e ;;
                  ret [FontSizeNode size children]
              end
            else if contains "color" className then
              match Re.search_color className with
              | None => raise TypeError
              | Some color_text =>
                  color <- lift (getitem ARTICLE_COLOR_MAP color_text) ;;
                  children <- parse lib e ;;
                  ret [ColorNode color children]
              end
            else if negb (String.eqb (Bs4.text e) "")
                 then parse lib e else ret []
        | None => ret []
        end
    end.
Proof. reflexivity. Qed.

Lemma text_nonempty (e : Soup) :
  Bs4.text e <> "" -> negb (String.eqb (Bs4.text e) "") = true.
Proof.
  intros H. apply negb_true_iff. now apply String.eqb_neq.
Qed.

(** A span styled otherwise, with text in it, adds its parsed contents
    and no node of its own. *)
Lemma span_other_style_flattens class attrs cs style log :
  lookup "style" attrs = Some style ->
  contains "text-decoration: line-through" style = false ->
  Bs4.text (Tag "span" class attrs cs) <> "" ->
  parse_item lib (Tag "span" class attrs cs) log
  = parse lib (Tag "span" class attrs cs) log.
Proof.
  intros Hs Hl Ht. rewrite parse_item_span. cbv zeta.
  rewrite Hs, Hl, (text_nonempty _ Ht). unfold bind, ret.
  now destruct (parse lib _ log) as [log1 [ch|e]].
Qed.

End SpanFacts.

(** C3, on the code.  A span whose style holds
    [text-decoration: line-through] and which has text in it is parsed
    twice: once for the children of the [DelNode], and once more to put the
    same contents after that node. *)
Theorem span_line_through_repeats_children
        (lib : Collaborators) class attrs cs style log :
  lookup "style" attrs = Some style ->
  PyStr.contains "text-decoration: line-through" style = true ->
  Bs4.text (Tag "span" class attrs cs) <> "" ->
  parse_item lib (Tag "span" class attrs cs) log
  = (children <- parse lib (Tag "span" class attrs cs) ;;
     again <- parse lib (Tag "span" class attrs cs) ;;
     ret (DelNode children :: again))%walk log.
Proof.
  intros Hs Hl Ht. rewrite parse_item_span. cbv zeta.
  rewrite Hs, Hl, (text_nonempty _ Ht). unfold bind, ret.
  destruct (parse lib _ log) as [log1 [ch|e]]; [|reflexivity].
  now destruct (parse lib _ log1) as [log2 [again|e]].
Qed.

Lemma span_line_through_repeats_children_witness :
  lookup "style" [("style", "text-decoration: line-through")]
  = Some "text-decoration: line-through"
  /\ PyStr.contains "text-decoration: line-through"
                    "text-decoration: line-through" = true
  /\ Bs4.text (Tag "span" None [("style", "text-decoration: line-through")]
                   [NavigableString "abc"]) <> ""
  /\ parse_item Sample.lib
       (Tag "span" None [("style", "text-decoration: line-through")]
            [NavigableString "abc"]) []
     = ([], Ok [DelNode [TextNode "abc"]; TextNode "abc"]).
Proof.
  assert (H : Bs4.text (Tag "span" None
                            [("style", "text-decoration: line-through")]
                            [NavigableString "abc"]) <> "") by discriminate.
  split; [reflexivity|]. split; [reflexivity|]. split; [exact H|].
  exact (span_line_through_repeats_children
           Sample.lib None [("style", "text-decoration: line-through")]
           [NavigableString "abc"] "text-decoration: line-through" []
           eq_refl eq_refl H).
Defined.

(** C10. A span with neither a [style] nor a [class] attribute adds nothing
    to the node sequence, whatever it contains; its contents are not parsed
    and no link is resolved for them. *)
Theorem span_without_style_or_class_is_dropped
        (lib : Collaborators) attrs cs log :
  lookup "style" attrs = None ->
  parse_item lib (Tag "span" None attrs cs) log = (log, Ok []).
Proof.
  intros Hs. rewrite parse_item_span. cbv zeta. now rewrite Hs.
Qed.

Lemma span_without_style_or_class_is_dropped_witness :
  lookup "style" [("id", "x")] = None
  /\ parse_item Sample.lib
       (Tag "span" None [("id", "x")]
            [NavigableString "kept?";
             Tag "a" None [("href", "https://www.bilibili.com/video/av170001")] [];
             Tag "span" (Some ["color-nope"]) [] []])
       []
     = ([], Ok []).
Proof.
  split; [reflexivity|].
  exact (span_without_style_or_class_is_dropped
           Sample.lib [("id", "x")]
           [NavigableString "kept?";
            Tag "a" None [("href", "https://www.bilibili.com/video/av170001")] [];
            Tag "span" (Some ["color-nope"]) [] []]
           [] eq_refl).
Defined.

(** ** Colour spans *)






Example span_with_style_and_unknown_color :
  parse_item Sample.lib
    (Tag "span" (Some ["color-unknown-name"]) [("style", "font-weight: bold")]
         [NavigableString "x"]) []
  = ([], Ok [TextNode "x"]).
Proof. reflexivity. Qed.

Example span_with_unknown_color_second :
  parse_item Sample.lib
    (Tag "span" (Some ["note"; "color-unknown-name"]) []
         [NavigableString "x"]) []
  = ([], Ok [TextNode "x"]).
Proof. reflexivity. Qed.

(** ** Card figures *)

Section CardFacts.
Import PyStr.

Lemma digit_facts (c : ascii) :
  is_digit c = true ->
  is_space c = false /\ Ascii.eqb c "," = false
  /\ Ascii.eqb c "-" = false /\ Ascii.eqb c "+" = false.
Proof.
  destruct c as [[] [] [] [] [] [] [] []]; vm_compute; intros H;
    try discriminate H; repeat split.
Qed.

Lemma digit_not_int_space (c : ascii) :
  is_digit c = true -> PyInt.is_int_space c = false.
Proof.
  destruct c as [[] [] [] [] [] [] [] []]; vm_compute; intros H;
    try discriminate H; reflexivity.
Qed.

Lemma skip_left_digits (s : string) :
  PyStr.all_chars is_digit s = true -> PyInt.skip_left s = s.
Proof.
  destruct s as [|c s]; [reflexivity|]. cbn. intros H.
  apply andb_true_iff in H as [Hc _].
  now rewrite (digit_not_int_space c Hc).
Qed.

Lemma skip_right_digits (s : string) :
  PyStr.all_chars is_digit s = true -> PyInt.skip_right s = s.
Proof.
  induction s as [|c s IH]; [reflexivity|].
  cbn [PyStr.all_chars PyInt.skip_right].
  intros H. apply andb_true_iff in H as [Hc Hs].
  rewrite (IH Hs). destruct s; [|reflexivity].
  now rewrite (digit_not_int_space c Hc).
Qed.

Lemma digits_decimal (s : string) (acc : Z) (after_digit : bool) :
  PyStr.all_chars is_digit s = true ->
  s <> "" \/ after_digit = true ->
  PyInt.digits acc after_digit s = Ok (decimal_from acc s).
Proof.
  revert acc after_digit.
  induction s as [|c s IH]; intros acc b Hd Hn.
  - destruct Hn as [Hn | ->]; [now contradiction Hn | reflexivity].
  - cbn [PyStr.all_chars] in Hd. apply andb_true_iff in Hd as [Hc Hs].
    cbn [PyInt.digits decimal_from]. rewrite Hc. apply IH; auto.
Qed.

Lemma int_numeric (s : string) : numeric s -> PyInt.int s = Ok (decimal s).
Proof.
  intros [Hn Hd]. unfold PyInt.int, decimal.
  rewrite (skip_left_digits s Hd), (skip_right_digits s Hd).
  destruct s as [|c s]; [now contradiction Hn|].
  pose proof Hd as Hd'. cbn [PyStr.all_chars] in Hd'.
  apply andb_true_iff in Hd' as [Hc _].
  destruct (digit_facts c Hc) as (_ & _ & Hminus & Hplus).
  rewrite Hminus, Hplus. apply digits_decimal; [assumption|].
  left. discriminate.
Qed.

Lemma card_loop_numeric (card : Z -> Node) (tokens : list string) :
  Forall numeric tokens ->
  card_loop card tokens = Ok (map (fun t => card (decimal t)) tokens).
Proof.
  induction 1 as [|t r Ht _ IH]; [reflexivity|].
  cbn [card_loop map]. rewrite (int_numeric t Ht). cbn [rbind].
  now rewrite IH.
Qed.

Lemma rev_string_twice (t b a : string) :
  rev_string a (rev_string b t) = rev_string (t ++ a) b.
Proof.
  revert b a. induction t as [|c t IH]; intros b a; [reflexivity|].
  cbn [rev_string append]. now rewrite IH.
Qed.

(** Reading a token that holds no comma only extends the current piece. *)
Lemma split_from_token (t cur s : string) :
  PyStr.all_chars is_digit t = true ->
  split_from "," 0 cur (t ++ s) = split_from "," 0 (rev_string cur t) s.
Proof.
  revert cur. induction t as [|c t IH]; intros cur Hd; [reflexivity|].
  cbn [PyStr.all_chars] in Hd. apply andb_true_iff in Hd as [Hc Ht].
  destruct (digit_facts c Hc) as (_ & Hcomma & _).
  cbn [append split_from rev_string].
  change "," with (str1 ","). rewrite prefix_char.
  rewrite Ascii.eqb_sym, Hcomma. now apply IH.
Qed.

Lemma join_cons (t t2 : string) (r : list string) :
  join "," (t :: t2 :: r) = t ++ String "," (join "," (t2 :: r)).
Proof. reflexivity. Qed.

Lemma split_join (t : string) (r : list string) :
  Forall numeric (t :: r) -> split "," (join "," (t :: r)) = t :: r.
Proof.
  revert t. induction r as [|t2 r IH]; intros t H.
  - inversion_clear H as [|? ? [_ Hd] _].
    change (join "," [t]) with t. unfold split.
    rewrite <- (append_empty_r t) at 1.
    rewrite (split_from_token t "" "" Hd). cbn [split_from].
    now rewrite rev_string_twice, append_empty_r.
  - inversion_clear H as [|? ? [_ Hd] Hr].
    rewrite join_cons. unfold split.
    rewrite (split_from_token t "" _ Hd).
    cbn [split_from]. change "," with (str1 ","). rewrite prefix_char.
    rewrite Ascii.eqb_refl. cbn [str1 String.length Nat.sub].
    rewrite rev_string_twice, append_empty_r.
    f_equal. apply (IH t2 Hr).
Qed.




End CardFacts.

Lemma parse_item_figure (lib : Collaborators) class attrs cs :
  parse_item lib (Tag "figure" class attrs cs)
  = lift (parse_figure lib (Tag "figure" class attrs cs) class).
Proof. reflexivity. Qed.




Example figure_with_image_before_card :
  parse_item Sample.lib
    (Tag "figure" (Some ["img-box"]) []
         [Tag "img" (Some ["pic"]) [("data-src", "//example.com/x.png")] [];
          Tag "img" (Some ["video-card"]) [("aid", "100,200")] []]) []
  = ([], Ok []).
Proof. reflexivity. Qed.

Example figure_seamless_card_without_source :
  parse_item Sample.lib
    (Tag "figure" (Some ["img-box"]) []
         [Tag "img" (Some ["video-card"; "seamless"]) [("aid", "100,200")] []])
    []
  = ([], Raise (KeyError "data-src")).
Proof. reflexivity. Qed.


(** ** Fetching twice *)

Section WalkFacts.
Variable lib : Collaborators.
Local Open Scope walk_scope.

Lemma only_links_ret {A} (a : A) : only_links (ret a).
Proof. intros log. exists []. cbn. now rewrite app_nil_r. Qed.

Lemma only_links_raise {A} (e : exn) : only_links (@raise A e).
Proof. intros log. exists []. cbn. now rewrite app_nil_r. Qed.

Lemma only_links_lift {A} (r : result A) : only_links (lift r).
Proof. intros log. exists []. cbn. now rewrite app_nil_r. Qed.

Lemma only_links_await (href : string) :
  only_links (await_parse_link lib href).
Proof. intros log. now exists [href]. Qed.

Lemma only_links_bind {A B} (c : Walk A) (k : A -> Walk B) :
  only_links c -> (forall a, only_links (k a)) -> only_links (bind c k).
Proof.
  intros Hc Hk log. unfold bind. destruct (Hc log) as [h1 E1].
  destruct (c log) as [log1 [a|e]]; cbn [fst] in E1; subst log1.
  - destruct (Hk a (log ++ map ParseLink h1)%list) as [h2 E2].
    exists (h1 ++ h2)%list. now rewrite E2, map_app, app_assoc.
  - now exists h1.
Qed.

Lemma only_links_loop (body : Soup -> Walk (list Node)) (l : list Soup) :
  Forall (fun e => only_links (body e)) l -> only_links (parse_loop body l).
Proof.
  induction 1 as [|e r He _ IH]; cbn [parse_loop].
  - apply only_links_ret.
  - apply only_links_bind; [assumption|]. intros nodes.
    apply only_links_bind; [assumption|]. intros rest. apply only_links_ret.
Qed.

Ltac links :=
  repeat first
    [ apply only_links_ret
    | apply only_links_raise
    | apply only_links_lift
    | apply only_links_await
    | apply only_links_loop; assumption
    | apply only_links_bind; [|intros ?]
    | match goal with
      | |- only_links (if ?b then _ else _) => destruct b
      | |- only_links (match ?x with _ => _ end) => destruct x
      end ].

(** The walker asks for links and for nothing else. *)
Lemma parse_item_only_links (e : Soup) : only_links (parse_item lib e).
Proof.
  induction e as [e IH] using Soup_contents_ind.
  destruct e as [s|name class attrs cs]; cbn [Bs4.contents] in IH.
  - apply only_links_ret.
  - cbn [parse_item]. cbv zeta. unfold parse_empty_anchor. links.
Qed.

Lemma parse_only_links (el : Soup) : only_links (parse lib el).
Proof.
  apply only_links_loop. apply Forall_forall. intros e _.
  apply parse_item_only_links.
Qed.

Lemma filter_links (log : list Request) (hrefs : list string) :
  filter is_initial_state (log ++ map ParseLink hrefs)
  = filter is_initial_state log.
Proof.
  rewrite filter_app.
  replace (filter is_initial_state (map ParseLink hrefs)) with (@nil Request).
  - apply app_nil_r.
  - induction hrefs as [|h r IH]; [reflexivity | exact IH].
Qed.

Lemma content_markup_truthy (data : pyval) (markup : string) :
  content_markup lib data = Ok markup -> PyVal.truthy data = true.
Proof.
  unfold content_markup, PyVal.subscript, getitem.
  destruct data as [| | | | |l|d]; try discriminate.
  destruct d as [|kv d]; [discriminate | reflexivity].
Qed.

(** What a successful [fetch_content] leaves in the article. *)
Lemma fetch_content_success (w w1 : World) (a a1 : Article) :
  Article_fetch_content lib w a = (w1, a1, Ok tt) ->
  exists markup meta,
    content_markup lib (_get_all_data a1) = Ok markup
    /\ content_meta (_get_all_data a1) = Ok meta
    /\ _meta a1 = meta
    /\ _has_parsed a1 = true.
Proof.
  unfold Article_fetch_content, Article_get_all.
  destruct (negb (PyVal.truthy (_get_all_data a))).
  - destruct (get_initial_state lib (requests w) (page_url (_cvid a)))
      as [data|e0]; [|discriminate].
    destruct (publish (_cvid a) data (cache_pool w)) as [c' [[]|e1]];
      cbn [rmap rbind]; [|discriminate].
    destruct (content_markup lib data) as [markup|] eqn:Em; [|discriminate].
    destruct (content_meta data) as [meta|] eqn:Et; [|discriminate].
    destruct (parse lib _ _) as [log [nodes|e2]]; [|discriminate].
    intros [= <- <-]. exists markup, meta. cbn. auto.
  - destruct (content_markup lib (_get_all_data a)) as [markup|] eqn:Em;
      [|discriminate].
    destruct (content_meta (_get_all_data a)) as [meta|] eqn:Et;
      [|discriminate].
    destruct (parse lib _ _) as [log [nodes|e2]]; [|discriminate].
    intros [= <- <-]. exists markup, meta. cbn. auto.
Qed.

End WalkFacts.

(** C2, as the code has it.  After a successful [fetch_content], a second
    call asks for no page again: it takes the payload kept in the article.
    It does parse that payload again: the node tree is replaced by the
    result of the new parse, which asks again for every link the body
    needs resolved; the metadata and the parsed flag come out as they
    were. *)
Theorem second_fetch_content_parses_again
        (lib : Collaborators) (w w1 : World) (a a1 : Article) :
  Article_fetch_content lib w a = (w1, a1, Ok tt) ->
  exists markup,
    content_markup lib (_get_all_data a1) = Ok markup
    /\ Article_fetch_content lib w1 a1
       = (let (log, r) := parse lib (lxml_first_div lib markup) (requests w1) in
          ({| requests := log; cache_pool := cache_pool w1 |},
           match r with
           | Ok node_list => set_children a1 node_list
           | Raise _ => a1
           end,
           rmap (fun _ => tt) r))
    /\ filter is_initial_state
              (requests (fst (fst (Article_fetch_content lib w1 a1))))
       = filter is_initial_state (requests w1).
Proof.
  intros H.
  destruct (fetch_content_success lib w w1 a a1 H)
    as (markup & meta & Em & Et & Hm & Hp).
  assert (E : Article_fetch_content lib w1 a1
              = (let (log, r) :=
                   parse lib (lxml_first_div lib markup) (requests w1) in
                 ({| requests := log; cache_pool := cache_pool w1 |},
                  match r with
                  | Ok node_list => set_children a1 node_list
                  | Raise _ => a1
                  end,
                  rmap (fun _ => tt) r))).
  { unfold Article_fetch_content, Article_get_all.
    rewrite (content_markup_truthy lib _ _ Em). cbn [negb].
    rewrite Em, Et.
    destruct a1 as [ch m cv hp gd]. cbn in Hm, Hp. subst m hp.
    destruct (parse lib _ _) as [log [nodes|e]]; reflexivity. }
  exists markup. split; [exact Em|]. split; [exact E|].
  rewrite E.
  destruct (parse_only_links lib (lxml_first_div lib markup) (requests w1))
    as [hrefs El].
  destruct (parse lib _ _) as [log r]. cbn [fst requests] in El |- *.
  rewrite El. apply filter_links.
Qed.

Lemma second_fetch_content_parses_again_witness :
  Article_fetch_content Sample.lib Sample.world (Article_init 2)
  = (link_world, link_article, Ok tt)
  /\ exists markup,
       content_markup Sample.lib (_get_all_data link_article) = Ok markup
       /\ Article_fetch_content Sample.lib link_world link_article
          = (let (log, r) := parse Sample.lib (lxml_first_div Sample.lib markup)
                                   (requests link_world) in
             ({| requests := log; cache_pool := cache_pool link_world |},
              match r with
              | Ok node_list => set_children link_article node_list
              | Raise _ => link_article
              end,
              rmap (fun _ => tt) r))
       /\ filter is_initial_state
                 (requests (fst (fst (Article_fetch_content
                                        Sample.lib link_world link_article))))
          = filter is_initial_state (requests link_world).
Proof.
  split; [reflexivity|].
  exact (second_fetch_content_parses_again
           Sample.lib Sample.world link_world (Article_init 2) link_article
           eq_refl).
Defined.

(** C2, as stated, fails: on the sample article whose body is one bare
    link, the second [fetch_content] resolves the link a second time. *)
Lemma fetch_content_not_memoized : ~ fetch_content_memoized Sample.lib.
Proof.
  intros H.
  specialize (H Sample.world (Article_init 2) link_world link_article eq_refl).
  vm_compute in H. discriminate H.
Qed.

Example second_fetch_content_log :
  requests (fst (fst (Article_fetch_content Sample.lib link_world link_article)))
  = [InitialState "https://www.bilibili.com/read/cv2/?jump_opus=1";
     ParseLink "https://www.bilibili.com/video/av170001";
     ParseLink "https://www.bilibili.com/video/av170001"].
Proof. reflexivity. Qed.


(** * Further properties of the renderers *)

Section RenderFacts.
Variable lib : Collaborators.

Lemma is_ok_rmap {A B} (f : A -> B) (r : result A) :
  is_ok (rmap f r) = is_ok r.
Proof. now destruct r. Qed.

Lemma render_all_is_ok {A} (f : Node -> Node * result A) (l : list Node) :
  is_ok (snd (render_all f l)) = forallb (fun x => is_ok (snd (f x))) l.
Proof.
  induction l as [|x r IH]; [reflexivity|]. cbn [render_all forallb].
  destruct (f x) as [x' [a|e]]; cbn [snd is_ok andb]; [|reflexivity].
  destruct (render_all f r) as [r' rr]. cbn [snd] in IH |- *.
  now rewrite is_ok_rmap.
Qed.

Lemma render_all_raises {A} (f : Node -> Node * result A)
      (P : Node -> exn -> Prop) (l : list Node) (e : exn) :
  Forall (fun x => forall e', snd (f x) = Raise e' -> P x e') l ->
  snd (render_all f l) = Raise e -> exists x, In x l /\ P x e.
Proof.
  induction 1 as [|x r Hx _ IH]; [discriminate|]. cbn [render_all].
  destruct (f x) as [x' [a|e0]]; cbn [snd] in Hx |- *.
  - destruct (render_all f r) as [r' [rr|e1]]; cbn [snd rmap rbind] in IH |- *;
      [discriminate|]. intros [= <-].
    destruct (IH eq_refl) as (y & Hin & Hy). exists y. split; [now right | exact Hy].
  - intros [= <-]. exists x. split; [now left | now apply Hx].
Qed.

Lemma render_all_skeleton {A} (f : Node -> Node * result A) (l : list Node) :
  Forall (fun x => skeleton (fst (f x)) = skeleton x) l ->
  map skeleton (fst (render_all f l)) = map skeleton l.
Proof.
  induction 1 as [|x r Hx _ IH]; [reflexivity|]. cbn [render_all].
  destruct (f x) as [x' [a|e]]; cbn [fst] in Hx.
  - destruct (render_all f r) as [r' rr]. cbn [fst map] in IH |- *.
    now rewrite Hx, IH.
  - cbn [fst map]. now rewrite Hx.
Qed.

Lemma render_all_settle {A} (f : Node -> Node * result A) (l : list Node) :
  Forall (fun x => is_ok (snd (f x)) = true -> fst (f x) = settle lib x) l ->
  is_ok (snd (render_all f l)) = true ->
  fst (render_all f l) = map (settle lib) l.
Proof.
  induction 1 as [|x r Hx _ IH]; [reflexivity|]. cbn [render_all].
  destruct (f x) as [x' [a|e]]; cbn [fst snd is_ok] in Hx |- *;
    [|discriminate].
  destruct (render_all f r) as [r' rr]. cbn [fst snd map] in IH |- *.
  rewrite is_ok_rmap. intros Hr. now rewrite Hx, IH.
Qed.

End RenderFacts.

Section NodeRenderFacts.
Variable lib : Collaborators.

Lemma forallb_negb_existsb {A} (f p : A -> bool) (l : list A) :
  Forall (fun x => f x = negb (p x)) l ->
  forallb f l = negb (existsb p l).
Proof.
  induction 1 as [|x r Hx _ IH]; [reflexivity|].
  cbn. now rewrite Hx, IH, negb_orb.
Qed.

Ltac with_children f L :=
  match goal with
  | |- context [render_all (f lib) ?ch] =>
      revert L; destruct (render_all (f lib) ch) as [ch' r];
      cbn [fst snd]; intros L
  end.

Lemma markdown_skeleton (n : Node) :
  skeleton (fst (markdown lib n)) = skeleton n.
Proof.
  induction n as [n IH] using Node_children_ind.
  destruct n; cbn [children_of] in IH; cbn [markdown];
    try reflexivity;
    try (pose proof (render_all_skeleton (markdown lib) _ IH) as L;
         with_children markdown L; cbn [skeleton]; now rewrite L).
  destruct url as [u|]; [|reflexivity].
  now destruct (yarl_scheme lib u).
Qed.

Lemma json_skeleton (n : Node) :
  skeleton (fst (json lib n)) = skeleton n.
Proof.
  induction n as [n IH] using Node_children_ind.
  destruct n; cbn [children_of] in IH; cbn [json];
    try reflexivity;
    try (pose proof (render_all_skeleton (json lib) _ IH) as L;
         with_children json L; cbn [skeleton]; now rewrite L).
  destruct url as [u|]; [|reflexivity].
  now destruct (yarl_scheme lib u).
Qed.

Lemma json_is_ok (n : Node) :
  is_ok (snd (json lib n)) = negb (unreadable lib n).
Proof.
  induction n as [n IH] using Node_children_ind.
  destruct n; cbn [children_of] in IH; cbn [json unreadable];
    try reflexivity;
    try (pose proof (render_all_is_ok (json lib) children) as L;
         rewrite (forallb_negb_existsb _ _ _ IH) in L;
         with_children json L; unfold container_json;
         now rewrite is_ok_rmap).
  destruct url as [u|]; [|reflexivity].
  now destruct (yarl_scheme lib u).
Qed.

Lemma escaped_bracket_is_ok (x : Soup) :
  is_ok (escaped_bracket lib x) = negb (no_replace x).
Proof.
  destruct x as [a|name cls attrs cs]; [reflexivity|].
  unfold escaped_bracket, no_replace.
  now destruct (Bs4.find (Tag name cls attrs cs) "replace").
Qed.

Lemma escaped_bracket_raises (x : Soup) (e : exn) :
  escaped_bracket lib x = Raise e -> e = TypeError.
Proof.
  destruct x as [a|name cls attrs cs]; [discriminate|].
  unfold escaped_bracket.
  destruct (Bs4.find (Tag name cls attrs cs) "replace");
    [discriminate | now intros [= <-]].
Qed.

Lemma markdown_is_ok (n : Node) :
  is_ok (snd (markdown lib n)) = negb (unrenderable lib n).
Proof.
  induction n as [n IH] using Node_children_ind.
  destruct n; cbn [children_of] in IH; cbn [markdown unrenderable];
    try reflexivity;
    try (pose proof (render_all_is_ok (markdown lib) children) as L;
         rewrite (forallb_negb_existsb _ _ _ IH) in L;
         with_children markdown L; now rewrite is_ok_rmap).
  - destruct url as [u|]; [|reflexivity].
    destruct (yarl_scheme lib u); [|reflexivity].
    cbn [snd is_ok negb orb]. now rewrite is_ok_rmap, escaped_bracket_is_ok.
  - cbn [snd]. now rewrite is_ok_rmap, escaped_bracket_is_ok.
Qed.

Lemma raised_below_child (n x : Node) (e : exn) :
  In x (children_of n) -> raised_below lib x e -> raised_below lib n e.
Proof.
  intros Hin [-> | (u & Hu & Hr)]; [now left|]. right. exists u.
  split; [|exact Hr].
  destruct n; cbn [children_of] in Hin; try contradiction;
    cbn [image_urls]; apply in_flat_map; now exists x.
Qed.

Lemma json_raises (n : Node) (e : exn) :
  snd (json lib n) = Raise e -> raised_below lib n e.
Proof.
  revert e. induction n as [n IH] using Node_children_ind. intros e.
  pose proof (fun x Hin => raised_below_child n x e Hin) as Up.
  destruct n; cbn [children_of] in IH, Up; cbn [json];
    try discriminate;
    try (pose proof (render_all_raises (json lib) (raised_below lib)
                       children e IH) as L;
         with_children json L; unfold container_json;
         destruct r; cbn [rmap rbind]; [discriminate|];
         intros [= <-]; destruct (L eq_refl) as (x & Hin & Hx);
         now apply (Up x)).
  destruct url as [u|]; cbn [snd]; [|intros [= <-]; now left].
  destruct (yarl_scheme lib u) as [scheme|e0] eqn:E; cbn [snd];
    [discriminate|]. intros [= <-]. right. exists u. split; [now left | exact E].
Qed.

Lemma markdown_raises (n : Node) (e : exn) :
  snd (markdown lib n) = Raise e -> raised_below lib n e.
Proof.
  revert e. induction n as [n IH] using Node_children_ind. intros e.
  pose proof (fun x Hin => raised_below_child n x e Hin) as Up.
  destruct n; cbn [children_of] in IH, Up; cbn [markdown];
    try discriminate;
    try (pose proof (render_all_raises (markdown lib) (raised_below lib)
                       children e IH) as L;
         with_children markdown L;
         destruct r; cbn [rmap rbind]; [discriminate|];
         intros [= <-]; destruct (L eq_refl) as (x & Hin & Hx);
         now apply (Up x)).
  - destruct url as [u|]; cbn [snd]; [|intros [= <-]; now left].
    destruct (yarl_scheme lib u) as [scheme|e0] eqn:E; cbn [snd].
    + destruct (escaped_bracket lib alt) as [t|e1] eqn:B; cbn [rmap rbind];
        [discriminate|]. intros [= <-]. left.
      exact (escaped_bracket_raises alt e1 B).
    + intros [= <-]. right. exists u. split; [now left | exact E].
  - cbn [snd]. destruct (escaped_bracket lib text) as [t|e1] eqn:B;
      cbn [rmap rbind]; [discriminate|]. intros [= <-]. left.
    exact (escaped_bracket_raises text e1 B).
Qed.

Lemma markdown_settles (n : Node) :
  is_ok (snd (markdown lib n)) = true -> fst (markdown lib n) = settle lib n.
Proof.
  induction n as [n IH] using Node_children_ind.
  destruct n; cbn [children_of] in IH; cbn [markdown settle];
    try reflexivity;
    try (pose proof (render_all_settle lib (markdown lib) children IH) as L;
         with_children markdown L; rewrite is_ok_rmap; intros Hr;
         now rewrite (L Hr)).
  destruct url as [u|]; [|discriminate]. unfold normalize_url.
  destruct (yarl_scheme lib u); [reflexivity | discriminate].
Qed.

Lemma json_settles (n : Node) :
  is_ok (snd (json lib n)) = true -> fst (json lib n) = settle lib n.
Proof.
  induction n as [n IH] using Node_children_ind.
  destruct n; cbn [children_of] in IH; cbn [json settle];
    try reflexivity;
    try (pose proof (render_all_settle lib (json lib) children IH) as L;
         with_children json L; unfold container_json; rewrite is_ok_rmap;
         intros Hr; now rewrite (L Hr)).
  destruct url as [u|]; [|discriminate]. unfold normalize_url.
  destruct (yarl_scheme lib u); [reflexivity | discriminate].
Qed.

Lemma unreadable_unrenderable (n : Node) :
  unreadable lib n = true -> unrenderable lib n = true.
Proof.
  induction n as [n IH] using Node_children_ind.
  destruct n; cbn [children_of] in IH; cbn [unreadable unrenderable];
    try discriminate;
    try (rewrite !existsb_exists; intros [x [Hin Hx]]; exists x;
         split; [assumption|]; rewrite Forall_forall in IH; now apply IH).
  destruct url as [u|]; [|reflexivity]. intros ->. reflexivity.
Qed.

End NodeRenderFacts.

(** X1. A render call never adds, removes, reorders or retypes a node and
    touches no field but the url of an image that has one and the code of
    a code block: with those two fields blanked, the node after [markdown]
    and the node after [json] are the node before, whether the call
    returns or raises. *)
Theorem render_keeps_skeleton (lib : Collaborators) (n : Node) :
  skeleton (fst (markdown lib n)) = skeleton n
  /\ skeleton (fst (json lib n)) = skeleton n.
Proof.
  split; [apply markdown_skeleton | apply json_skeleton].
Qed.

(** X2. [json] of a node raises exactly when an image that cannot be read
    sits at or below it: an image without url, or one whose url yarl
    rejects.  What it raises then is [TypeError] or the exception yarl
    raised on the url of an image at or below the node. *)
Theorem json_fails_on_unreadable_image (lib : Collaborators) (n : Node) :
  is_ok (snd (json lib n)) = negb (unreadable lib n)
  /\ (forall e, snd (json lib n) = Raise e -> raised_below lib n e).
Proof.
  split; [apply json_is_ok | apply json_raises].
Qed.

(** X3. [markdown] of a node raises exactly when, at or below it, there is
    an image without url, an image whose url yarl rejects, or an image
    caption or anchor text that is a tag holding no tag called [replace]
    (a caption or text that is a tag holding one renders).  What it raises
    then is [TypeError] or the exception yarl raised on the url of an image
    at or below the node. *)
Theorem markdown_fails_on_unrenderable (lib : Collaborators) (n : Node) :
  is_ok (snd (markdown lib n)) = negb (unrenderable lib n)
  /\ (forall e, snd (markdown lib n) = Raise e -> raised_below lib n e).
Proof.
  split; [apply markdown_is_ok | apply markdown_raises].
Qed.

(** X4. Whenever [markdown] of a node returns, [json] of the node returns
    too, and both calls leave the node in the same state: every image url
    normalised and every code block unescaped once. *)
Theorem markdown_ok_json_ok_same_state (lib : Collaborators) (n : Node) :
  is_ok (snd (markdown lib n)) = true ->
  is_ok (snd (json lib n)) = true
  /\ fst (markdown lib n) = settle lib n
  /\ fst (json lib n) = settle lib n.
Proof.
  intros H.
  assert (J : is_ok (snd (json lib n)) = true).
  { rewrite json_is_ok. rewrite markdown_is_ok in H.
    destruct (unreadable lib n) eqn:U; [|reflexivity].
    now rewrite (unreadable_unrenderable lib n U) in H. }
  split; [exact J|]. split; [now apply markdown_settles | now apply json_settles].
Qed.

Lemma markdown_ok_json_ok_same_state_witness :
  is_ok (snd (markdown Sample.lib (hd SeparatorNode (_children settled_article))))
  = true
  /\ is_ok (snd (json Sample.lib (hd SeparatorNode (_children settled_article))))
     = true
  /\ fst (markdown Sample.lib (hd SeparatorNode (_children settled_article)))
     = ParagraphNode "left" [ImageNode (Some "https://example.com/x.png")
                                       (NavigableString "fig")]
  /\ fst (json Sample.lib (hd SeparatorNode (_children settled_article)))
     = ParagraphNode "left" [ImageNode (Some "https://example.com/x.png")
                                       (NavigableString "fig")].
Proof.
  split; [reflexivity|].
  exact (markdown_ok_json_ok_same_state
           Sample.lib (hd SeparatorNode (_children settled_article)) eq_refl).
Defined.

(** ** Rendering twice *)

Section TwiceFacts.
Variable lib : Collaborators.

Lemma settled_children_markdown (ch : list Node) :
  Forall (fun n => code_settles lib n = true ->
                   urls_settle lib n = true ->
                   markdown lib (fst (markdown lib n)) = markdown lib n) ch ->
  forallb (code_settles lib) ch = true ->
  forallb (urls_settle lib) ch = true ->
  render_all (markdown lib) (fst (render_all (markdown lib) ch))
  = render_all (markdown lib) ch.
Proof.
  intros IH H U. apply render_all_twice.
  rewrite forallb_forall in H, U. rewrite Forall_forall in IH |- *.
  intros x Hx. apply IH; auto.
Qed.

Ltac container_md_twice ch IH H U :=
  cbn [markdown];
  pose proof (settled_children_markdown ch IH H U) as E;
  destruct (render_all (markdown lib) ch) as [ch' r];
  cbn [fst markdown] in E |- *; rewrite E; reflexivity.

Lemma markdown_twice (n : Node) :
  code_settles lib n = true ->
  urls_settle lib n = true ->
  markdown lib (fst (markdown lib n)) = markdown lib n.
Proof.
  induction n as [n IH] using Node_children_ind.
  destruct n; cbn [children_of code_settles urls_settle] in IH |- *;
    intros H U;
    try reflexivity; try (container_md_twice children IH H U).
  - destruct url as [u|]; [|reflexivity]. cbn [markdown].
    destruct (yarl_scheme lib u) as [scheme|e] eqn:E; cbn [fst markdown];
      [|now rewrite E].
    destruct (rewritten_settled lib u scheme U E) as (s' & Hs & Hr).
    now rewrite Hs, Hr.
  - cbn [markdown fst]. apply String.eqb_eq in H. now rewrite H.
Qed.

Lemma rendered_twice (n : Node) :
  code_settles lib n = true ->
  urls_settle lib n = true ->
  rendered lib (fst (markdown lib n)) = rendered lib n.
Proof. intros H U. unfold rendered. now rewrite markdown_twice. Qed.

End TwiceFacts.

(** X5. On a parsed article in which one unescape settles every code
    block and a second reading leaves every image url (yarl reads with a
    scheme each url it has read without one, once [https:] is in front),
    a second [Article.json] returns what the first returned and leaves the
    article as the first left it. *)
Theorem Article_json_twice_same (lib : Collaborators) (a : Article) :
  forallb (code_settles lib) (_children a) = true ->
  forallb (urls_settle lib) (_children a) = true ->
  Article_json lib (fst (Article_json lib a)) = Article_json lib a.
Proof. apply Article_json_twice. Qed.

Lemma Article_json_twice_same_witness :
  forallb (code_settles Sample.lib) (_children settled_article) = true
  /\ forallb (urls_settle Sample.lib) (_children settled_article) = true
  /\ Article_json Sample.lib (fst (Article_json Sample.lib settled_article))
     = Article_json Sample.lib settled_article.
Proof.
  split; [reflexivity|]. split; [reflexivity|].
  exact (Article_json_twice_same Sample.lib settled_article eq_refl eq_refl).
Defined.

(** X6. On a parsed article in which one unescape settles every code
    block and a second reading leaves every image url, a second
    [Article.markdown] returns the text the first returned and leaves the
    article as the first left it. *)
Theorem Article_markdown_twice_same (lib : Collaborators) (a : Article) :
  forallb (code_settles lib) (_children a) = true ->
  forallb (urls_settle lib) (_children a) = true ->
  Article_markdown lib (fst (Article_markdown lib a))
  = Article_markdown lib a.
Proof.
  intros H U. unfold Article_markdown.
  destruct (_has_parsed a) eqn:Hp; cbn [negb]; [|cbn [fst]; now rewrite Hp].
  rewrite markdown_loop_spec.
  cbn [fst set_children _has_parsed _children _meta]. rewrite Hp. cbn [negb].
  rewrite markdown_loop_spec. rewrite forallb_forall in H, U.
  assert (E1 : map (fun n => fst (markdown lib n))
                   (map (fun n => fst (markdown lib n)) (_children a))
               = map (fun n => fst (markdown lib n)) (_children a)).
  { rewrite map_map. apply map_ext_in. intros x Hx.
    now rewrite markdown_twice by auto. }
  assert (E2 : flat_map (rendered lib)
                        (map (fun n => fst (markdown lib n)) (_children a))
               = flat_map (rendered lib) (_children a)).
  { rewrite !flat_map_concat_map, map_map. f_equal.
    apply map_ext_in. intros x Hx. apply rendered_twice; auto. }
  rewrite E1, E2. reflexivity.
Qed.

Lemma Article_markdown_twice_same_witness :
  forallb (code_settles Sample.lib) (_children settled_article) = true
  /\ forallb (urls_settle Sample.lib) (_children settled_article) = true
  /\ Article_markdown Sample.lib
       (fst (Article_markdown Sample.lib settled_article))
     = Article_markdown Sample.lib settled_article.
Proof.
  split; [reflexivity|]. split; [reflexivity|].
  exact (Article_markdown_twice_same Sample.lib settled_article
           eq_refl eq_refl).
Defined.

(** Without the condition on the urls the second call can differ: the
    sample reader takes [//:80/x.png] and rejects it with [https:] in
    front. *)
Example Article_json_twice_on_rejected_prefix :
  let a := set_children settled_article
             [ImageNode (Some "//:80/x.png") (NavigableString "")] in
  is_ok (snd (Article_json Sample.lib a)) = true
  /\ snd (Article_json Sample.lib (fst (Article_json Sample.lib a)))
     = Raise ValueError.
Proof. split; reflexivity. Qed.

(** ** Lists, wrappers and quotes *)

Section ListFacts.
Variable lib : Collaborators.

Lemma render_all_values {A} (f : Node -> Node * result A) (l : list Node) :
  forallb (fun x => is_ok (snd (f x))) l = true ->
  exists vs, snd (render_all f l) = Ok vs
             /\ Forall2 (fun x v => snd (f x) = Ok v) l vs.
Proof.
  induction l as [|x r IH]; intros H.
  - exists []. split; [reflexivity | constructor].
  - cbn [forallb] in H. apply andb_true_iff in H as [Hx Hr].
    destruct (IH Hr) as (vs & E & F). cbn [render_all].
    destruct (f x) as [x' [v|e]] eqn:Ex; cbn [snd is_ok] in Hx;
      [|discriminate].
    destruct (render_all f r) as [r' rr]. cbn [snd] in E |- *. subst rr.
    exists (v :: vs). split; [reflexivity|]. constructor; [|assumption].
    now rewrite Ex.
Qed.

Lemma nth_error_enumerate {A B} (g : Z * A -> B) (l : list A) (i : Z)
      (k : nat) :
  nth_error (map g (enumerate i l)) k
  = option_map (fun x => g ((i + Z.of_nat k)%Z, x)) (nth_error l k).
Proof.
  revert i k. induction l as [|x r IH]; intros i k.
  - now destruct k.
  - destruct k as [|k]; cbn [enumerate map nth_error option_map].
    + now rewrite Z.add_0_r.
    + rewrite IH. destruct (nth_error r k); cbn [option_map]; [|reflexivity].
      do 3 f_equal. lia.
Qed.

Lemma Forall2_nth_value {A} (f : Node -> Node * result A)
      (l : list Node) (vs : list A) :
  Forall2 (fun x v => snd (f x) = Ok v) l vs ->
  forall k c, nth_error l k = Some c ->
              exists v, snd (f c) = Ok v /\ nth_error vs k = Some v.
Proof.
  induction 1 as [|x v l vs Hx _ IH]; intros k c Hk.
  - now destruct k.
  - destruct k as [|k]; cbn [nth_error] in Hk |- *.
    + injection Hk as <-. now exists v.
    + exact (IH k c Hk).
Qed.

Lemma length_enumerate {A} (l : list A) (i : Z) :
  List.length (enumerate i l) = List.length l.
Proof.
  revert i. induction l as [|x r IH]; intros i; [reflexivity|].
  cbn. now rewrite IH.
Qed.

End ListFacts.

(** X7. The markdown of an ordered list whose items all render is its
    lines joined by line feeds, one line per item in document order, line
    number [k] (from 0) being [k + 1], a dot, a space and the markdown of
    item [k]. *)
Theorem OlNode_numbers_items (lib : Collaborators) (ch : list Node) :
  forallb (fun c => is_ok (snd (markdown lib c))) ch = true ->
  exists lines,
    snd (markdown lib (OlNode ch)) = Ok (PyStr.join NL lines)
    /\ List.length lines = List.length ch
    /\ forall k c,
         nth_error ch k = Some c ->
         exists s,
           snd (markdown lib c) = Ok s
           /\ nth_error lines k
              = Some (PyStr.format_int (Z.of_nat k + 1) ++ ". " ++ s).
Proof.
  intros H. destruct (render_all_values (markdown lib) ch H) as (ss & E & F).
  exists (map (fun '(i, s) => PyStr.format_int (i + 1) ++ ". " ++ s)
              (enumerate 0 ss)).
  split; [|split].
  - cbn [markdown]. destruct (render_all (markdown lib) ch) as [ch' r].
    cbn [snd] in E |- *. now subst r.
  - rewrite length_map, length_enumerate. symmetry.
    exact (Forall2_length F).
  - intros k c Hk. rewrite nth_error_enumerate.
    destruct (Forall2_nth_value _ _ _ F k c Hk) as (s & Hs & Hv).
    exists s. split; [exact Hs|]. rewrite Hv. reflexivity.
Qed.

Lemma OlNode_numbers_items_witness :
  exists lines,
    snd (markdown Sample.lib
           (OlNode [LiNode [TextNode "a"]; LiNode [TextNode "b"];
                    LiNode [TextNode "c"]]))
    = Ok (PyStr.join NL lines)
    /\ List.length lines = 3
    /\ forall k c,
         nth_error [LiNode [TextNode "a"]; LiNode [TextNode "b"];
                    LiNode [TextNode "c"]] k = Some c ->
         exists s,
           snd (markdown Sample.lib c) = Ok s
           /\ nth_error lines k
              = Some (PyStr.format_int (Z.of_nat k + 1) ++ ". " ++ s).
Proof.
  exact (OlNode_numbers_items
           Sample.lib
           [LiNode [TextNode "a"]; LiNode [TextNode "b"]; LiNode [TextNode "c"]]
           eq_refl).
Defined.

Example OlNode_three_items :
  snd (markdown Sample.lib
         (OlNode [LiNode [TextNode "a"]; LiNode [TextNode "b"];
                  LiNode [TextNode "c"]]))
  = Ok ("1. a" ++ NL ++ "2. b" ++ NL ++ "3. c").
Proof. reflexivity. Qed.

(** X8. A text without tab, space, no-break space or reserved character
    is its own markdown. *)
Theorem TextNode_markdown_plain (lib : Collaborators) (text : string) :
  PyStr.all_chars is_plain text = true ->
  markdown lib (TextNode text) = (TextNode text, Ok text).
Proof.
  intros H. cbn [markdown]. rewrite TextNode_markdown_by_char.
  do 2 f_equal. induction text as [|c t IH]; [reflexivity|].
  cbn [PyStr.all_chars] in H. apply andb_true_iff in H as [Hc Ht].
  cbn [PyStr.subst_char]. rewrite (IH Ht).
  unfold is_plain in Hc. apply andb_true_iff in Hc as [Hb Hr].
  apply negb_true_iff in Hb, Hr. unfold escape_char. now rewrite Hb, Hr.
Qed.

Lemma TextNode_markdown_plain_witness :
  PyStr.all_chars is_plain "Hello,world!(1+1=2)" = true
  /\ markdown Sample.lib (TextNode "Hello,world!(1+1=2)")
     = (TextNode "Hello,world!(1+1=2)", Ok "Hello,world!(1+1=2)").
Proof.
  split; [reflexivity|].
  exact (TextNode_markdown_plain Sample.lib "Hello,world!(1+1=2)" eq_refl).
Defined.

(** X9. An image with a string caption whose url yarl reads with a
    scheme is rendered with that url, by [markdown] and by [json], and the
    node is left as it was; an [http] url in particular is not turned into
    [https].  (On a url that yarl rejects the call raises instead.) *)
Theorem ImageNode_absolute_url_kept
        (lib : Collaborators) (url scheme alt : string) (c : Call) :
  yarl_scheme lib url = Ok scheme ->
  scheme <> "" ->
  call lib c (ImageNode (Some url) (NavigableString alt))
  = (ImageNode (Some url) (NavigableString alt), image_output url alt c).
Proof.
  intros H N.
  rewrite (call_on_read_image lib url scheme alt c H).
  now rewrite (rewritten_with_scheme scheme url N).
Qed.

Lemma ImageNode_absolute_url_kept_witness :
  yarl_scheme Sample.lib "http://example.com/x.png" = Ok "http"
  /\ "http" <> ""
  /\ call Sample.lib CallJson
          (ImageNode (Some "http://example.com/x.png") (NavigableString ""))
     = (ImageNode (Some "http://example.com/x.png") (NavigableString ""),
        image_output "http://example.com/x.png" "" CallJson).
Proof.
  assert (H : "http" <> "") by discriminate.
  split; [reflexivity|]. split; [exact H|].
  exact (ImageNode_absolute_url_kept
           Sample.lib "http://example.com/x.png" "http" "" CallJson eq_refl H).
Defined.

(** X10. The alignment of a paragraph reaches neither output: two
    paragraphs with the same children and different alignments have the
    same markdown and the same JSON. *)
Theorem ParagraphNode_align_not_rendered
        (lib : Collaborators) (a1 a2 : string) (ch : list Node) :
  snd (markdown lib (ParagraphNode a1 ch))
  = snd (markdown lib (ParagraphNode a2 ch))
  /\ snd (json lib (ParagraphNode a1 ch)) = snd (json lib (ParagraphNode a2 ch)).
Proof.
  split; cbn [markdown json].
  - now destruct (render_all (markdown lib) ch).
  - now destruct (render_all (json lib) ch).
Qed.

(** ** Splitting and joining on one character *)

Section SplitFacts.
Import PyStr.
Variable c : ascii.

Let other (x : ascii) : bool := negb (Ascii.eqb x c).

Lemma all_chars_rev_string (p : ascii -> bool) (acc s : string) :
  all_chars p (rev_string acc s) = all_chars p s && all_chars p acc.
Proof.
  revert acc. induction s as [|x s IH]; intros acc; [reflexivity|].
  cbn [rev_string all_chars]. rewrite IH. cbn [all_chars].
  now destruct (p x), (all_chars p s), (all_chars p acc).
Qed.

Lemma rev_string_acc (acc s : string) :
  rev_string acc s = rev_string "" s ++ acc.
Proof.
  revert acc. induction s as [|x s IH]; intros acc; [reflexivity|].
  cbn [rev_string]. rewrite (IH (String x acc)), (IH (String x "")).
  now rewrite append_assoc.
Qed.

Lemma prefix_sep (x : ascii) (s : string) :
  prefix (str1 c) (String x s) = Ascii.eqb x c.
Proof. rewrite prefix_char. apply Ascii.eqb_sym. Qed.

Lemma split_from_piece (t cur s : string) :
  all_chars other t = true ->
  split_from (str1 c) 0 cur (t ++ s) = split_from (str1 c) 0 (rev_string cur t) s.
Proof.
  revert cur. induction t as [|x t IH]; intros cur H; [reflexivity|].
  cbn [all_chars] in H. apply andb_true_iff in H as [Hx Ht].
  cbn [append split_from rev_string]. rewrite prefix_sep.
  unfold other in Hx. apply negb_true_iff in Hx. rewrite Hx. now apply IH.
Qed.

Lemma join_sep_cons (t t2 : string) (r : list string) :
  join (str1 c) (t :: t2 :: r) = t ++ String c (join (str1 c) (t2 :: r)).
Proof. reflexivity. Qed.

Lemma split_join_char (t : string) (r : list string) :
  Forall (fun x => all_chars other x = true) (t :: r) ->
  split (str1 c) (join (str1 c) (t :: r)) = t :: r.
Proof.
  revert t. induction r as [|t2 r IH]; intros t H.
  - inversion_clear H as [|? ? Hd _].
    change (join (str1 c) [t]) with t. unfold split.
    rewrite <- (append_empty_r t) at 1.
    rewrite (split_from_piece t "" "" Hd). cbn [split_from].
    now rewrite rev_string_twice, append_empty_r.
  - inversion_clear H as [|? ? Hd Hr].
    rewrite join_sep_cons. unfold split.
    rewrite (split_from_piece t "" _ Hd).
    cbn [split_from]. rewrite prefix_sep, Ascii.eqb_refl.
    cbn [str1 String.length Nat.sub].
    rewrite rev_string_twice, append_empty_r.
    f_equal. apply (IH t2 Hr).
Qed.

Lemma split_from_pieces (s cur : string) :
  all_chars other cur = true ->
  Forall (fun x => all_chars other x = true) (split_from (str1 c) 0 cur s).
Proof.
  revert cur. induction s as [|x s IH]; intros cur H.
  - cbn [split_from]. constructor; [|constructor].
    rewrite all_chars_rev_string. now rewrite H.
  - cbn [split_from]. rewrite prefix_sep.
    destruct (Ascii.eqb x c) eqn:E.
    + cbn [str1 String.length Nat.sub]. constructor.
      * rewrite all_chars_rev_string. now rewrite H.
      * now apply IH.
    + apply IH. cbn [all_chars]. unfold other at 1. now rewrite E, H.
Qed.

Lemma split_from_cons (s cur : string) :
  exists t r, split_from (str1 c) 0 cur s = t :: r.
Proof.
  revert cur. induction s as [|x s IH]; intros cur.
  - now exists (rev_string "" cur), [].
  - cbn [split_from]. rewrite prefix_sep.
    destruct (Ascii.eqb x c); [|apply IH].
    now exists (rev_string "" cur),
      (split_from (str1 c) (String.length (str1 c) - 1) "" s).
Qed.

Lemma join_split_from (s cur : string) :
  join (str1 c) (split_from (str1 c) 0 cur s) = rev_string "" cur ++ s.
Proof.
  revert cur. induction s as [|x s IH]; intros cur.
  - cbn [split_from]. now rewrite append_empty_r.
  - cbn [split_from]. rewrite prefix_sep.
    destruct (Ascii.eqb x c) eqn:E.
    + cbn [str1 String.length Nat.sub]. apply Ascii.eqb_eq in E. subst x.
      destruct (split_from_cons s "") as (t & r & Es).
      pose proof (IH "") as J. rewrite Es in J |- *.
      rewrite join_sep_cons, J. reflexivity.
    + rewrite IH. cbn [rev_string].
      rewrite (rev_string_acc (String x "") cur), append_assoc. reflexivity.
Qed.

(** Every string is the join of its split. *)
Lemma join_split (s : string) : join (str1 c) (split (str1 c) s) = s.
Proof. unfold split. now rewrite join_split_from. Qed.

End SplitFacts.

Lemma prefix_append (a x : string) : prefix a (a ++ x) = true.
Proof.
  induction a as [|y a IH]; [now destruct x|].
  cbn. destruct (ascii_dec y y); [exact IH | congruence].
Qed.

Lemma rendered_values (lib : Collaborators) (l : list Node) (ss : list string) :
  Forall2 (fun x s => snd (markdown lib x) = Ok s) l ss ->
  flat_map (rendered lib) l = ss.
Proof.
  induction 1 as [|x s l ss Hx _ IH]; [reflexivity|].
  cbn [flat_map]. unfold rendered at 1. rewrite Hx, IH. reflexivity.
Qed.

(** X11. The markdown of a block quote whose children all render is a
    body followed by two line feeds; every line of the body starts with
    [> ], and taking those two characters off every line gives back the
    children's markdown, line for line. *)
Theorem BlockquoteNode_quotes_every_line
        (lib : Collaborators) (ch : list Node) :
  forallb (fun c => is_ok (snd (markdown lib c))) ch = true ->
  exists body,
    snd (markdown lib (BlockquoteNode ch)) = Ok (body ++ NL ++ NL)
    /\ Forall (fun line => prefix "> " line = true) (PyStr.split NL body)
    /\ PyStr.join NL (map (PyStr.drop 2) (PyStr.split NL body))
       = PyStr.join "" (flat_map (rendered lib) ch).
Proof.
  intros H. destruct (render_all_values (markdown lib) ch H) as (ss & E & F).
  rewrite (rendered_values lib ch ss F).
  set (t := PyStr.join "" ss).
  exists (PyStr.join NL (map (fun line => "> " ++ line) (PyStr.split NL t))).
  assert (S : PyStr.split NL
                (PyStr.join NL (map (fun line => "> " ++ line)
                                    (PyStr.split NL t)))
              = map (fun line => "> " ++ line) (PyStr.split NL t)).
  { pose proof (split_from_pieces (PyStr.chr 10) t "" eq_refl) as P.
    destruct (split_from_cons (PyStr.chr 10) t "") as (t0 & r & Es).
    rewrite Es in P.
    assert (Es' : PyStr.split NL t = t0 :: r) by exact Es.
    rewrite Es'. cbn [map].
    apply (split_join_char (PyStr.chr 10) ("> " ++ t0)
             (map (fun line => "> " ++ line) r)).
    change (("> " ++ t0) :: map (fun line => "> " ++ line) r)
      with (map (fun line => "> " ++ line) (t0 :: r)).
    apply Forall_map. revert P. apply Forall_impl. intros x Hx.
    cbn [append PyStr.all_chars]. now rewrite Hx. }
  split; [|split].
  - cbn [markdown]. destruct (render_all (markdown lib) ch) as [ch' r].
    cbn [snd] in E |- *. now subst r.
  - rewrite S. apply Forall_map, Forall_forall. intros x _.
    apply prefix_append.
  - rewrite S, map_map. cbn [append PyStr.drop]. rewrite map_id.
    unfold NL. apply join_split.
Qed.

Lemma BlockquoteNode_quotes_every_line_witness :
  exists body,
    snd (markdown Sample.lib
           (BlockquoteNode [ParagraphNode "left" [TextNode "a"];
                            ParagraphNode "left" [TextNode "b"]]))
    = Ok (body ++ NL ++ NL)
    /\ Forall (fun line => prefix "> " line = true) (PyStr.split NL body)
    /\ PyStr.join NL (map (PyStr.drop 2) (PyStr.split NL body))
       = "a" ++ NL ++ NL ++ "b" ++ NL ++ NL.
Proof.
  exact (BlockquoteNode_quotes_every_line
           Sample.lib [ParagraphNode "left" [TextNode "a"];
                       ParagraphNode "left" [TextNode "b"]] eq_refl).
Defined.

(** X12. A heading, an italic, bold, struck-out or underlined run whose
    children render to no text at all renders to the empty string: no
    marker is left behind.  A paragraph in the same case still gives its
    two line feeds. *)
Theorem empty_wrappers_render_empty (lib : Collaborators) (ch : list Node) :
  forallb (fun c => is_ok (snd (markdown lib c))) ch = true ->
  PyStr.join "" (flat_map (rendered lib) ch) = "" ->
  snd (markdown lib (HeadingNode ch)) = Ok ""
  /\ snd (markdown lib (ItalicNode ch)) = Ok ""
  /\ snd (markdown lib (BoldNode ch)) = Ok ""
  /\ snd (markdown lib (DelNode ch)) = Ok ""
  /\ snd (markdown lib (UnderlineNode ch)) = Ok ""
  /\ snd (markdown lib (ParagraphNode "left" ch)) = Ok (NL ++ NL).
Proof.
  intros H T. destruct (render_all_values (markdown lib) ch H) as (ss & E & F).
  rewrite (rendered_values lib ch ss F) in T.
  cbn [markdown]. destruct (render_all (markdown lib) ch) as [ch' r].
  cbn [snd] in E |- *. subst r. cbn [rmap rbind]. rewrite T.
  repeat split.
Qed.

Lemma empty_wrappers_render_empty_witness :
  snd (markdown Sample.lib (HeadingNode [BoldNode []; TextNode ""])) = Ok ""
  /\ snd (markdown Sample.lib (ItalicNode [BoldNode []; TextNode ""])) = Ok ""
  /\ snd (markdown Sample.lib (BoldNode [BoldNode []; TextNode ""])) = Ok ""
  /\ snd (markdown Sample.lib (DelNode [BoldNode []; TextNode ""])) = Ok ""
  /\ snd (markdown Sample.lib (UnderlineNode [BoldNode []; TextNode ""])) = Ok ""
  /\ snd (markdown Sample.lib (ParagraphNode "left" [BoldNode []; TextNode ""]))
     = Ok (NL ++ NL).
Proof.
  exact (empty_wrappers_render_empty
           Sample.lib [BoldNode []; TextNode ""] eq_refl eq_refl).
Defined.


(** * Further properties of the walker *)

Section WalkLaws.
Context {A B C : Type}.

Lemma bind_assoc (c : Walk A) (k : A -> Walk B) (h : B -> Walk C) log :
  bind (bind c k) h log = bind c (fun a => bind (k a) h) log.
Proof.
  unfold bind. destruct (c log) as [log1 [a|e]]; reflexivity.
Qed.

Lemma bind_ret_l (a : A) (k : A -> Walk B) log : bind (ret a) k log = k a log.
Proof. reflexivity. Qed.

Lemma bind_ext (c : Walk A) (k k' : A -> Walk B) log :
  (forall a log', k a log' = k' a log') -> bind c k log = bind c k' log.
Proof.
  intros E. unfold bind. destruct (c log) as [log1 [a|e]]; [apply E|reflexivity].
Qed.

End WalkLaws.

Lemma bind_ret_r {A} (c : Walk A) log : bind c ret log = c log.
Proof. unfold bind, ret. now destruct (c log) as [log1 [a|e]]. Qed.

(** X13. Siblings are parsed in document order: the nodes of a sequence of
    items are the nodes of any first part followed by the nodes of the
    rest, the second part being walked with the requests of the first
    already made, and not walked at all when the first part raises. *)
Theorem parse_loop_app (lib : Collaborators) (l1 l2 : list Soup) log :
  parse_loop (parse_item lib) (l1 ++ l2) log
  = (first <- parse_loop (parse_item lib) l1 ;;
     rest <- parse_loop (parse_item lib) l2 ;;
     ret (first ++ rest)%list)%walk log.
Proof.
  revert log. induction l1 as [|e l1 IH]; intros log.
  - cbn [app parse_loop]. rewrite bind_ret_l. cbn [app].
    symmetry. apply bind_ret_r.
  - cbn [app parse_loop]. rewrite bind_assoc. apply bind_ext.
    intros nodes log1. rewrite bind_assoc.
    unfold bind at 1. rewrite IH. unfold bind, ret.
    destruct (parse_loop (parse_item lib) l1 log1) as [log2 [first|x]];
      [|reflexivity].
    destruct (parse_loop (parse_item lib) l2 log2) as [log3 [rest|x]];
      [|reflexivity].
    now rewrite app_assoc.
Qed.

(** X14. An element whose tag is none of the twelve the loop knows adds no
    node, whatever it contains: nothing below it is parsed and no link is
    resolved for it. *)
Theorem unknown_tag_is_dropped
        (lib : Collaborators) name class attrs cs log :
  existsb (String.eqb name) handled_tags = false ->
  parse_item lib (Tag name class attrs cs) log = (log, Ok []).
Proof.
  intros H. cbn [existsb handled_tags] in H.
  repeat (apply orb_false_iff in H as [?E H]).
  cbn [parse_item]. cbv zeta. now rewrite E, E0, E1, E2, E3, E4, E5, E6, E7, E8, E9, E10.
Qed.

Lemma unknown_tag_is_dropped_witness :
  existsb (String.eqb "em") handled_tags = false
  /\ parse_item Sample.lib
       (Tag "em" None []
            [NavigableString "stressed";
             Tag "a" None [("href", "https://www.bilibili.com/video/av170001")] []])
       []
     = ([], Ok []).
Proof.
  split; [reflexivity|].
  exact (unknown_tag_is_dropped
           Sample.lib "em" None []
           [NavigableString "stressed";
            Tag "a" None [("href", "https://www.bilibili.com/video/av170001")] []]
           [] eq_refl).
Defined.

(** ** Font-size spans *)

Lemma font_size_here_digits (s d : string) :
  Re.font_size_here s = Some d ->
  exists a b, d = String a (String b "")
              /\ PyStr.is_digit a = true /\ PyStr.is_digit b = true.
Proof.
  unfold Re.font_size_here. destruct (prefix "font-size-" s); [|discriminate].
  destruct (PyStr.drop 10 s) as [|a [|b r]]; try discriminate.
  destruct (PyStr.is_digit a) eqn:Ha; [|discriminate].
  destruct (PyStr.is_digit b) eqn:Hb; [|discriminate].
  cbn [andb]. intros [= <-]. now exists a, b.
Qed.

Lemma search_font_size_digits (s d : string) :
  Re.search_font_size s = Some d ->
  exists a b, d = String a (String b "")
              /\ PyStr.is_digit a = true /\ PyStr.is_digit b = true.
Proof.
  induction s as [|c s IH]; cbn [Re.search_font_size].
  - destruct (Re.font_size_here "") eqn:E; [|discriminate].
    intros [= <-]. exact (font_size_here_digits _ _ E).
  - destruct (Re.font_size_here (String c s)) eqn:E; [|exact IH].
    intros [= <-]. exact (font_size_here_digits _ _ E).
Qed.

Lemma digit_value_range (c : ascii) :
  PyStr.is_digit c = true -> (0 <= PyStr.digit_value c <= 9)%Z.
Proof.
  destruct c as [[] [] [] [] [] [] [] []]; vm_compute; intros H;
    try discriminate H; split; discriminate.
Qed.

(** X15. On a span dispatched on its class whose first class token holds
    [font-size]: when the token has [font-size-] followed by two digits,
    the span gives one [FontSizeNode] whose size is the number those two
    digits write, between 0 and 99; when it has not, the parse raises
    [TypeError] before anything below the span is parsed. *)
Theorem span_font_size
        (lib : Collaborators) className more attrs cs :
  lookup "style" attrs = None ->
  PyStr.contains "font-size" className = true ->
  (Re.search_font_size className = None ->
   forall log,
     parse_item lib (Tag "span" (Some (className :: more)) attrs cs) log
     = (log, Raise TypeError))
  /\ (forall digits,
        Re.search_font_size className = Some digits ->
        (0 <= decimal digits <= 99)%Z
        /\ forall log,
             parse_item lib (Tag "span" (Some (className :: more)) attrs cs) log
             = (children <- parse lib (Tag "span" (Some (className :: more))
                                           attrs cs) ;;
                ret [FontSizeNode (decimal digits) children])%walk log).
Proof.
  intros Hs Hf. split.
  - intros Hn log. rewrite parse_item_span. cbv zeta.
    now rewrite Hs, Hf, Hn.
  - intros digits Hd.
    destruct (search_font_size_digits _ _ Hd) as (a & b & -> & Ha & Hb).
    split.
    + pose proof (digit_value_range a Ha). pose proof (digit_value_range b Hb).
      unfold decimal. cbn [decimal_from]. lia.
    + intros log. rewrite parse_item_span. cbv zeta. rewrite Hs, Hf, Hd.
      assert (N : numeric (String a (String b ""))).
      { split; [discriminate|]. cbn [PyStr.all_chars]. now rewrite Ha, Hb. }
      rewrite (int_numeric _ N). reflexivity.
Qed.

Lemma span_font_size_witness :
  parse_item Sample.lib (Tag "span" (Some ["font-size-9"]) []
                             [NavigableString "x"]) []
  = ([], Raise TypeError)
  /\ parse_item Sample.lib (Tag "span" (Some ["font-size-20"; "color-nope"]) []
                                [NavigableString "x"]) []
     = ([], Ok [FontSizeNode 20 [TextNode "x"]]).
Proof.
  split.
  - exact (proj1 (span_font_size Sample.lib "font-size-9" [] []
                    [NavigableString "x"] eq_refl eq_refl) eq_refl []).
  - exact (proj2 (proj2 (span_font_size Sample.lib "font-size-20"
                           ["color-nope"] [] [NavigableString "x"]
                           eq_refl eq_refl) "20" eq_refl) []).
Defined.

(** ** Figures: cards and code *)

Section FigureFacts.
Variable lib : Collaborators.
Import PyStr.

(** The [img-box] branch on a figure whose image has a class. *)
Lemma parse_item_img_box fclass fattrs fcs iname iclass iattrs ics log :
  let figure := Tag "figure" (Some fclass) fattrs fcs in
  Bs4.has_token "img-box" fclass = true ->
  Bs4.find figure "img" = Some (Tag iname (Some iclass) iattrs ics) ->
  parse_item lib figure log
  = (log,
     rbind (match lookup "aid" iattrs with
            | Some aid => figure_cards iclass aid
            | None => Ok []
            end) (fun cards =>
     rbind (if Bs4.has_token "seamless" iclass
            then figure_image figure else Ok []) (fun image =>
     Ok ((if Bs4.has_token "cut-off" iclass then [SeparatorNode] else [])
         ++ cards ++ image)%list))).
Proof.
  intros figure Hbox Himg. unfold figure. rewrite parse_item_figure.
  unfold lift, parse_figure. rewrite Hbox. fold figure. now rewrite Himg.
Qed.

Lemma drop_prefix (p t : string) :
  String.length p = 2 -> drop 2 (p ++ t) = t.
Proof.
  destruct p as [|a [|b [|c p]]]; cbn [String.length]; intros H;
    try discriminate H. reflexivity.
Qed.

Lemma digits_raises (s : string) (acc : Z) (b : bool) (e : exn) :
  PyInt.digits acc b s = Raise e -> e = ValueError.
Proof.
  revert acc b. induction s as [|c s IH]; intros acc b; cbn [PyInt.digits].
  - destruct b; [discriminate | now intros [= <-]].
  - destruct (is_digit c); [apply IH|].
    destruct (Ascii.eqb c "_" && b); [|now intros [= <-]].
    destruct s as [|d s']; [now intros [= <-]|].
    destruct (is_digit d); [apply IH | now intros [= <-]].
Qed.

Lemma int_raises (s : string) (e : exn) :
  PyInt.int s = Raise e -> e = ValueError.
Proof.
  unfold PyInt.int. destruct (PyInt.skip_right (PyInt.skip_left s)) as [|c t];
    [now intros [= <-]|].
  destruct (Ascii.eqb c "-").
  - destruct (PyInt.digits 0 false t) eqn:E; cbn [rmap rbind];
      [discriminate|]. intros [= <-]. exact (digits_raises _ _ _ _ E).
  - destruct (Ascii.eqb c "+"); apply digits_raises.
Qed.

Lemma card_loop_raises (card : Z -> Node) (ids : list string) (e : exn) :
  card_loop card ids = Raise e -> e = ValueError.
Proof.
  induction ids as [|a r IH]; [discriminate|]. cbn [card_loop].
  destruct (PyInt.int a) as [z|e0] eqn:E; cbn [rbind].
  - destruct (card_loop card r) as [rest|e1]; cbn [rbind]; [discriminate|].
    intros [= <-]. now apply IH.
  - intros [= <-]. exact (int_raises _ _ E).
Qed.

Lemma card_loop_ok (card : Z -> Node) (ids : list string) (nodes : list Node) :
  card_loop card ids = Ok nodes ->
  Forall (fun a => is_ok (PyInt.int a) = true) ids.
Proof.
  revert nodes. induction ids as [|a r IH]; intros nodes; [constructor|].
  cbn [card_loop]. destruct (PyInt.int a) as [z|e0] eqn:E; cbn [rbind];
    [|discriminate].
  destruct (card_loop card r) as [rest|e1]; cbn [rbind]; [|discriminate].
  intros _. constructor; [now rewrite E | now apply (IH rest)].
Qed.

(** A string that ends with the separator splits into pieces the last of
    which is empty. *)
Lemma split_trailing (c : ascii) (s cur : string) :
  In "" (split_from (str1 c) 0 cur (s ++ str1 c)).
Proof.
  revert cur. induction s as [|x s IH]; intros cur.
  - cbn [append str1 split_from]. rewrite prefix_sep, Ascii.eqb_refl.
    cbn. auto.
  - cbn [append split_from]. rewrite prefix_sep.
    destruct (Ascii.eqb x c); [|apply IH].
    cbn [str1 String.length Nat.sub]. right. apply IH.
Qed.

Lemma contains_char (c : ascii) (s : string) :
  contains (str1 c) s = negb (all_chars (fun x => negb (Ascii.eqb x c)) s).
Proof.
  induction s as [|x s IH]; [reflexivity|].
  cbn [contains all_chars]. rewrite prefix_sep, IH.
  now destruct (Ascii.eqb x c).
Qed.

Lemma hd_split_no_sep (c : ascii) (s : string) :
  all_chars (fun x => negb (Ascii.eqb x c)) (hd "" (split (str1 c) s)) = true.
Proof.
  pose proof (split_from_pieces c s "" eq_refl) as P. unfold split.
  destruct (split_from (str1 c) 0 "" s); [reflexivity|].
  now inversion_clear P.
Qed.

Lemma hd_split_from (c : ascii) (s cur : string) :
  hd "" (split_from (str1 c) 0 cur s) = rev_string "" cur ++ before_first c s.
Proof.
  revert cur. induction s as [|x s IH]; intros cur.
  - cbn [split_from hd before_first]. now rewrite append_empty_r.
  - cbn [split_from before_first]. rewrite prefix_sep.
    destruct (Ascii.eqb x c).
    + cbn [hd]. now rewrite append_empty_r.
    + rewrite IH. cbn [rev_string].
      rewrite (rev_string_acc (String x "") cur), append_assoc. reflexivity.
Qed.

(** The first piece of a split is what comes before the first separator. *)
Lemma hd_split (c : ascii) (s : string) :
  hd "" (split (str1 c) s) = before_first c s.
Proof. unfold split. now rewrite hd_split_from. Qed.

Lemma before_first_absent (c : ascii) (s : string) :
  all_chars (fun x => negb (Ascii.eqb x c)) s = true -> before_first c s = s.
Proof.
  induction s as [|x s IH]; [reflexivity|]. cbn [all_chars before_first].
  intros H. apply andb_true_iff in H as [Hx Hs].
  apply negb_true_iff in Hx. now rewrite Hx, (IH Hs).
Qed.

Lemma lower_char_at (x : ascii) :
  Ascii.eqb (lower_char x) "@" = Ascii.eqb x "@".
Proof. destruct x as [[] [] [] [] [] [] [] []]; reflexivity. Qed.

Lemma lower_char_twice (x : ascii) : lower_char (lower_char x) = lower_char x.
Proof. destruct x as [[] [] [] [] [] [] [] []]; reflexivity. Qed.

Lemma lower_twice (s : string) : lower (lower s) = lower s.
Proof.
  induction s as [|x s IH]; [reflexivity|].
  cbn [lower]. now rewrite lower_char_twice, IH.
Qed.

Lemma lower_no_at (s : string) :
  all_chars (fun x => negb (Ascii.eqb x "@")) (lower s)
  = all_chars (fun x => negb (Ascii.eqb x "@")) s.
Proof.
  induction s as [|x s IH]; [reflexivity|].
  cbn [lower all_chars]. now rewrite lower_char_at, IH.
Qed.

End FigureFacts.

(** X16. In an [img-box] figure whose image is no video or article card,
    the class [fanju-card], else [music-card], else [shop-card] gives
    one card whose id is the number written by [aid] after its first two
    characters, whatever those two characters are, provided what follows
    them is a numeric id. *)
Theorem figure_prefixed_card
        (lib : Collaborators) fclass fattrs fcs iname iclass iattrs ics
        (p t : string) (make : Z -> Node) log :
  let figure := Tag "figure" (Some fclass) fattrs fcs in
  let separator :=
    if Bs4.has_token "cut-off" iclass then [SeparatorNode] else [] in
  let image :=
    if Bs4.has_token "seamless" iclass then figure_image figure else Ok [] in
  Bs4.has_token "img-box" fclass = true ->
  Bs4.find figure "img" = Some (Tag iname (Some iclass) iattrs ics) ->
  lookup "aid" iattrs = Some (p ++ t) ->
  String.length p = 2 ->
  numeric t ->
  Bs4.has_token "video-card" iclass = false ->
  Bs4.has_token "article-card" iclass = false ->
  (if Bs4.has_token "fanju-card" iclass then Some BangumiCardNode
   else if Bs4.has_token "music-card" iclass then Some MusicCardNode
   else if Bs4.has_token "shop-card" iclass then Some ShopCardNode
   else None) = Some make ->
  parse_item lib figure log
  = (log, rmap (fun image => separator ++ [make (decimal t)] ++ image)%list
               image).
Proof.
  intros figure separator image Hbox Himg Haid Hp Ht Hv Ha Hm.
  unfold figure. rewrite (parse_item_img_box lib _ _ _ _ _ _ _ _ Hbox Himg).
  rewrite Haid. unfold figure_cards. rewrite Hv, Ha, (drop_prefix p t Hp).
  rewrite (int_numeric t Ht).
  destruct (Bs4.has_token "fanju-card" iclass);
    [|destruct (Bs4.has_token "music-card" iclass);
      [|destruct (Bs4.has_token "shop-card" iclass); [|discriminate]]];
    injection Hm as <-; reflexivity.
Qed.

Lemma figure_prefixed_card_witness :
  parse_item Sample.lib
    (Tag "figure" (Some ["img-box"]) []
         [Tag "img" (Some ["fanju-card"]) [("aid", "ep2333")] []]) []
  = ([], Ok [BangumiCardNode 2333])
  /\ parse_item Sample.lib
       (Tag "figure" (Some ["img-box"]) []
            [Tag "img" (Some ["music-card"]) [("aid", "xx15")] []]) []
     = ([], Ok [MusicCardNode 15]).
Proof.
  split.
  - exact (figure_prefixed_card
             Sample.lib ["img-box"] []
             [Tag "img" (Some ["fanju-card"]) [("aid", "ep2333")] []]
             "img" ["fanju-card"] [("aid", "ep2333")] []
             "ep" "2333" BangumiCardNode []
             eq_refl eq_refl eq_refl eq_refl
             (conj (fun E : "2333" = "" => ltac:(discriminate E)) eq_refl)
             eq_refl eq_refl eq_refl).
  - exact (figure_prefixed_card
             Sample.lib ["img-box"] []
             [Tag "img" (Some ["music-card"]) [("aid", "xx15")] []]
             "img" ["music-card"] [("aid", "xx15")] []
             "xx" "15" MusicCardNode []
             eq_refl eq_refl eq_refl eq_refl
             (conj (fun E : "15" = "" => ltac:(discriminate E)) eq_refl)
             eq_refl eq_refl eq_refl).
Defined.

(** X17. In an [img-box] figure whose image carries [caricature-card] and
    none of the five card classes tested before it, an [aid] made of
    numeric ids joined by commas gives one [ComicCardNode] per id, in the
    order of the attribute. *)
Theorem figure_comic_cards
        (lib : Collaborators) fclass fattrs fcs iname iclass iattrs ics
        (tokens : list string) log :
  let figure := Tag "figure" (Some fclass) fattrs fcs in
  let separator :=
    if Bs4.has_token "cut-off" iclass then [SeparatorNode] else [] in
  let image :=
    if Bs4.has_token "seamless" iclass then figure_image figure else Ok [] in
  Bs4.has_token "img-box" fclass = true ->
  Bs4.find figure "img" = Some (Tag iname (Some iclass) iattrs ics) ->
  lookup "aid" iattrs = Some (PyStr.join "," tokens) ->
  tokens <> [] ->
  Forall numeric tokens ->
  existsb (fun k => Bs4.has_token k iclass)
          ["video-card"; "article-card"; "fanju-card"; "music-card";
           "shop-card"] = false ->
  Bs4.has_token "caricature-card" iclass = true ->
  parse_item lib figure log
  = (log, rmap (fun image =>
                  separator ++ map ComicCardNode (map decimal tokens) ++ image)%list
               image).
Proof.
  intros figure separator image Hbox Himg Haid Hne Hnum Hnone Hc.
  cbn [existsb] in Hnone. repeat (apply orb_false_iff in Hnone as [?E Hnone]).
  unfold figure. rewrite (parse_item_img_box lib _ _ _ _ _ _ _ _ Hbox Himg).
  rewrite Haid. unfold figure_cards. rewrite E, E0, E1, E2, E3, Hc.
  destruct tokens as [|t r]; [now contradiction Hne|].
  rewrite (split_join t r Hnum), (card_loop_numeric _ _ Hnum), map_map.
  reflexivity.
Qed.

Lemma figure_comic_cards_witness :
  Forall numeric ["26009"; "27355"]
  /\ parse_item Sample.lib
       (Tag "figure" (Some ["img-box"]) []
            [Tag "img" (Some ["caricature-card"]) [("aid", "26009,27355")] []])
       []
     = ([], Ok [ComicCardNode 26009; ComicCardNode 27355]).
Proof.
  assert (H : Forall numeric ["26009"; "27355"]).
  { repeat constructor; discriminate. }
  split; [exact H|].
  exact (figure_comic_cards
           Sample.lib ["img-box"] []
           [Tag "img" (Some ["caricature-card"]) [("aid", "26009,27355")] []]
           "img" ["caricature-card"] [("aid", "26009,27355")] []
           ["26009"; "27355"] []
           eq_refl eq_refl eq_refl (fun E => match E with end) H
           eq_refl eq_refl).
Defined.

(** X18. In an [img-box] figure whose image carries [video-card], an [aid]
    that is empty or ends with a comma makes the parse of the figure raise
    [ValueError]; no node of the figure is kept, not even the separator
    of a [cut-off] image. *)
Theorem figure_video_card_bad_aid
        (lib : Collaborators) fclass fattrs fcs iname iclass iattrs ics
        (aid : string) log :
  let figure := Tag "figure" (Some fclass) fattrs fcs in
  Bs4.has_token "img-box" fclass = true ->
  Bs4.find figure "img" = Some (Tag iname (Some iclass) iattrs ics) ->
  Bs4.has_token "video-card" iclass = true ->
  lookup "aid" iattrs = Some aid ->
  aid = "" \/ (exists s, aid = s ++ ",") ->
  parse_item lib figure log = (log, Raise ValueError).
Proof.
  intros figure Hbox Himg Hv Haid Hbad.
  unfold figure. rewrite (parse_item_img_box lib _ _ _ _ _ _ _ _ Hbox Himg).
  rewrite Haid. unfold figure_cards. rewrite Hv.
  assert (Hin : In "" (PyStr.split "," aid)).
  { destruct Hbad as [-> | [s ->]]; [now left|].
    exact (split_trailing "," s ""). }
  destruct (card_loop VideoCardNode (PyStr.split "," aid)) as [nodes|e] eqn:E.
  - pose proof (card_loop_ok _ _ _ E) as F. rewrite Forall_forall in F.
    specialize (F "" Hin). discriminate F.
  - now rewrite (card_loop_raises _ _ _ E).
Qed.

Lemma figure_video_card_bad_aid_witness :
  parse_item Sample.lib
    (Tag "figure" (Some ["img-box"]) []
         [Tag "img" (Some ["video-card"; "cut-off"]) [("aid", "100,")] []]) []
  = ([], Raise ValueError).
Proof.
  exact (figure_video_card_bad_aid
           Sample.lib ["img-box"] []
           [Tag "img" (Some ["video-card"; "cut-off"]) [("aid", "100,")] []]
           "img" ["video-card"; "cut-off"] [("aid", "100,")] [] "100," []
           eq_refl eq_refl eq_refl eq_refl
           (or_intror (ex_intro _ "100" eq_refl))).
Defined.

(** X19. A [code-box] figure with a [pre] that has both attributes gives
    one [CodeNode]: its code is the unquoted [codecontent]; its language
    is what [data-lang] holds before its first [@], in lower case, so it
    holds no [@] and lowering it again changes nothing; without [@] in
    [data-lang] it is the whole attribute in lower case. *)
Theorem figure_code_box
        (lib : Collaborators) fclass fattrs fcs pname pclass pattrs pcs
        (data_lang codecontent : string) log :
  let figure := Tag "figure" (Some fclass) fattrs fcs in
  let lang := PyStr.lower (before_first "@" data_lang) in
  Bs4.has_token "img-box" fclass = false ->
  Bs4.has_token "code-box" fclass = true ->
  Bs4.find figure "pre" = Some (Tag pname pclass pattrs pcs) ->
  lookup "data-lang" pattrs = Some data_lang ->
  lookup "codecontent" pattrs = Some codecontent ->
  parse_item lib figure log
  = (log, Ok [CodeNode (unquote lib codecontent) lang])
  /\ PyStr.contains "@" lang = false
  /\ PyStr.lower lang = lang
  /\ (PyStr.contains "@" data_lang = false -> lang = PyStr.lower data_lang).
Proof.
  intros figure lang Hbox Hcode Hpre Hl Hc. unfold lang.
  rewrite <- (hd_split "@" data_lang).
  split; [|split; [|split]].
  - unfold figure. rewrite parse_item_figure. unfold lift, parse_figure.
    rewrite Hbox, Hcode. fold figure. rewrite Hpre.
    unfold getitem. now rewrite Hl, Hc.
  - change "@" with (PyStr.str1 "@"). rewrite contains_char, lower_no_at.
    now rewrite (hd_split_no_sep "@" data_lang).
  - apply lower_twice.
  - intros Hn. change "@" with (PyStr.str1 "@") in Hn.
    rewrite contains_char in Hn. apply negb_false_iff in Hn.
    now rewrite hd_split, (before_first_absent "@" data_lang Hn).
Qed.

Lemma figure_code_box_witness :
  parse_item Sample.lib
    (Tag "figure" (Some ["code-box"]) []
         [Tag "pre" None
              [("data-lang", "text/X-C++src@cpp@x"); ("codecontent", "a%3Cb")]
              []]) []
  = ([], Ok [CodeNode "a<b" "text/x-c++src"])
  /\ PyStr.contains "@" "text/x-c++src" = false
  /\ PyStr.lower "text/x-c++src" = "text/x-c++src"
  /\ (PyStr.contains "@" "text/X-C++src@cpp@x" = false ->
      "text/x-c++src" = PyStr.lower "text/X-C++src@cpp@x").
Proof.
  exact (figure_code_box
           Sample.lib ["code-box"] []
           [Tag "pre" None
                [("data-lang", "text/X-C++src@cpp@x"); ("codecontent", "a%3Cb")]
                []]
           "pre" None
           [("data-lang", "text/X-C++src@cpp@x"); ("codecontent", "a%3Cb")] []
           "text/X-C++src@cpp@x" "a%3Cb" [] eq_refl eq_refl eq_refl eq_refl
           eq_refl).
Defined.

Example figure_code_box_language :
  parse_item Sample.lib
    (Tag "figure" (Some ["code-box"]) []
         [Tag "pre" None
              [("data-lang", "text/X-C++src@cpp"); ("codecontent", "a%3Cb")]
              []]) []
  = ([], Ok [CodeNode "a<b" "text/x-c++src"]).
Proof. reflexivity. Qed.


(** ** What the walker builds *)

(** X20. [Article.json] of a parsed article raises exactly when an image
    that cannot be read sits somewhere in the tree: an image without url,
    or one whose url yarl rejects.  What it raises then is [TypeError] or
    the exception yarl raised on the url of an image of the tree; nothing
    is passed over as in [Article.markdown]. *)
Theorem Article_json_fails_on_unreadable_image
        (lib : Collaborators) (a : Article) :
  _has_parsed a = true ->
  is_ok (snd (Article_json lib a))
  = negb (existsb (unreadable lib) (_children a))
  /\ (forall e,
        snd (Article_json lib a) = Raise e ->
        e = TypeError
        \/ exists u, In u (flat_map image_urls (_children a))
                     /\ yarl_scheme lib u = Raise e).
Proof.
  intros Hp. unfold Article_json. rewrite Hp. cbn [negb].
  pose proof (render_all_is_ok (json lib) (_children a)) as O.
  pose proof (fun e => render_all_raises (json lib) (raised_below lib)
                         (_children a) e) as R.
  destruct (render_all (json lib) (_children a)) as [ch' r].
  cbn [snd] in O, R |- *. split.
  - rewrite is_ok_rmap, O. apply forallb_negb_existsb.
    apply Forall_forall. intros x _. apply json_is_ok.
  - intros e. destruct r as [js|e0]; cbn [rmap rbind]; [discriminate|].
    intros [= <-].
    destruct (R e0) as (x & Hin & [-> | (u & Hu & Hr)]); [|reflexivity| |].
    + apply Forall_forall. intros y _ e'. apply json_raises.
    + now left.
    + right. exists u. split; [|exact Hr]. apply in_flat_map. now exists x.
Qed.

Lemma Article_json_fails_on_unreadable_image_witness :
  _has_parsed mixed_article = true
  /\ is_ok (snd (Article_json Sample.lib mixed_article))
     = negb (existsb (unreadable Sample.lib) (_children mixed_article))
  /\ existsb (unreadable Sample.lib) (_children mixed_article) = true.
Proof.
  split; [reflexivity|]. split; [|reflexivity].
  exact (proj1 (Article_json_fails_on_unreadable_image
                  Sample.lib mixed_article eq_refl)).
Defined.

(** X21. An anchor with content is never resolved: it makes no request and
    gives one [AnchorNode] holding its [href] and its first content item;
    whatever follows that item is dropped unparsed.  When the first item is
    a string the node renders as a link.  When it is a tag, bs4 reads
    [text.replace] as the first tag called [replace] below it: with none
    there [markdown] raises [TypeError]; with one, the call is a search
    below that tag and the link text is the printed list of what it
    finds. *)
Theorem anchor_keeps_first_item
        (lib : Collaborators) class attrs (c : Soup) (more : list Soup)
        (href : string) log :
  lookup "href" attrs = Some href ->
  parse_item lib (Tag "a" class attrs (c :: more)) log
  = (log, Ok [AnchorNode href c])
  /\ (forall s, c = NavigableString s ->
                snd (markdown lib (AnchorNode href c))
                = Ok ("[" ++ PyStr.replace "[" "\[" s ++ "](" ++ href ++ ")"))
  /\ (forall name cl at_ cs,
        c = Tag name cl at_ cs ->
        Bs4.find c "replace" = None ->
        snd (markdown lib (AnchorNode href c)) = Raise TypeError)
  /\ (forall name cl at_ cs found,
        c = Tag name cl at_ cs ->
        Bs4.find c "replace" = Some found ->
        snd (markdown lib (AnchorNode href c))
        = Ok ("["
              ++ format_value lib
                   (PList (map PElem (Bs4.find_all found "[" "\[")))
              ++ "](" ++ href ++ ")")).
Proof.
  intros H. split; [|split; [|split]].
  - cbn [parse_item]. cbv zeta. cbn [String.eqb Ascii.eqb Bool.eqb].
    unfold bind, lift, ret, getitem. now rewrite H.
  - now intros s ->.
  - intros name cl at_ cs -> F. cbn [markdown snd].
    unfold escaped_bracket. now rewrite F.
  - intros name cl at_ cs found -> F. cbn [markdown snd].
    unfold escaped_bracket. now rewrite F.
Qed.

Lemma anchor_keeps_first_item_witness :
  parse_item Sample.lib
    (Tag "a" None [("href", "https://b23.tv/x")]
         [NavigableString "see"; Tag "b" None [] [NavigableString " here"]]) []
  = ([], Ok [AnchorNode "https://b23.tv/x" (NavigableString "see")]).
Proof.
  exact (proj1 (anchor_keeps_first_item
                  Sample.lib None [("href", "https://b23.tv/x")]
                  (NavigableString "see")
                  [Tag "b" None [] [NavigableString " here"]]
                  "https://b23.tv/x" [] eq_refl)).
Defined.

Example anchor_with_replace_tag :
  snd (markdown Sample.lib
         (AnchorNode "https://b23.tv/x"
            (Tag "b" None [] [NavigableString "x"; Tag "replace" None [] []])))
  = Ok "[[]](https://b23.tv/x)".
Proof. reflexivity. Qed.

Example anchor_with_plain_tag :
  snd (markdown Sample.lib
         (AnchorNode "https://b23.tv/x" (Tag "b" None [] [NavigableString "x"])))
  = Raise TypeError.
Proof. reflexivity. Qed.

Section WalkerOutput.
Variable lib : Collaborators.
Local Open Scope walk_scope.

Lemma yields_ret (nodes : list Node) :
  forallb from_walker nodes = true -> yields (ret nodes).
Proof. intros H log log' ns [= _ <-]. exact H. Qed.

Lemma yields_raise (e : exn) : yields (raise e).
Proof. intros log log' ns E. discriminate E. Qed.

Lemma yields_lift (r : result (list Node)) :
  (forall nodes, r = Ok nodes -> forallb from_walker nodes = true) ->
  yields (lift r).
Proof. intros H log log' ns [= _ E]. now apply H. Qed.

Lemma yields_bind (c : Walk (list Node)) (k : list Node -> Walk (list Node)) :
  yields c ->
  (forall ch, forallb from_walker ch = true -> yields (k ch)) ->
  yields (bind c k).
Proof.
  intros Hc Hk log log' ns. unfold bind.
  destruct (c log) as [log1 [ch|e]] eqn:E; [|discriminate].
  apply (Hk ch). exact (Hc _ _ _ E).
Qed.

Lemma yields_bind_lift {A} (r : result A) (k : A -> Walk (list Node)) :
  (forall a, r = Ok a -> yields (k a)) -> yields (bind (lift r) k).
Proof.
  intros Hk log log' ns. unfold bind, lift.
  destruct r as [a|e]; [|discriminate]. now apply (Hk a).
Qed.

Lemma yields_bind_any {A} (c : Walk A) (k : A -> Walk (list Node)) :
  (forall a, yields (k a)) -> yields (bind c k).
Proof.
  intros Hk log log' ns. unfold bind.
  destruct (c log) as [log1 [a|e]]; [|discriminate]. apply (Hk a).
Qed.

Lemma yields_loop (body : Soup -> Walk (list Node)) (l : list Soup) :
  Forall (fun e => yields (body e)) l -> yields (parse_loop body l).
Proof.
  induction 1 as [|e r He _ IH]; cbn [parse_loop].
  - now apply yields_ret.
  - apply yields_bind; [assumption|]. intros nodes Hn.
    apply yields_bind; [assumption|]. intros rest Hr.
    apply yields_ret. now rewrite forallb_app, Hn, Hr.
Qed.

Lemma paragraph_align_known (attrs : list (string * string)) :
  existsb (String.eqb (paragraph_align attrs)) ["left"; "center"; "right"]
  = true.
Proof.
  unfold paragraph_align. destruct (lookup "style" attrs) as [style|];
    [|reflexivity].
  destruct (PyStr.contains "text-align: center" style); [reflexivity|].
  now destruct (PyStr.contains "text-align: right" style).
Qed.

Lemma lookup_value {V} (eqb : V -> V -> bool) (k : string) (v : V)
      (d : list (string * V)) :
  (forall x, eqb x x = true) ->
  lookup k d = Some v -> existsb (fun kv => eqb (snd kv) v) d = true.
Proof.
  intros R. unfold lookup. induction d as [|[k' v'] d IH]; [discriminate|].
  cbn [find fst snd existsb]. destruct (String.eqb k' k).
  - intros [= <-]. now rewrite R.
  - intros H. rewrite (IH H). apply orb_true_r.
Qed.

Lemma getitem_known_color (color_text color : string) :
  getitem ARTICLE_COLOR_MAP color_text = Ok color -> known_color color = true.
Proof.
  unfold getitem.
  destruct (lookup color_text ARTICLE_COLOR_MAP) as [v|] eqn:E;
    [|discriminate].
  intros [= <-]. exact (lookup_value String.eqb _ _ _ String.eqb_refl E).
Qed.

Lemma font_size_in_range (className digits : string) (size : Z) :
  Re.search_font_size className = Some digits ->
  PyInt.int digits = Ok size ->
  ((0 <=? size)%Z && (size <=? 99)%Z) = true.
Proof.
  intros Hd Hi.
  destruct (search_font_size_digits _ _ Hd) as (a & b & -> & Ha & Hb).
  assert (N : numeric (String a (String b ""))).
  { split; [discriminate|]. cbn [PyStr.all_chars]. now rewrite Ha, Hb. }
  rewrite (int_numeric _ N) in Hi. injection Hi as <-.
  pose proof (digit_value_range a Ha). pose proof (digit_value_range b Hb).
  unfold decimal. cbn [decimal_from].
  apply andb_true_iff. split; apply Z.leb_le; lia.
Qed.

Lemma card_loop_from_walker (card : Z -> Node) (ids : list string)
      (nodes : list Node) :
  (forall z, from_walker (card z) = true) ->
  card_loop card ids = Ok nodes -> forallb from_walker nodes = true.
Proof.
  intros Hc. revert nodes. induction ids as [|a r IH]; intros nodes.
  - now intros [= <-].
  - cbn [card_loop]. destruct (PyInt.int a) as [z|]; cbn [rbind];
      [|discriminate].
    destruct (card_loop card r) as [rest|]; cbn [rbind]; [|discriminate].
    intros [= <-]. cbn [forallb]. now rewrite Hc, (IH rest).
Qed.

Lemma figure_cards_from_walker (className : list string) (aid : string)
      (nodes : list Node) :
  figure_cards className aid = Ok nodes -> forallb from_walker nodes = true.
Proof.
  unfold figure_cards.
  repeat match goal with
         | |- context [if ?b then _ else _] => destruct b
         end;
    try (apply card_loop_from_walker; reflexivity);
    try (destruct (PyInt.int _); cbn [rmap rbind]; [|discriminate];
         now intros [= <-]).
  now intros [= <-].
Qed.

Lemma figure_image_from_walker (e : Soup) (nodes : list Node) :
  figure_image e = Ok nodes -> forallb from_walker nodes = true.
Proof.
  unfold figure_image.
  destruct (Bs4.find e "img") as [[|? ? img_attrs ?]|]; try discriminate.
  destruct (getitem img_attrs "data-src"); [|discriminate].
  cbn [rbind]. now intros [= <-].
Qed.

Lemma parse_figure_from_walker (e : Soup) class (nodes : list Node) :
  parse_figure lib e class = Ok nodes -> forallb from_walker nodes = true.
Proof.
  unfold parse_figure. destruct class as [className|]; [|now intros [= <-]].
  destruct (Bs4.has_token "img-box" className).
  - destruct (Bs4.find e "img") as [[s|iname [iclass|] iattrs ics]|];
      try (now intros [= <-]); [|apply figure_image_from_walker].
    destruct (match lookup "aid" iattrs with
              | Some aid => figure_cards iclass aid
              | None => Ok []
              end) as [cards|] eqn:Ec; cbn [rbind]; [|discriminate].
    destruct (if Bs4.has_token "seamless" iclass
              then figure_image e else Ok []) as [image|] eqn:Ei;
      cbn [rbind]; [|discriminate].
    intros [= <-]. rewrite !forallb_app.
    assert (Hc : forallb from_walker cards = true).
    { destruct (lookup "aid" iattrs);
        [exact (figure_cards_from_walker _ _ _ Ec) | now injection Ec as <-]. }
    assert (Hi : forallb from_walker image = true).
    { destruct (Bs4.has_token "seamless" iclass);
        [exact (figure_image_from_walker _ _ Ei) | now injection Ei as <-]. }
    rewrite Hc, Hi. now destruct (Bs4.has_token "cut-off" iclass).
  - destruct (Bs4.has_token "code-box" className); [|now intros [= <-]].
    destruct (Bs4.find e "pre") as [[|? ? pre_attrs ?]|]; try discriminate.
    destruct (getitem pre_attrs "data-lang") as [data_lang|]; cbn [rbind];
      [|discriminate].
    destruct (getitem pre_attrs "codecontent"); cbn [rbind]; [|discriminate].
    intros [= <-]. cbn [forallb from_walker].
    change "@" with (PyStr.str1 "@"). rewrite contains_char, lower_no_at.
    now rewrite (hd_split_no_sep "@" data_lang).
Qed.

Lemma parse_img_from_walker class attrs (nodes : list Node) :
  parse_img lib class attrs = Ok nodes -> forallb from_walker nodes = true.
Proof.
  unfold parse_img. destruct class as [className|]; [|discriminate].
  destruct (Bs4.has_token "latex" className); [|now intros [= <-]].
  destruct (getitem attrs "alt"); cbn [rbind]; [|discriminate].
  now intros [= <-].
Qed.

Ltac built :=
  repeat first
    [ apply yields_raise
    | apply yields_loop; assumption
    | apply yields_lift; first [ apply parse_figure_from_walker
                               | apply parse_img_from_walker ]
    | apply yields_ret; cbn [forallb from_walker andb];
      rewrite ?paragraph_align_known, ?forallb_app;
      repeat match goal with
             | H : forallb from_walker _ = true |- _ => rewrite H
             end; reflexivity
    | apply yields_bind; [|intros ? ?]
    | match goal with
      | |- yields (if ?b then _ else _) => destruct b
      end ].

Lemma parse_item_yields (e : Soup) : yields (parse_item lib e).
Proof.
  induction e as [e IH] using Soup_contents_ind.
  destruct e as [s|name class attrs cs]; cbn [Bs4.contents] in IH.
  - now apply yields_ret.
  - cbn [parse_item]. cbv zeta.
    destruct (String.eqb name "p"); [built|].
    destruct (String.eqb name "h1"); [built|].
    destruct (String.eqb name "strong"); [built|].
    destruct (String.eqb name "span").
    { destruct (lookup "style" attrs) as [style|]; [built|].
      destruct class as [[|className more]|]; [built| |now apply yields_ret].
      destruct (PyStr.contains "font-size" className).
      - destruct (Re.search_font_size className) as [digits|] eqn:Ed; [|built].
        apply yields_bind_lift. intros size Hs.
        apply yields_bind; [built|]. intros children Hc.
        apply yields_ret. cbn [forallb from_walker].
        now rewrite (font_size_in_range _ _ _ Ed Hs), Hc.
      - destruct (PyStr.contains "color" className); [|built].
        destruct (Re.search_color className) as [color_text|]; [|built].
        apply yields_bind_lift. intros color Hk.
        apply yields_bind; [built|]. intros children Hc.
        apply yields_ret. cbn [forallb from_walker].
        now rewrite (getitem_known_color _ _ Hk), Hc. }
    destruct (String.eqb name "blockquote"); [built|].
    destruct (String.eqb name "figure"); [built|].
    destruct (String.eqb name "ol"); [built|].
    destruct (String.eqb name "li"); [built|].
    destruct (String.eqb name "ul"); [built|].
    destruct (String.eqb name "a").
    { destruct cs as [|c more].
      - unfold parse_empty_anchor. apply yields_bind_lift. intros href _.
        apply yields_bind_any. intros res. apply yields_ret. now destruct res.
      - apply yields_bind_lift. intros href _. now apply yields_ret. }
    destruct (String.eqb name "img"); [built|].
    destruct (String.eqb name "div"); [built|].
    now apply yields_ret.
Qed.

End WalkerOutput.

(** X22. Whatever tree is walked, every node of the result, at every
    depth, is no [ItalicNode] and no [UnderlineNode]; every paragraph is
    aligned left, center or right; every colour is a value of the colour
    table; every font size lies between 0 and 99; and the language of
    every code block holds no [@]. *)
Theorem walker_output_well_formed
        (lib : Collaborators) (el : Soup) log log' (nodes : list Node) :
  parse lib el log = (log', Ok nodes) ->
  forallb from_walker nodes = true.
Proof.
  apply (yields_loop (parse_item lib) (Bs4.contents el)).
  apply Forall_forall. intros e _. apply parse_item_yields.
Qed.

Lemma walker_output_well_formed_witness :
  parse Sample.lib
        (Tag "div" None []
             [Tag "p" None [("style", "text-align: right")]
                  [Tag "em" None [] [NavigableString "gone"];
                   Tag "span" (Some ["font-size-20"]) []
                       [Tag "span" (Some ["color-pink-03"]) []
                            [NavigableString "big"]]]])
        []
  = ([], Ok [ParagraphNode "right"
               [FontSizeNode 20 [ColorNode "ee230d" [TextNode "big"]]]])
  /\ forallb from_walker
             [ParagraphNode "right"
                [FontSizeNode 20 [ColorNode "ee230d" [TextNode "big"]]]]
     = true.
Proof.
  split; [reflexivity|].
  exact (walker_output_well_formed
           Sample.lib
           (Tag "div" None []
                [Tag "p" None [("style", "text-align: right")]
                     [Tag "em" None [] [NavigableString "gone"];
                      Tag "span" (Some ["font-size-20"]) []
                          [Tag "span" (Some ["color-pink-03"]) []
                               [NavigableString "big"]]]])
           [] []
           [ParagraphNode "right"
              [FontSizeNode 20 [ColorNode "ee230d" [TextNode "big"]]]]
           eq_refl).
Defined.

(** * Further properties of the facade *)

Section FacadeFacts.
Variable lib : Collaborators.
Import PyVal.

Lemma subscript_truthy (d v : pyval) (k : string) :
  subscript d k = Ok v -> truthy d = true.
Proof.
  unfold subscript, getitem. destruct d as [| | | | |l|d]; try discriminate.
  destruct d as [|kv d]; [discriminate | reflexivity].
Qed.

Lemma cache_get_head {V} (k : Z) (v : V) (d : list (Z * V)) :
  cache_get k ((k, v) :: d) = Some v.
Proof. cbn [cache_get]. now rewrite Z.eqb_refl. Qed.

(** What [publish] has written when it returns. *)
Lemma publish_ok (cvid : Z) (data : pyval) (c c' : CachePool) :
  publish cvid data c = (c', Ok tt) ->
  exists ri dyn cat id,
    subscript data "readInfo" = Ok ri
    /\ subscript ri "dyn_id_str" = Ok dyn
    /\ subscript ri "category" = Ok cat
    /\ subscript cat "id" = Ok id
    /\ c' = {| article2dynamic := (cvid, dyn) :: article2dynamic c;
               dynamic2article := (dyn, cvid) :: dynamic2article c;
               dynamic_is_article := (dyn, true) :: dynamic_is_article c;
               dynamic_is_opus := (dyn, true) :: dynamic_is_opus c;
               article_is_note := (cvid, in_41_42 id) :: article_is_note c |}.
Proof.
  unfold publish.
  destruct (subscript data "readInfo") as [ri|] eqn:Er; cbn [rbind];
    [|discriminate].
  destruct (subscript ri "dyn_id_str") as [dyn|] eqn:Ed; [|discriminate].
  destruct (hashable dyn); cbn [negb]; [|discriminate].
  destruct (subscript ri "category") as [cat|] eqn:Ec; cbn [rbind];
    [|discriminate].
  destruct (subscript cat "id") as [id|] eqn:Ei; [|discriminate].
  intros [= <-]. now exists ri, dyn, cat, id.
Qed.

(** A [publish] that raises has not reached the note cache. *)
Lemma publish_raise (cvid : Z) (data : pyval) (c c' : CachePool) (e : exn) :
  publish cvid data c = (c', Raise e) ->
  article_is_note c' = article_is_note c.
Proof.
  unfold publish.
  destruct (rbind (subscript data "readInfo")
                  (fun ri => subscript ri "dyn_id_str")) as [dyn|];
    [|now intros [= <- _]].
  destruct (negb (hashable dyn)); [now intros [= <- _]|].
  destruct (rbind (subscript data "readInfo") _) as [id|];
    [discriminate | now intros [= <- _]].
Qed.

End FacadeFacts.

(** X23. [get_all] is memoized: after a call that returned a payload, a
    second call returns the same payload, asks the network for nothing and
    leaves the caches and the article as they were. *)
Theorem get_all_memoized
        (lib : Collaborators) (w w1 : World) (a a1 : Article) (data : pyval) :
  Article_get_all lib w a = (w1, a1, Ok data) ->
  Article_get_all lib w1 a1 = (w1, a1, Ok data).
Proof.
  unfold Article_get_all at 1.
  destruct (PyVal.truthy (_get_all_data a)) eqn:T; cbn [negb].
  - intros [= <- <- <-]. unfold Article_get_all. now rewrite T.
  - destruct (get_initial_state lib (requests w) (page_url (_cvid a)))
      as [d|]; [|discriminate].
    destruct (publish (_cvid a) d (cache_pool w)) as [c' [[]|]] eqn:P;
      cbn [rmap rbind]; [|discriminate].
    intros [= <- <- <-].
    destruct (publish_ok _ _ _ _ P) as (ri & _ & _ & _ & Er & _).
    unfold Article_get_all. cbn [_get_all_data set_get_all_data].
    now rewrite (subscript_truthy _ _ _ Er).
Qed.

Lemma get_all_memoized_witness :
  Article_get_all Sample.lib Sample.world (Article_init 2)
  = (fst (fst (Article_get_all Sample.lib Sample.world (Article_init 2))),
     snd (fst (Article_get_all Sample.lib Sample.world (Article_init 2))),
     Ok (Sample.payload Sample.link_markup))
  /\ Article_get_all
       Sample.lib
       (fst (fst (Article_get_all Sample.lib Sample.world (Article_init 2))))
       (snd (fst (Article_get_all Sample.lib Sample.world (Article_init 2))))
     = (fst (fst (Article_get_all Sample.lib Sample.world (Article_init 2))),
        snd (fst (Article_get_all Sample.lib Sample.world (Article_init 2))),
        Ok (Sample.payload Sample.link_markup)).
Proof.
  split; [reflexivity|].
  exact (get_all_memoized Sample.lib Sample.world _ (Article_init 2) _ _ eq_refl).
Defined.

(** X24. A [get_all] that fetches and returns has made exactly one request,
    for the page of the cv number, keeps the payload in the article, and
    has published it: the caches answer the cv number with the payload's
    [dyn_id_str] and with whether its category id is 41 or 42, and their
    newest entries map that dynamic id back to the cv number and mark it as
    article and as opus. *)
Theorem get_all_publishes
        (lib : Collaborators) (w w1 : World) (a a1 : Article) (data : pyval) :
  PyVal.truthy (_get_all_data a) = false ->
  Article_get_all lib w a = (w1, a1, Ok data) ->
  requests w1 = (requests w ++ [InitialState (page_url (_cvid a))])%list
  /\ a1 = set_get_all_data a data
  /\ exists ri dyn cat id,
       PyVal.subscript data "readInfo" = Ok ri
       /\ PyVal.subscript ri "dyn_id_str" = Ok dyn
       /\ PyVal.subscript ri "category" = Ok cat
       /\ PyVal.subscript cat "id" = Ok id
       /\ cache_get (_cvid a) (article2dynamic (cache_pool w1)) = Some dyn
       /\ cache_get (_cvid a) (article_is_note (cache_pool w1))
          = Some (PyVal.in_41_42 id)
       /\ hd_error (dynamic2article (cache_pool w1)) = Some (dyn, _cvid a)
       /\ hd_error (dynamic_is_article (cache_pool w1)) = Some (dyn, true)
       /\ hd_error (dynamic_is_opus (cache_pool w1)) = Some (dyn, true).
Proof.
  intros T. unfold Article_get_all. rewrite T. cbn [negb].
  destruct (get_initial_state lib (requests w) (page_url (_cvid a)))
    as [d|]; [|discriminate].
  destruct (publish (_cvid a) d (cache_pool w)) as [c' [[]|]] eqn:P;
    cbn [rmap rbind]; [|discriminate].
  intros [= <- <- <-]. split; [reflexivity|]. split; [reflexivity|].
  destruct (publish_ok _ _ _ _ P) as (ri & dyn & cat & id & Er & Ed & Ec & Ei & ->).
  exists ri, dyn, cat, id. cbn [cache_pool article2dynamic article_is_note
    dynamic2article dynamic_is_article dynamic_is_opus hd_error].
  rewrite !cache_get_head. repeat split; assumption.
Qed.

Lemma get_all_publishes_witness :
  requests (fst (fst (Article_get_all Sample.lib Sample.world (Article_init 3))))
  = [InitialState "https://www.bilibili.com/read/cv3/?jump_opus=1"]
  /\ cache_get 3 (article_is_note
                    (cache_pool (fst (fst (Article_get_all
                                             Sample.lib Sample.world
                                             (Article_init 3))))))
     = Some true.
Proof.
  pose proof (get_all_publishes
                Sample.lib Sample.world _ (Article_init 3) _
                (Sample.payload Sample.mixed_markup) eq_refl eq_refl)
    as (Hr & _ & _).
  split; [exact Hr | reflexivity].
Defined.

(** X25. When the fetched payload is truthy but cannot be published, the
    first [get_all] raises after keeping the payload; the second one then
    returns that payload without a request and without publishing, so an
    [is_note] on the article raises [KeyError] for its cv number and asks
    for nothing. *)
Theorem get_all_unpublished_payload
        (lib : Collaborators) (w : World) (a : Article) (data : pyval)
        (c' : CachePool) (e : exn) :
  PyVal.truthy (_get_all_data a) = false ->
  cache_get (_cvid a) (article_is_note (cache_pool w)) = None ->
  get_initial_state lib (requests w) (page_url (_cvid a)) = Ok data ->
  PyVal.truthy data = true ->
  publish (_cvid a) data (cache_pool w) = (c', Raise e) ->
  let w1 := {| requests := (requests w ++ [InitialState (page_url (_cvid a))])%list;
               cache_pool := c' |} in
  let a1 := set_get_all_data a data in
  Article_get_all lib w a = (w1, a1, Raise e)
  /\ Article_get_all lib w1 a1 = (w1, a1, Ok data)
  /\ Article_is_note lib w1 a1
     = (w1, a1, Raise (KeyError (PyStr.format_int (_cvid a)))).
Proof.
  intros T N G D P w1 a1.
  assert (E1 : Article_get_all lib w1 a1 = (w1, a1, Ok data)).
  { unfold Article_get_all. cbn [a1 _get_all_data set_get_all_data].
    now rewrite D. }
  split; [|split].
  - unfold Article_get_all. now rewrite T, G, P.
  - exact E1.
  - unfold Article_is_note. cbn [a1 _cvid set_get_all_data w1 cache_pool].
    rewrite (publish_raise _ _ _ _ _ P), N.
    fold a1. fold w1. rewrite E1. cbn [w1 cache_pool].
    now rewrite (publish_raise _ _ _ _ _ P), N.
Qed.

Lemma get_all_unpublished_payload_witness :
  Article_get_all uncategorised_lib Sample.world (Article_init 7)
  = (unpublished_world, set_get_all_data (Article_init 7) uncategorised_payload,
     Raise (KeyError "category"))
  /\ Article_get_all uncategorised_lib unpublished_world
                     (set_get_all_data (Article_init 7) uncategorised_payload)
     = (unpublished_world,
        set_get_all_data (Article_init 7) uncategorised_payload,
        Ok uncategorised_payload)
  /\ Article_is_note uncategorised_lib unpublished_world
                     (set_get_all_data (Article_init 7) uncategorised_payload)
     = (unpublished_world,
        set_get_all_data (Article_init 7) uncategorised_payload,
        Raise (KeyError "7")).
Proof.
  exact (get_all_unpublished_payload
           uncategorised_lib Sample.world (Article_init 7)
           uncategorised_payload (cache_pool unpublished_world)
           (KeyError "category") eq_refl eq_refl eq_refl eq_refl eq_refl).
Defined.

(** X26. The answer of [is_note] is kept per cv number, not per instance:
    once [is_note] has returned for an article, it returns the same answer
    for every article instance with that cv number, a fresh one included,
    without a request and without touching the instance. *)
Theorem is_note_cached_for_every_instance
        (lib : Collaborators) (w w1 : World) (a a1 a' : Article) (b : bool) :
  Article_is_note lib w a = (w1, a1, Ok b) ->
  _cvid a' = _cvid a ->
  Article_is_note lib w1 a' = (w1, a', Ok b).
Proof.
  intros H Hc.
  assert (G : cache_get (_cvid a) (article_is_note (cache_pool w1)) = Some b).
  { unfold Article_is_note in H.
    destruct (cache_get (_cvid a) (article_is_note (cache_pool w))) eqn:E.
    - now injection H as <- _ <-.
    - destruct (Article_get_all lib w a) as [[w2 a2] [d|e]]; [|discriminate].
      injection H as <- _ H.
      destruct (cache_get (_cvid a) (article_is_note (cache_pool w2)));
        [now injection H as <- | discriminate]. }
  unfold Article_is_note. now rewrite Hc, G.
Qed.

Lemma is_note_cached_for_every_instance_witness :
  Article_is_note Sample.lib Sample.world (Article_init 2)
  = (fst (fst (Article_is_note Sample.lib Sample.world (Article_init 2))),
     snd (fst (Article_is_note Sample.lib Sample.world (Article_init 2))),
     Ok true)
  /\ Article_is_note
       Sample.lib
       (fst (fst (Article_is_note Sample.lib Sample.world (Article_init 2))))
       (Article_init 2)
     = (fst (fst (Article_is_note Sample.lib Sample.world (Article_init 2))),
        Article_init 2, Ok true).
Proof.
  split; [reflexivity|].
  exact (is_note_cached_for_every_instance
           Sample.lib Sample.world _ (Article_init 2) _ (Article_init 2) true
           eq_refl eq_refl).
Defined.

(** X27. A [fetch_content] that raises leaves the node tree, the parsed
    flag and the cv number of the article as they were: what [markdown]
    and [json] render afterwards is what they rendered before. *)
Theorem fetch_content_failure_keeps_tree
        (lib : Collaborators) (w w' : World) (a a' : Article) (e : exn) :
  Article_fetch_content lib w a = (w', a', Raise e) ->
  _children a' = _children a
  /\ _has_parsed a' = _has_parsed a
  /\ _cvid a' = _cvid a.
Proof.
  unfold Article_fetch_content, Article_get_all.
  destruct (negb (PyVal.truthy (_get_all_data a))).
  - destruct (get_initial_state lib (requests w) (page_url (_cvid a)))
      as [data|e0]; [|intros [= <- <- <-]; auto].
    destruct (publish (_cvid a) data (cache_pool w)) as [c' [[]|e1]];
      cbn [rmap rbind]; [|intros [= <- <- <-]; auto].
    destruct (content_markup lib data); [|intros [= <- <- <-]; auto].
    destruct (content_meta data); [|intros [= <- <- <-]; auto].
    destruct (parse lib _ _) as [log [nodes|e2]]; intros [= <- <- <-]; auto.
  - destruct (content_markup lib (_get_all_data a));
      [|intros [= <- <- <-]; auto].
    destruct (content_meta (_get_all_data a));
      [|intros [= <- <- <-]; auto].
    destruct (parse lib _ _) as [log [nodes|e2]]; intros [= <- <- <-]; auto.
Qed.

Lemma fetch_content_failure_keeps_tree_witness :
  Article_fetch_content flaky_lib Sample.world (Article_init 2)
  = (link_world, link_article, Ok tt)
  /\ Article_fetch_content flaky_lib link_world link_article
     = (fst (fst (Article_fetch_content flaky_lib link_world link_article)),
        link_article, Raise NetworkException)
  /\ _children link_article = [VideoCardNode 170001]
  /\ _has_parsed link_article = true.
Proof.
  split; [reflexivity|]. split; [reflexivity|].
  destruct (fetch_content_failure_keeps_tree
              flaky_lib link_world _ link_article _
              NetworkException eq_refl) as (Hc & Hp & _).
  split; [exact Hc | exact Hp].
Defined.

Section MetaFacts.
Import PyVal.

Lemma lookup_cons {V} (k k' : string) (v : V) (d : list (string * V)) :
  lookup k ((k', v) :: d) = if String.eqb k' k then Some v else lookup k d.
Proof. unfold lookup. cbn [find fst snd]. now destruct (String.eqb k' k). Qed.

Lemma delitem_others (d m : list (string * pyval)) (k k' : string) :
  delitem d k = Ok m -> k' <> k -> lookup k' m = lookup k' d.
Proof.
  revert m. induction d as [|[k0 v] d IH]; intros m; [discriminate|].
  cbn [delitem]. destruct (String.eqb k0 k) eqn:E.
  - intros [= <-] Hn. rewrite lookup_cons. apply String.eqb_eq in E. subst k0.
    assert (F : String.eqb k k' = false)
      by (apply String.eqb_neq; congruence).
    now rewrite F.
  - destruct (delitem d k) as [r|]; cbn [rmap rbind]; [|discriminate].
    intros [= <-] Hn. rewrite !lookup_cons. now rewrite (IH r eq_refl Hn).
Qed.

Lemma lookup_not_in {V} (k : string) (d : list (string * V)) :
  ~ In k (map fst d) -> lookup k d = None.
Proof.
  induction d as [|[k0 v] d IH]; [reflexivity|]. cbn [map fst In].
  intros H. rewrite lookup_cons.
  destruct (String.eqb k0 k) eqn:E.
  - apply String.eqb_eq in E. tauto.
  - apply IH. tauto.
Qed.

Lemma delitem_key_gone (d m : list (string * pyval)) (k : string) :
  delitem d k = Ok m -> NoDup (map fst d) -> lookup k m = None.
Proof.
  revert m. induction d as [|[k0 v] d IH]; intros m; [discriminate|].
  cbn [delitem map fst]. destruct (String.eqb k0 k) eqn:E.
  - intros [= <-] N. apply String.eqb_eq in E. subst k0.
    apply lookup_not_in. now inversion_clear N.
  - destruct (delitem d k) as [r|]; cbn [rmap rbind]; [|discriminate].
    intros [= <-] N. rewrite lookup_cons, E. apply (IH r eq_refl).
    now inversion_clear N.
Qed.

Lemma delitem_length (d m : list (string * pyval)) (k : string) :
  delitem d k = Ok m -> List.length d = S (List.length m).
Proof.
  revert m. induction d as [|[k0 v] d IH]; intros m; [discriminate|].
  cbn [delitem]. destruct (String.eqb k0 k).
  - now intros [= <-].
  - destruct (delitem d k) as [r|]; cbn [rmap rbind]; [|discriminate].
    intros [= <-]. cbn [List.length]. now rewrite (IH r eq_refl).
Qed.

End MetaFacts.

(** X28. After a successful [fetch_content] the metadata of the article is
    the [readInfo] dict of the kept payload with one entry less: every key
    other than [content] has the value it has in [readInfo], and [content]
    itself, a dict having each key once, is gone. *)
Theorem fetch_content_metadata
        (lib : Collaborators) (w w1 : World) (a a1 : Article) :
  Article_fetch_content lib w a = (w1, a1, Ok tt) ->
  exists d m,
    PyVal.subscript (_get_all_data a1) "readInfo" = Ok (PDict d)
    /\ _meta a1 = PDict m
    /\ List.length d = S (List.length m)
    /\ (forall k, k <> "content" -> lookup k m = lookup k d)
    /\ (NoDup (map fst d) -> lookup "content" m = None).
Proof.
  intros H.
  destruct (fetch_content_success lib w w1 a a1 H)
    as (markup & meta & _ & Et & Hm & _).
  unfold content_meta in Et.
  destruct (PyVal.subscript (_get_all_data a1) "readInfo") as [ri|];
    cbn [rbind] in Et; [|discriminate].
  destruct ri as [| | | | |l|d]; try discriminate.
  destruct (PyVal.delitem d "content") as [m|] eqn:Ed; cbn [rmap rbind] in Et;
    [|discriminate].
  injection Et as <-. exists d, m. split; [reflexivity|]. split; [exact Hm|].
  split; [exact (delitem_length _ _ _ Ed)|]. split.
  - intros k Hk. exact (delitem_others _ _ _ _ Ed Hk).
  - exact (delitem_key_gone _ _ _ Ed).
Qed.

Lemma fetch_content_metadata_witness :
  Article_fetch_content Sample.lib Sample.world (Article_init 2)
  = (link_world, link_article, Ok tt)
  /\ exists d m,
       PyVal.subscript (_get_all_data link_article) "readInfo" = Ok (PDict d)
       /\ _meta link_article = PDict m
       /\ List.length d = S (List.length m)
       /\ (forall k, k <> "content" -> lookup k m = lookup k d)
       /\ (NoDup (map fst d) -> lookup "content" m = None).
Proof.
  split; [reflexivity|].
  exact (fetch_content_metadata
           Sample.lib Sample.world link_world (Article_init 2) link_article
           eq_refl).
Defined.

(** * [bilibili_api.music] *)

Lemma MusicOrder_value_injective (o o' : MusicOrder) :
  MusicOrder_value o = MusicOrder_value o' -> o = o'.
Proof. destruct o, o'; intros H; try reflexivity; discriminate H. Qed.

Lemma Lang_value_injective (l l' : MusicIndexTags.Lang.t) :
  MusicIndexTags.Lang.value l = MusicIndexTags.Lang.value l' -> l = l'.
Proof. destruct l, l'; intros H; try reflexivity; discriminate H. Qed.

Lemma Genre_value_injective (g g' : MusicIndexTags.Genre.t) :
  MusicIndexTags.Genre.value g = MusicIndexTags.Genre.value g' -> g = g'.
Proof. destruct g, g'; intros H; try reflexivity; discriminate H. Qed.

(** X29. The query of [get_music_index_info] tells its arguments apart:
    two calls that send the same [params] were given the same keyword,
    language, genre, order, page number and page size.  No two members of
    [MusicOrder], of [Lang] or of [Genre] share a value. *)
Theorem music_index_params_injective
        keyword lang genre order page_num page_size
        keyword' lang' genre' order' page_num' page_size' :
  music_index_params keyword lang genre order page_num page_size
  = music_index_params keyword' lang' genre' order' page_num' page_size' ->
  keyword = keyword' /\ lang = lang' /\ genre = genre' /\ order = order'
  /\ page_num = page_num' /\ page_size = page_size'.
Proof.
  unfold music_index_params. intros [= Ho Hl Hg Hk Hn Hs].
  repeat split; try assumption.
  - now apply Lang_value_injective.
  - now apply Genre_value_injective.
  - now apply MusicOrder_value_injective.
Qed.

Lemma music_index_params_injective_witness :
  NEW = NEW /\ MusicIndexTags.Genre.ROCK = MusicIndexTags.Genre.ROCK.
Proof.
  destruct (music_index_params_injective
              "" MusicIndexTags.Lang.JAPAN MusicIndexTags.Genre.ROCK NEW 1 10
              "" MusicIndexTags.Lang.JAPAN MusicIndexTags.Genre.ROCK NEW 1 10
              eq_refl) as (_ & _ & Hg & Ho & _).
  split; [exact Ho | exact Hg].
Defined.

(** * Spans without text *)

(** X30. A span that holds no text adds nothing unless it is struck
    out, sized or coloured: with a style other than line-through, or with
    a first class token that names neither a font size nor a colour,
    everything below it is dropped unparsed, images and cards included. *)
Theorem span_without_text_is_dropped
        (lib : Collaborators) class attrs cs log :
  Bs4.text (Tag "span" class attrs cs) = "" ->
  (forall style,
     lookup "style" attrs = Some style ->
     PyStr.contains "text-decoration: line-through" style = false ->
     parse_item lib (Tag "span" class attrs cs) log = (log, Ok []))
  /\ (forall className more,
        lookup "style" attrs = None ->
        class = Some (className :: more) ->
        PyStr.contains "font-size" className = false ->
        PyStr.contains "color" className = false ->
        parse_item lib (Tag "span" class attrs cs) log = (log, Ok [])).
Proof.
  intros Ht. split.
  - intros style Hs Hl. rewrite parse_item_span. cbv zeta.
    now rewrite Hs, Hl, Ht.
  - intros className more Hs -> Hf Hc. rewrite parse_item_span. cbv zeta.
    now rewrite Hs, Hf, Hc, Ht.
Qed.

Lemma span_without_text_is_dropped_witness :
  parse_item Sample.lib
    (Tag "span" None [("style", "font-weight: bold")]
         [Tag "img" (Some ["pic"]) [("data-src", "//i0.hdslb.com/a.png")] []])
    []
  = ([], Ok [])
  /\ parse_item Sample.lib
       (Tag "span" (Some ["note"]) []
            [Tag "img" (Some ["pic"]) [("data-src", "//i0.hdslb.com/a.png")] []])
       []
     = ([], Ok []).
Proof.
  split.
  - exact (proj1 (span_without_text_is_dropped
                    Sample.lib None [("style", "font-weight: bold")]
                    [Tag "img" (Some ["pic"])
                         [("data-src", "//i0.hdslb.com/a.png")] []]
                    [] eq_refl)
                 "font-weight: bold" eq_refl eq_refl).
  - exact (proj2 (span_without_text_is_dropped
                    Sample.lib (Some ["note"]) []
                    [Tag "img" (Some ["pic"])
                         [("data-src", "//i0.hdslb.com/a.png")] []]
                    [] eq_refl)
                 "note" [] eq_refl eq_refl eq_refl eq_refl).
Defined.
